(** * sysmon (core): a shallow embedding of the metrics engine

    The development follows the C sources:
    - [sysmon.h] / [sysmon_internal.h]: result codes, metric records, the
      module capability table and the per-module instance record;
    - [sysmon_snapshot.c]: snapshot builder and read-only snapshot;
    - [sysmon_ini.c], [sysmon_config.c]: the configuration file, its
      loader and the lookups;
    - [sysmon.c], [sysmon_time.c]: engine construction, destruction and the
      poll round;
    - [modules/*.c]: the cpu, ram, battery, network and storage collectors
      and the registry of built-in modules.

    Conventions.
    - [uint64_t] and [uint32_t] values are integers of [Z]; every C
      operation that can wrap is written with an explicit [mod].
    - [size_t] counts and indices are [nat].
    - [double] is the primitive binary64 type [float] of the kernel.
    - A nullable pointer is an [option].
    - [malloc], [calloc], [realloc] and [strdup] are taken to succeed; the
      out-of-memory outcome of a module enters the engine through the result
      code of its [poll] or [create] function.  The [add] functions of the
      builder are modelled a second time with an explicit allocator
      ([heap_plan]), for what they do when a request is refused.
    - Of the platform branches of the collectors the [__linux__] one is
      modelled.
    - Platform reads (/proc, statvfs, the clock) are inputs: an [os_world]
      record for one round, and a [sysmon_clock] for CLOCK_MONOTONIC.
    - The configuration file is an input as well: a function from paths
      to the bytes [fopen] and [fgets] deliver, or to the reason the file
      cannot be opened. *)

From Stdlib Require Import ZArith List String Ascii Bool Lia Floats Uint63.
From Stdlib Require Import DecimalString.
Import ListNotations.

Local Open Scope string_scope.
Local Open Scope Z_scope.

(* ================================================================= *)
(** ** Result codes and metric records (sysmon.h) *)

Inductive sysmon_result : Type :=
| SYSMON_OK
| SYSMON_ERR_INVALID_ARGUMENT
| SYSMON_ERR_IO
| SYSMON_ERR_PARSE
| SYSMON_ERR_NOT_SUPPORTED
| SYSMON_ERR_OUT_OF_MEMORY
| SYSMON_ERR_INTERNAL.

Definition sysmon_result_code (r : sysmon_result) : Z :=
  match r with
  | SYSMON_OK => 0
  | SYSMON_ERR_INVALID_ARGUMENT => 1
  | SYSMON_ERR_IO => 2
  | SYSMON_ERR_PARSE => 3
  | SYSMON_ERR_NOT_SUPPORTED => 4
  | SYSMON_ERR_OUT_OF_MEMORY => 5
  | SYSMON_ERR_INTERNAL => 6
  end.

Definition result_eqb (a b : sysmon_result) : bool :=
  Z.eqb (sysmon_result_code a) (sysmon_result_code b).

Inductive sysmon_metric_type : Type :=
| SYSMON_METRIC_DOUBLE
| SYSMON_METRIC_INT64
| SYSMON_METRIC_UINT64
| SYSMON_METRIC_STRING.

(** The [value] union of a metric.  A record cleared by [memset] reads as
    the zero of whichever member its type tag selects. *)
Inductive metric_value : Type :=
| V_f64 (f : float)
| V_i64 (i : Z)
| V_u64 (u : Z)
| V_str (s : option string).

Record sysmon_metric : Type := mk_metric {
  m_name : option string;
  m_unit : option string;
  m_type : sysmon_metric_type;
  m_value : metric_value
}.

Definition zero_value (t : sysmon_metric_type) : metric_value :=
  match t with
  | SYSMON_METRIC_DOUBLE => V_f64 0%float
  | SYSMON_METRIC_INT64 => V_i64 0
  | SYSMON_METRIC_UINT64 => V_u64 0
  | SYSMON_METRIC_STRING => V_str None
  end.

(* ================================================================= *)
(** ** Fixed-width integers and C strings *)

Definition UINT64_MOD : Z := 2 ^ 64.
Definition UINT32_MAX : Z := 4294967295.

Definition wrap64 (z : Z) : Z := z mod UINT64_MOD.

(** [a - b] on [uint64_t]. *)
Definition sub64 (a b : Z) : Z := wrap64 (a - b).

(** [snprintf(dst, n, "%s", s)]: at most [n - 1] characters are stored. *)
Definition snprintf_s (n : nat) (s : string) : string :=
  String.substring 0 (n - 1) s.

Definition ascii_code (c : ascii) : N := N_of_ascii c.

Definition isspace (c : ascii) : bool :=
  let n := ascii_code c in
  ((n =? 32) || ((9 <=? n) && (n <=? 13)))%N.

Definition isdigit (c : ascii) : bool :=
  let n := ascii_code c in
  ((48 <=? n) && (n <=? 57))%N.

Definition digit_value (c : ascii) : Z := Z.of_N (ascii_code c) - 48.

Definition tolower (c : ascii) : ascii :=
  let n := ascii_code c in
  if ((65 <=? n) && (n <=? 90))%N then ascii_of_N (n + 32) else c.

Fixpoint string_map (f : ascii -> ascii) (s : string) : string :=
  match s with
  | EmptyString => EmptyString
  | String c r => String (f c) (string_map f r)
  end.

(** [strcmp(a, b) == 0] and [strcasecmp(a, b) == 0]. *)
Definition streq (a b : string) : bool := String.eqb a b.
Definition strcaseeq (a b : string) : bool :=
  String.eqb (string_map tolower a) (string_map tolower b).

(** [strncmp(s, p, strlen(p)) == 0]. *)
Definition starts_with (p s : string) : bool := String.prefix p s.

(* ================================================================= *)
(** ** Snapshot builder and snapshot (sysmon_snapshot.c) *)

(** [metrics] together with [count] is the list of initialised records;
    a NULL array is the empty list. *)
Record sysmon_snapshot : Type := mk_snapshot {
  s_metrics : list sysmon_metric
}.

Record sysmon_snapshot_builder : Type := mk_builder {
  b_metrics : list sysmon_metric;
  b_capacity : nat
}.

Definition s_count (s : sysmon_snapshot) : nat := List.length (s_metrics s).
Definition b_count (b : sysmon_snapshot_builder) : nat :=
  List.length (b_metrics b).

Definition ensure_capacity (b : sysmon_snapshot_builder)
  : sysmon_result * sysmon_snapshot_builder :=
  if (b_count b <? b_capacity b)%nat then (SYSMON_OK, b)
  else
    let new_cap := if (b_capacity b =? 0)%nat then 32%nat
                   else (b_capacity b * 2)%nat in
    (SYSMON_OK, mk_builder (b_metrics b) new_cap).

(** A fresh builder is zero-filled by [calloc]. *)
Definition sysmon_snapshot_builder_create : sysmon_result * sysmon_snapshot_builder :=
  (SYSMON_OK, mk_builder [] 0).

(** The records released by the destructor, in array order. *)
Definition sysmon_snapshot_builder_destroy (b : sysmon_snapshot_builder)
  : list sysmon_metric :=
  b_metrics b.

Definition sysmon_snapshot_builder_finalize (b : sysmon_snapshot_builder)
  : sysmon_result * sysmon_snapshot_builder * option sysmon_snapshot :=
  (SYSMON_OK, mk_builder [] 0, Some (mk_snapshot (b_metrics b))).

Definition add_common (b : sysmon_snapshot_builder) (name unit_ : option string)
    (type : sysmon_metric_type) : sysmon_result * sysmon_snapshot_builder :=
  match name with
  | None => (SYSMON_ERR_INVALID_ARGUMENT, b)
  | Some n =>
      let '(rc, b1) := ensure_capacity b in
      if negb (result_eqb rc SYSMON_OK) then (rc, b1)
      else
        let m := mk_metric (Some n) unit_ type (zero_value type) in
        (SYSMON_OK, mk_builder (b_metrics b1 ++ [m]) (b_capacity b1))
  end.

(** Assignment to [builder->metrics[builder->count - 1].value]. *)
Fixpoint set_last_value (v : metric_value) (l : list sysmon_metric)
  : list sysmon_metric :=
  match l with
  | [] => []
  | [m] => [mk_metric (m_name m) (m_unit m) (m_type m) v]
  | m :: r => m :: set_last_value v r
  end.

Definition add_with_value (b : sysmon_snapshot_builder) (name unit_ : option string)
    (type : sysmon_metric_type) (v : metric_value)
  : sysmon_result * sysmon_snapshot_builder :=
  let '(rc, b1) := add_common b name unit_ type in
  if negb (result_eqb rc SYSMON_OK) then (rc, b1)
  else (SYSMON_OK, mk_builder (set_last_value v (b_metrics b1)) (b_capacity b1)).

Definition sysmon_snapshot_builder_add_double b name unit_ (value : float) :=
  add_with_value b name unit_ SYSMON_METRIC_DOUBLE (V_f64 value).

Definition sysmon_snapshot_builder_add_i64 b name unit_ (value : Z) :=
  add_with_value b name unit_ SYSMON_METRIC_INT64 (V_i64 value).

Definition sysmon_snapshot_builder_add_u64 b name unit_ (value : Z) :=
  add_with_value b name unit_ SYSMON_METRIC_UINT64 (V_u64 value).

(** A NULL [value] is stored as a copy of the empty string. *)
Definition sysmon_snapshot_builder_add_string b name unit_ (value : option string) :=
  add_with_value b name unit_ SYSMON_METRIC_STRING
    (V_str (Some (match value with Some v => v | None => EmptyString end))).

Definition sysmon_snapshot_metric_count (snapshot : option sysmon_snapshot) : nat :=
  match snapshot with
  | Some s => s_count s
  | None => 0%nat
  end.

Definition sysmon_snapshot_metric_at (snapshot : option sysmon_snapshot)
    (index : nat) : option sysmon_metric :=
  match snapshot with
  | None => None
  | Some s =>
      if (s_count s <=? index)%nat then None
      else nth_error (s_metrics s) index
  end.

Definition name_matches (name : string) (m : sysmon_metric) : bool :=
  match m_name m with
  | Some n => streq n name
  | None => false
  end.

(** The loop of [sysmon_snapshot_find]: the index of the returned element. *)
Fixpoint find_index (name : string) (i : nat) (ms : list sysmon_metric)
  : option nat :=
  match ms with
  | [] => None
  | m :: r => if name_matches name m then Some i else find_index name (S i) r
  end.

Definition sysmon_snapshot_find (snapshot : option sysmon_snapshot)
    (name : option string) : option sysmon_metric :=
  match snapshot, name with
  | Some s, Some n =>
      match find_index n 0 (s_metrics s) with
      | Some i => nth_error (s_metrics s) i
      | None => None
      end
  | _, _ => None
  end.

(* ================================================================= *)
(** ** Configuration lookups (sysmon_ini.c, sysmon_config.c) *)

Record sysmon_ini_entry : Type := mk_entry {
  e_section : string;
  e_key : string;
  e_value : string
}.

(** The entries in file order. *)
Definition sysmon_ini : Type := list sysmon_ini_entry.

Fixpoint sysmon_ini_get (ini : sysmon_ini) (section key : string) : option string :=
  match ini with
  | [] => None
  | e :: r =>
      if streq (e_section e) section && streq (e_key e) key then Some (e_value e)
      else sysmon_ini_get r section key
  end.

Definition parse_bool (s : option string) (default_value : bool) : bool :=
  match s with
  | None => default_value
  | Some s =>
      if streq s "1" then true
      else if streq s "0" then false
      else if strcaseeq s "true" then true
      else if strcaseeq s "false" then false
      else if strcaseeq s "yes" then true
      else if strcaseeq s "no" then false
      else if strcaseeq s "on" then true
      else if strcaseeq s "off" then false
      else default_value
  end.

Definition sysmon_ini_get_bool (ini : sysmon_ini) (section key : string)
    (default_value : bool) : bool :=
  parse_bool (sysmon_ini_get ini section key) default_value.

(** [strtoul(v, &end, 10)] with a 64-bit [unsigned long]. *)
Definition ULONG_MAX : Z := 2 ^ 64 - 1.

Fixpoint skip_spaces (s : string) : string :=
  match s with
  | String c r => if isspace c then skip_spaces r else s
  | EmptyString => s
  end.

(** Consumes the digit run: accumulated value, whether a digit was seen,
    whether the value left the range, and the unread rest. *)
Fixpoint scan_digits (s : string) (acc : Z) (any ovf : bool)
  : Z * bool * bool * string :=
  match s with
  | String c r =>
      if isdigit c then
        let acc' := acc * 10 + digit_value c in
        if ovf || (ULONG_MAX <? acc') then scan_digits r ULONG_MAX true true
        else scan_digits r acc' true false
      else (acc, any, ovf, s)
  | EmptyString => (acc, any, ovf, s)
  end.

Record strtoul_result : Type := mk_strtoul {
  su_value : Z;          (* the returned number *)
  su_converted : bool;   (* [end != v] *)
  su_rest : string;      (* the characters from [end] on *)
  su_erange : bool       (* [errno == ERANGE] *)
}.

Definition strtoul10 (v : string) : strtoul_result :=
  let s := skip_spaces v in
  let '(neg, s1) :=
    match s with
    | String "-"%char r => (true, r)
    | String "+"%char r => (false, r)
    | _ => (false, s)
    end in
  let '(acc, any, ovf, rest) := scan_digits s1 0 false false in
  if negb any then mk_strtoul 0 false v false
  else if ovf then mk_strtoul ULONG_MAX true rest true
  else mk_strtoul (if neg then wrap64 (- acc) else acc) true rest false.

(** Returns the value and the [out_ok] flag. *)
Definition sysmon_ini_get_u32 (ini : sysmon_ini) (section key : string)
    (default_value : Z) : Z * bool :=
  match sysmon_ini_get ini section key with
  | None => (default_value, true)
  | Some EmptyString => (default_value, true)
  | Some v =>
      let r := strtoul10 v in
      if su_erange r || negb (su_converted r)
         || negb (streq (su_rest r) EmptyString)
         || (UINT32_MAX <? su_value r)
      then (default_value, false)
      else (su_value r, true)
  end.

Record sysmon_config : Type := mk_config {
  interval_ms : Z
}.

Definition sysmon_config_load_from_ini (ini : option sysmon_ini)
  : sysmon_result * sysmon_config * option string :=
  match ini with
  | None => (SYSMON_OK, mk_config 1000, None)
  | Some ini =>
      let '(interval, ok) := sysmon_ini_get_u32 ini "sysmon" "interval_ms" 1000 in
      if negb ok || (interval =? 0)%Z then
        (SYSMON_ERR_PARSE, mk_config 1000,
         Some "invalid sysmon.interval_ms (must be an integer > 0)")
      else (SYSMON_OK, mk_config interval, None)
  end.

(* ================================================================= *)
(** ** The monotonic clock (sysmon_time.c) *)

(** [ck_source k] is what the [k]-th call of [clock_gettime] returns:
    [None] when it fails, otherwise [(tv_sec, tv_nsec)]. *)
Record sysmon_clock : Type := mk_clock {
  ck_reads : nat;
  ck_source : nat -> option (Z * Z)
}.

Definition sysmon_now_ms (ck : sysmon_clock) : Z * sysmon_clock :=
  let ck' := mk_clock (S (ck_reads ck)) (ck_source ck) in
  match ck_source ck (ck_reads ck) with
  | None => (0, ck')
  | Some (tv_sec, tv_nsec) =>
      (wrap64 (wrap64 tv_sec * 1000 + wrap64 tv_nsec / 1000000), ck')
  end.

(* ================================================================= *)
(** ** Module abstraction and engine (sysmon_internal.h, sysmon.c) *)

Section Engine.

(** [World] is what the platform shows a module during one call;
    [St] is what the opaque [void *state] of a module points to. *)
Variables World St : Type.

Record create_out : Type := mk_create_out {
  co_rc : sysmon_result;
  co_state : option St;          (* [*out_state] after the call *)
  co_error : option string       (* [*out_error] after the call *)
}.

Record poll_out : Type := mk_poll_out {
  po_rc : sysmon_result;
  po_state : option St;          (* the state object after the call *)
  po_builder : sysmon_snapshot_builder;
  po_error : option string
}.

Definition poll_fn : Type :=
  World -> option St -> Z -> bool -> sysmon_snapshot_builder -> poll_out.

Record sysmon_module_vtable : Type := mk_vtable {
  vt_name : string;
  vt_create : World -> sysmon_ini -> string -> create_out;
  vt_poll : option poll_fn;
  vt_destroy : option (St -> unit)
}.

Record sysmon_module_instance : Type := mk_instance {
  inst_vtable : option sysmon_module_vtable;
  inst_state : option St;
  inst_enabled : bool;
  inst_refresh_ms : Z;
  inst_last_refresh_ms : Z
}.

(** An element of the [calloc]ed module array that the loop of
    [init_modules] has not reached. *)
Definition zero_instance : sysmon_module_instance :=
  mk_instance None None false 0 0.

Record sysmon_t : Type := mk_sysmon {
  sm_config : sysmon_config;
  sm_ini : option sysmon_ini;
  sm_modules : list sysmon_module_instance;
  sm_last_error : option string
}.

Definition or_default (e : option string) (d : string) : string :=
  match e with Some m => m | None => d end.

Definition module_section (name : string) : string :=
  snprintf_s 128 ("module." ++ name).

(** The loop of [init_modules] over the registry; on failure the
    remaining array elements stay zero-filled. *)
Fixpoint init_loop (w : World) (ini : sysmon_ini)
    (builtins : list sysmon_module_vtable)
  : sysmon_result * list sysmon_module_instance * option string :=
  match builtins with
  | [] => (SYSMON_OK, [], None)
  | vt :: rest =>
      let section := module_section (vt_name vt) in
      let enabled := sysmon_ini_get_bool ini section "enabled" true in
      let '(refresh_ms, ok) := sysmon_ini_get_u32 ini section "refresh_ms" 0 in
      let inst := mk_instance (Some vt) None enabled refresh_ms 0 in
      let continue_with (i : sysmon_module_instance) :=
        let '(rc, l, e) := init_loop w ini rest in (rc, i :: l, e) in
      if negb ok then
        (SYSMON_ERR_PARSE, inst :: map (fun _ => zero_instance) rest,
         Some "invalid refresh_ms (must be uint32)")
      else if negb enabled then continue_with inst
      else
        let co := vt_create vt w ini section in
        if result_eqb (co_rc co) SYSMON_ERR_NOT_SUPPORTED then
          continue_with (mk_instance (Some vt) (co_state co) false refresh_ms 0)
        else if negb (result_eqb (co_rc co) SYSMON_OK) then
          (co_rc co,
           mk_instance (Some vt) (co_state co) enabled refresh_ms 0
             :: map (fun _ => zero_instance) rest,
           Some (or_default (co_error co) "module create failed"))
        else
          continue_with (mk_instance (Some vt) (co_state co) enabled refresh_ms 0)
  end.

Definition init_modules (builtins : list sysmon_module_vtable) (w : World)
    (s : sysmon_t) : sysmon_result * sysmon_t :=
  match builtins with
  | [] => (SYSMON_ERR_INTERNAL, s)
  | _ =>
      (* every lookup in a NULL ini finds nothing *)
      let ini := match sm_ini s with Some i => i | None => [] end in
      let '(rc, ms, e) := init_loop w ini builtins in
      (rc, mk_sysmon (sm_config s) (sm_ini s) ms
             (match e with Some _ => e | None => sm_last_error s end))
  end.

(** The [destroy] calls made for one array element. *)
Definition destroy_instance (inst : sysmon_module_instance)
  : list (string * St) :=
  match inst_state inst, inst_vtable inst with
  | Some st, Some vt =>
      match vt_destroy vt with
      | Some _ => [(vt_name vt, st)]
      | None => []
      end
  | _, _ => []
  end.

(** [sysmon_destroy]: the module states released, in array order. *)
Definition sysmon_destroy (s : option sysmon_t) : list (string * St) :=
  match s with
  | None => []
  | Some s => flat_map destroy_instance (sm_modules s)
  end.

Record create_result : Type := mk_create_result {
  cr_rc : sysmon_result;
  cr_sysmon : option sysmon_t;           (* [*out_sysmon] *)
  cr_released : list (string * St)       (* states destroyed on the way *)
}.

(** [load] is the outcome of [sysmon_ini_load_file] on the configured
    path: result code, [*out_ini] and [*out_error]. *)
Definition sysmon_create (builtins : list sysmon_module_vtable) (w : World)
    (load : sysmon_result * option sysmon_ini * option string)
  : create_result :=
  let s0 := mk_sysmon (mk_config 0) None [] None in
  let '(lrc, lini, lerr) := load in
  if negb (result_eqb lrc SYSMON_OK) then
    let s1 := mk_sysmon (sm_config s0) lini []
                (Some (or_default lerr "failed to load ini")) in
    mk_create_result lrc None (sysmon_destroy (Some s1))
  else
    let '(crc, cfg, cerr) := sysmon_config_load_from_ini lini in
    if negb (result_eqb crc SYSMON_OK) then
      let s1 := mk_sysmon cfg lini []
                  (Some (or_default cerr "failed to load config")) in
      mk_create_result crc None (sysmon_destroy (Some s1))
    else
      let '(mrc, s2) := init_modules builtins w (mk_sysmon cfg lini [] None) in
      if negb (result_eqb mrc SYSMON_OK) then
        mk_create_result mrc None (sysmon_destroy (Some s2))
      else mk_create_result SYSMON_OK (Some s2) [].

Definition sysmon_interval_ms (s : option sysmon_t) : Z :=
  match s with Some s => interval_ms (sm_config s) | None => 0 end.

Definition sysmon_last_error (s : option sysmon_t) : option string :=
  match s with Some s => sm_last_error s | None => None end.

(** *** The poll round *)

Definition add_module_error (b : sysmon_snapshot_builder)
    (module_name message : string) : sysmon_snapshot_builder :=
  let name := snprintf_s 192 ("module." ++ module_name ++ ".error") in
  snd (sysmon_snapshot_builder_add_string b (Some name) None (Some message)).

(** [refresh_now] as computed in the loop of [sysmon_poll]; the
    subtraction is the unsigned 64-bit one. *)
Definition refresh_due (inst : sysmon_module_instance) (now_ms : Z) : bool :=
  (inst_refresh_ms inst =? 0)
  || (inst_last_refresh_ms inst =? 0)
  || (inst_refresh_ms inst <=? sub64 now_ms (inst_last_refresh_ms inst)).

(** One invocation of a module's [poll], as seen by the engine. *)
Record poll_call : Type := mk_call {
  pc_index : nat;
  pc_name : string;
  pc_now : Z;
  pc_refresh_now : bool;
  pc_rc : sysmon_result;
  pc_error : option string;       (* [module_err] after the call *)
  pc_added : list sysmon_metric   (* records the module left beyond the old count *)
}.

Inductive step_result : Type :=
| StepSkip
| StepNext (inst' : sysmon_module_instance) (b' : sysmon_snapshot_builder)
           (call : poll_call)
| StepAbort (inst' : sysmon_module_instance) (b' : sysmon_snapshot_builder)
            (call : poll_call) (err : string).

Definition set_state (inst : sysmon_module_instance) (st : option St) :=
  mk_instance (inst_vtable inst) st (inst_enabled inst)
              (inst_refresh_ms inst) (inst_last_refresh_ms inst).

Definition set_last_refresh (inst : sysmon_module_instance) (now_ms : Z) :=
  mk_instance (inst_vtable inst) (inst_state inst) (inst_enabled inst)
              (inst_refresh_ms inst) now_ms.

(** The body of the loop of [sysmon_poll] for the element at index [i]. *)
Definition poll_instance (w : World) (now_ms : Z) (i : nat)
    (inst : sysmon_module_instance) (b : sysmon_snapshot_builder)
  : step_result :=
  if negb (inst_enabled inst) then StepSkip
  else
    match inst_vtable inst with
    | None => StepSkip
    | Some vt =>
        match vt_poll vt with
        | None => StepSkip
        | Some poll =>
            let refresh_now := refresh_due inst now_ms in
            let out := poll w (inst_state inst) now_ms refresh_now b in
            let call := mk_call i (vt_name vt) now_ms refresh_now (po_rc out)
                          (po_error out)
                          (skipn (b_count b) (b_metrics (po_builder out))) in
            let inst1 := set_state inst (po_state out) in
            if result_eqb (po_rc out) SYSMON_OK then
              StepNext (if refresh_now then set_last_refresh inst1 now_ms else inst1)
                       (po_builder out) call
            else if result_eqb (po_rc out) SYSMON_ERR_OUT_OF_MEMORY then
              StepAbort inst1 (po_builder out) call
                        (or_default (po_error out) "out of memory")
            else
              StepNext inst1
                (add_module_error (po_builder out) (vt_name vt)
                   (or_default (po_error out) "module error"))
                call
        end
    end.

Record loop_result : Type := mk_loop {
  lr_modules : list sysmon_module_instance;
  lr_builder : sysmon_snapshot_builder;
  lr_calls : list poll_call;
  lr_abort : option string
}.

Fixpoint poll_modules (w : World) (now_ms : Z) (i : nat)
    (ms : list sysmon_module_instance) (b : sysmon_snapshot_builder)
  : loop_result :=
  match ms with
  | [] => mk_loop [] b [] None
  | inst :: rest =>
      match poll_instance w now_ms i inst b with
      | StepSkip =>
          let r := poll_modules w now_ms (S i) rest b in
          mk_loop (inst :: lr_modules r) (lr_builder r) (lr_calls r) (lr_abort r)
      | StepNext inst' b' call =>
          let r := poll_modules w now_ms (S i) rest b' in
          mk_loop (inst' :: lr_modules r) (lr_builder r)
                  (call :: lr_calls r) (lr_abort r)
      | StepAbort inst' b' call err =>
          mk_loop (inst' :: rest) b' [call] (Some err)
      end
  end.

Record poll_result : Type := mk_poll_result {
  pr_rc : sysmon_result;
  pr_snapshot : option sysmon_snapshot;      (* [*out_snapshot] *)
  pr_sysmon : sysmon_t;                      (* the engine after the round *)
  pr_clock : sysmon_clock;
  pr_calls : list poll_call;
  pr_released : list sysmon_metric           (* freed with the builder *)
}.

Definition sysmon_poll (ck : sysmon_clock) (w : World) (s : sysmon_t)
  : poll_result :=
  let '(rc, builder) := sysmon_snapshot_builder_create in
  if negb (result_eqb rc SYSMON_OK) then mk_poll_result rc None s ck [] []
  else
    let '(now_ms, ck') := sysmon_now_ms ck in
    let r := poll_modules w now_ms 0 (sm_modules s) builder in
    match lr_abort r with
    | Some err =>
        mk_poll_result SYSMON_ERR_OUT_OF_MEMORY None
          (mk_sysmon (sm_config s) (sm_ini s) (lr_modules r) (Some err))
          ck' (lr_calls r)
          (sysmon_snapshot_builder_destroy (lr_builder r))
    | None =>
        let '(frc, b', snap) := sysmon_snapshot_builder_finalize (lr_builder r) in
        mk_poll_result frc snap
          (mk_sysmon (sm_config s) (sm_ini s) (lr_modules r) (sm_last_error s))
          ck' (lr_calls r)
          (sysmon_snapshot_builder_destroy b')
    end.

End Engine.

Arguments mk_create_out {St}.
Arguments co_rc {St}.
Arguments co_state {St}.
Arguments co_error {St}.
Arguments mk_poll_out {St}.
Arguments po_rc {St}.
Arguments po_state {St}.
Arguments po_builder {St}.
Arguments po_error {St}.
Arguments mk_vtable {World St}.
Arguments vt_name {World St}.
Arguments vt_create {World St}.
Arguments vt_poll {World St}.
Arguments vt_destroy {World St}.
Arguments mk_instance {World St}.
Arguments inst_vtable {World St}.
Arguments inst_state {World St}.
Arguments inst_enabled {World St}.
Arguments inst_refresh_ms {World St}.
Arguments inst_last_refresh_ms {World St}.
Arguments zero_instance {World St}.
Arguments mk_sysmon {World St}.
Arguments sm_config {World St}.
Arguments sm_ini {World St}.
Arguments sm_modules {World St}.
Arguments sm_last_error {World St}.
Arguments init_loop {World St}.
Arguments init_modules {World St}.
Arguments destroy_instance {World St}.
Arguments sysmon_destroy {World St}.
Arguments mk_create_result {World St}.
Arguments cr_rc {World St}.
Arguments cr_sysmon {World St}.
Arguments cr_released {World St}.
Arguments sysmon_create {World St}.
Arguments sysmon_interval_ms {World St}.
Arguments sysmon_last_error {World St}.
Arguments refresh_due {World St}.
Arguments StepSkip {World St}.
Arguments StepNext {World St}.
Arguments StepAbort {World St}.
Arguments set_state {World St}.
Arguments set_last_refresh {World St}.
Arguments poll_instance {World St}.
Arguments mk_loop {World St}.
Arguments lr_modules {World St}.
Arguments lr_builder {World St}.
Arguments lr_calls {World St}.
Arguments lr_abort {World St}.
Arguments poll_modules {World St}.
Arguments mk_poll_result {World St}.
Arguments pr_rc {World St}.
Arguments pr_snapshot {World St}.
Arguments pr_sysmon {World St}.
Arguments pr_clock {World St}.
Arguments pr_calls {World St}.
Arguments pr_released {World St}.
Arguments sysmon_poll {World St}.

(* ================================================================= *)
(** ** Conversions to [double] *)

Local Open Scope float_scope.

(** [(double)z] for a [uint64_t] value [z]: the conversion instruction
    takes a signed 64-bit operand, so a value with the top bit set is
    halved with a sticky low bit, converted, and doubled. *)
Definition u64_to_double (z : Z) : float :=
  if (z <? 2 ^ 63)%Z then of_uint63 (Uint63.of_Z z)
  else
    let h := of_uint63 (Uint63.of_Z (Z.lor (Z.shiftr z 1) (Z.land z 1))) in
    h + h.

(* ================================================================= *)
(** ** What the platform shows the collectors (Linux reads) *)

(** A read either yields a value or the error message it stored. *)
Inductive os_read (A : Type) : Type :=
| ReadOk (a : A)
| ReadFailed (msg : string).
Arguments ReadOk {A}.
Arguments ReadFailed {A}.

(** The first line of /proc/stat: user nice system idle iowait irq softirq
    steal, as scanned into [unsigned long long]. *)
Record proc_stat_cpu : Type := mk_proc_stat {
  ps_user : Z; ps_nice : Z; ps_system : Z; ps_idle : Z;
  ps_iowait : Z; ps_irq : Z; ps_softirq : Z; ps_steal : Z
}.

(** The fields of /proc/meminfo the ram module scans, in kB. *)
Record proc_meminfo : Type := mk_meminfo {
  mi_total_kb : option Z;     (* [None]: no MemTotal line *)
  mi_free_kb : Z;
  mi_available_kb : Z
}.

(** A line of /proc/net/dev that scans: interface, rx bytes, tx bytes. *)
Record net_dev_line : Type := mk_net_dev {
  nd_ifname : string;
  nd_rx : Z;
  nd_tx : Z
}.

Record statvfs_t : Type := mk_statvfs {
  f_frsize : Z; f_bsize : Z; f_blocks : Z; f_bfree : Z; f_bavail : Z
}.

Record os_world : Type := mk_world {
  os_nprocessors_onln : Z;                         (* sysconf *)
  os_proc_stat : os_read proc_stat_cpu;
  os_proc_meminfo : os_read proc_meminfo;
  os_battery_dir : os_read string;                 (* detect_battery_path *)
  os_read_u32_file : string -> option Z;
  os_read_string_file : string -> option string;
  os_proc_net_dev : os_read (list net_dev_line);
  os_statvfs : string -> os_read statvfs_t
}.

(** States of the five collectors behind the [void *state] pointer. *)
Record cpu_state : Type := mk_cpu_state {
  cpu_last_total : Z;
  cpu_last_idle : Z;
  cpu_last_usage_percent : float;
  cpu_core_count : Z;
  cpu_has_prev : bool
}.

Record ram_state : Type := mk_ram_state {
  ram_total_bytes : Z;
  ram_last_used_bytes : Z;
  ram_last_free_bytes : Z;
  ram_last_used_percent : float;
  ram_has_data : bool
}.

Record battery_state : Type := mk_battery_state {
  bat_base_path : string;
  bat_last_percent : float;
  bat_last_is_charging : Z;
  bat_last_status : string;
  bat_has_data : bool
}.

Record network_state : Type := mk_network_state {
  net_ifname : string;
  net_include_loopback : bool;
  net_last_rx_bytes : Z;
  net_last_tx_bytes : Z;
  net_last_ts_ms : Z;
  net_last_rx_rate : float;
  net_last_tx_rate : float;
  net_has_data : bool
}.

Record storage_state : Type := mk_storage_state {
  sto_path : string;
  sto_last_total_bytes : Z;
  sto_last_free_bytes : Z;
  sto_last_avail_bytes : Z;
  sto_last_used_bytes : Z;
  sto_last_used_percent : float;
  sto_has_data : bool
}.

Inductive module_state : Type :=
| CpuState (st : cpu_state)
| RamState (st : ram_state)
| BatteryState (st : battery_state)
| NetworkState (st : network_state)
| StorageState (st : storage_state).

Definition module_create_out : Type := @create_out module_state.
Definition module_poll_out : Type := @poll_out module_state.

(** Sequencing of builder calls: stop at the first result that is not OK. *)
Definition and_then (r : sysmon_result * sysmon_snapshot_builder)
    (k : sysmon_snapshot_builder -> sysmon_result * sysmon_snapshot_builder)
  : sysmon_result * sysmon_snapshot_builder :=
  let '(rc, b) := r in
  if negb (result_eqb rc SYSMON_OK) then (rc, b) else k b.

(* ----------------------------------------------------------------- *)
(** *** cpu *)

Definition detect_core_count (w : os_world) : Z :=
  if (os_nprocessors_onln w >? 0)%Z then os_nprocessors_onln w mod 2 ^ 32
  else 0%Z.

(** Returns [(total, idle)]. *)
Definition read_cpu_ticks (w : os_world) : os_read (Z * Z) :=
  match os_proc_stat w with
  | ReadFailed msg => ReadFailed msg
  | ReadOk p =>
      let idle_all := wrap64 (wrap64 (ps_idle p) + wrap64 (ps_iowait p)) in
      let total :=
        wrap64 (wrap64 (ps_user p) + wrap64 (ps_nice p) + wrap64 (ps_system p)
                + wrap64 (ps_idle p) + wrap64 (ps_iowait p) + wrap64 (ps_irq p)
                + wrap64 (ps_softirq p) + wrap64 (ps_steal p)) in
      ReadOk (total, idle_all)
  end.

Definition cpu_create (w : os_world) (ini : sysmon_ini) (section : string)
  : module_create_out :=
  mk_create_out SYSMON_OK
    (Some (CpuState (mk_cpu_state 0 0 0 (detect_core_count w) false))) None.

(** The refresh block of [cpu_poll]; it fails when the tick read fails. *)
Definition cpu_refresh (w : os_world) (st : cpu_state) : os_read cpu_state :=
  match read_cpu_ticks w with
  | ReadFailed msg => ReadFailed msg
  | ReadOk (total, idle) =>
      let pct :=
        if cpu_has_prev st then
          let total_delta := sub64 total (cpu_last_total st) in
          let idle_delta := sub64 idle (cpu_last_idle st) in
          if (total_delta >? 0)%Z && (idle_delta <=? total_delta)%Z then
            u64_to_double (sub64 total_delta idle_delta) * 100 / u64_to_double total_delta
          else cpu_last_usage_percent st
        else cpu_last_usage_percent st in
      ReadOk (mk_cpu_state total idle pct (cpu_core_count st) true)
  end.

Definition cpu_emit (st : cpu_state) (b : sysmon_snapshot_builder)
  : sysmon_result * sysmon_snapshot_builder :=
  and_then (sysmon_snapshot_builder_add_double b (Some "cpu.usage_percent")
              (Some "%") (cpu_last_usage_percent st))
    (fun b1 =>
       if (cpu_core_count st >? 0)%Z then
         and_then (sysmon_snapshot_builder_add_u64 b1 (Some "cpu.core_count")
                     None (cpu_core_count st))
           (fun b2 => (SYSMON_OK, b2))
       else (SYSMON_OK, b1)).

Definition cpu_poll (w : os_world) (state : option module_state) (now_ms : Z)
    (refresh_now : bool) (builder : sysmon_snapshot_builder) : module_poll_out :=
  match state with
  | Some (CpuState st) =>
      let refreshed :=
        if refresh_now || negb (cpu_has_prev st) then cpu_refresh w st
        else ReadOk st in
      match refreshed with
      | ReadFailed msg =>
          mk_poll_out SYSMON_ERR_NOT_SUPPORTED state builder (Some msg)
      | ReadOk st' =>
          let '(rc, b') := cpu_emit st' builder in
          mk_poll_out rc (Some (CpuState st')) b' None
      end
  | _ => mk_poll_out SYSMON_ERR_INVALID_ARGUMENT state builder None
  end.

Definition sysmon_cpu_module : sysmon_module_vtable os_world module_state :=
  mk_vtable "cpu" cpu_create (Some cpu_poll) (Some (fun _ => tt)).

(* ----------------------------------------------------------------- *)
(** *** ram *)

Definition read_total_mem (w : os_world) : os_read Z :=
  match os_proc_meminfo w with
  | ReadFailed msg => ReadFailed msg
  | ReadOk mi =>
      match mi_total_kb mi with
      | Some kb => ReadOk (wrap64 (wrap64 kb * 1024))
      | None => ReadFailed "MemTotal not found in /proc/meminfo"
      end
  end.

(** Returns [(used, free)]. *)
Definition read_mem_used_free (w : os_world) (total_bytes : Z) : os_read (Z * Z) :=
  match os_proc_meminfo w with
  | ReadFailed msg => ReadFailed msg
  | ReadOk mi =>
      let avail := wrap64 (mi_available_kb mi) in
      let kb := if (avail =? 0)%Z then wrap64 (mi_free_kb mi) else avail in
      let free_bytes := wrap64 (kb * 1024) in
      let free_bytes := if (free_bytes >? total_bytes)%Z then 0%Z else free_bytes in
      ReadOk (sub64 total_bytes free_bytes, free_bytes)
  end.

Definition ram_create (w : os_world) (ini : sysmon_ini) (section : string)
  : module_create_out :=
  match read_total_mem w with
  | ReadFailed msg => mk_create_out SYSMON_ERR_NOT_SUPPORTED None (Some msg)
  | ReadOk total =>
      mk_create_out SYSMON_OK
        (Some (RamState (mk_ram_state total 0 0 0 false))) None
  end.

Definition ram_refresh (w : os_world) (st : ram_state) : os_read ram_state :=
  match read_mem_used_free w (ram_total_bytes st) with
  | ReadFailed msg => ReadFailed msg
  | ReadOk (used, free_b) =>
      ReadOk (mk_ram_state (ram_total_bytes st) used free_b
                (if (ram_total_bytes st >? 0)%Z
                 then u64_to_double used * 100 / u64_to_double (ram_total_bytes st)
                 else 0)
                true)
  end.

Definition ram_emit (st : ram_state) (b : sysmon_snapshot_builder)
  : sysmon_result * sysmon_snapshot_builder :=
  and_then (sysmon_snapshot_builder_add_u64 b (Some "ram.total_bytes") (Some "B")
              (ram_total_bytes st))
  (fun b => and_then (sysmon_snapshot_builder_add_u64 b (Some "ram.used_bytes")
                        (Some "B") (ram_last_used_bytes st))
  (fun b => and_then (sysmon_snapshot_builder_add_u64 b (Some "ram.free_bytes")
                        (Some "B") (ram_last_free_bytes st))
  (fun b =>
     if (ram_total_bytes st >? 0)%Z then
       and_then (sysmon_snapshot_builder_add_double b (Some "ram.used_percent")
                   (Some "%") (ram_last_used_percent st))
         (fun b => (SYSMON_OK, b))
     else (SYSMON_OK, b)))).

Definition ram_poll (w : os_world) (state : option module_state) (now_ms : Z)
    (refresh_now : bool) (builder : sysmon_snapshot_builder) : module_poll_out :=
  match state with
  | Some (RamState st) =>
      let refreshed :=
        if refresh_now || negb (ram_has_data st) then ram_refresh w st
        else ReadOk st in
      match refreshed with
      | ReadFailed msg =>
          mk_poll_out SYSMON_ERR_NOT_SUPPORTED state builder (Some msg)
      | ReadOk st' =>
          let '(rc, b') := ram_emit st' builder in
          mk_poll_out rc (Some (RamState st')) b' None
      end
  | _ => mk_poll_out SYSMON_ERR_INVALID_ARGUMENT state builder None
  end.

Definition sysmon_ram_module : sysmon_module_vtable os_world module_state :=
  mk_vtable "ram" ram_create (Some ram_poll) (Some (fun _ => tt)).

(* ----------------------------------------------------------------- *)
(** *** battery *)

Definition battery_create (w : os_world) (ini : sysmon_ini) (section : string)
  : module_create_out :=
  match os_battery_dir w with
  | ReadFailed msg => mk_create_out SYSMON_ERR_NOT_SUPPORTED None (Some msg)
  | ReadOk base =>
      mk_create_out SYSMON_OK
        (Some (BatteryState
                 (mk_battery_state (snprintf_s 256 base) 0 0
                    (snprintf_s 32 "unknown") false)))
        None
  end.

Definition battery_refresh (w : os_world) (st : battery_state)
  : os_read battery_state :=
  let cap_path := snprintf_s 320 (bat_base_path st ++ "/capacity") in
  match os_read_u32_file w cap_path with
  | None => ReadFailed "failed to read battery capacity"
  | Some cap =>
      let status_path := snprintf_s 320 (bat_base_path st ++ "/status") in
      let status :=
        match os_read_string_file w status_path with
        | Some s => snprintf_s 32 s
        | None => bat_last_status st
        end in
      ReadOk (mk_battery_state (bat_base_path st)
                (u64_to_double (cap mod 2 ^ 32))
                (if strcaseeq status "Charging" then 1%Z else 0%Z)
                status true)
  end.

Definition battery_emit (st : battery_state) (b : sysmon_snapshot_builder)
  : sysmon_result * sysmon_snapshot_builder :=
  and_then (sysmon_snapshot_builder_add_double b (Some "battery.percent")
              (Some "%") (bat_last_percent st))
  (fun b => and_then (sysmon_snapshot_builder_add_i64 b (Some "battery.is_charging")
                        None (bat_last_is_charging st))
  (fun b => and_then (sysmon_snapshot_builder_add_string b (Some "battery.status")
                        None (Some (bat_last_status st)))
  (fun b => (SYSMON_OK, b)))).

Definition battery_poll (w : os_world) (state : option module_state) (now_ms : Z)
    (refresh_now : bool) (builder : sysmon_snapshot_builder) : module_poll_out :=
  match state with
  | Some (BatteryState st) =>
      let refreshed :=
        if refresh_now || negb (bat_has_data st) then battery_refresh w st
        else ReadOk st in
      match refreshed with
      | ReadFailed msg =>
          mk_poll_out SYSMON_ERR_NOT_SUPPORTED state builder (Some msg)
      | ReadOk st' =>
          let '(rc, b') := battery_emit st' builder in
          mk_poll_out rc (Some (BatteryState st')) b' None
      end
  | _ => mk_poll_out SYSMON_ERR_INVALID_ARGUMENT state builder None
  end.

Definition sysmon_battery_module : sysmon_module_vtable os_world module_state :=
  mk_vtable "battery" battery_create (Some battery_poll) (Some (fun _ => tt)).

(* ----------------------------------------------------------------- *)
(** *** network *)

Definition SYSMON_IFNAME_LEN : nat := 64.

Definition copy_ifname (dst_len : nat) (src : option string) : string :=
  match src with
  | None => EmptyString
  | Some s => snprintf_s dst_len s
  end.

Fixpoint select_interface (has_request : bool) (requested : string)
    (include_loopback : bool) (lines : list net_dev_line) : option net_dev_line :=
  match lines with
  | [] => None
  | l :: r =>
      if has_request && negb (streq (nd_ifname l) requested) then
        select_interface has_request requested include_loopback r
      else if negb include_loopback && negb has_request && streq (nd_ifname l) "lo" then
        select_interface has_request requested include_loopback r
      else Some l
  end.

(** Returns [(rx, tx, selected)]. *)
Definition read_interface_bytes (w : os_world) (requested : option string)
    (include_loopback : bool) : os_read (Z * Z * string) :=
  let has_request :=
    match requested with
    | Some (String _ _) => true
    | _ => false
    end in
  match os_proc_net_dev w with
  | ReadFailed msg => ReadFailed msg
  | ReadOk lines =>
      match select_interface has_request (or_default requested EmptyString)
              include_loopback lines with
      | Some l =>
          ReadOk (wrap64 (nd_rx l), wrap64 (nd_tx l),
                  copy_ifname SYSMON_IFNAME_LEN (Some (nd_ifname l)))
      | None =>
          ReadFailed (if has_request then "requested interface not found"
                      else "no interface found")
      end
  end.

Definition network_create (w : os_world) (ini : sysmon_ini) (section : string)
  : module_create_out :=
  let include_loopback := sysmon_ini_get_bool ini section "include_loopback" false in
  let ifname :=
    match sysmon_ini_get ini section "interface" with
    | Some (String c r) => copy_ifname SYSMON_IFNAME_LEN (Some (String c r))
    | _ => EmptyString
    end in
  let requested :=
    match ifname with
    | EmptyString => None
    | _ => Some ifname
    end in
  match read_interface_bytes w requested include_loopback with
  | ReadFailed msg => mk_create_out SYSMON_ERR_NOT_SUPPORTED None (Some msg)
  | ReadOk (_, _, selected) =>
      let ifname' :=
        match ifname with
        | EmptyString => copy_ifname SYSMON_IFNAME_LEN (Some selected)
        | _ => ifname
        end in
      mk_create_out SYSMON_OK
        (Some (NetworkState
                 (mk_network_state ifname' include_loopback 0 0 0 0 0 false)))
        None
  end.

(** The rate expression of [network_poll] for one direction. *)
Definition network_rate (now_ms last_ts_ms cur last : Z) : float :=
  let seconds := u64_to_double (sub64 now_ms last_ts_ms) / 1000 in
  let delta := if (cur >=? last)%Z then sub64 cur last else 0%Z in
  if 0 <? seconds then u64_to_double delta / seconds else 0.

Definition network_refresh (w : os_world) (now_ms : Z) (st : network_state)
  : os_read network_state :=
  match read_interface_bytes w (Some (net_ifname st)) (net_include_loopback st) with
  | ReadFailed msg => ReadFailed msg
  | ReadOk (rx, tx, _) =>
      let with_prior :=
        net_has_data st && (net_last_ts_ms st >? 0)%Z
        && (now_ms >? net_last_ts_ms st)%Z in
      let rx_rate :=
        if with_prior
        then network_rate now_ms (net_last_ts_ms st) rx (net_last_rx_bytes st)
        else 0 in
      let tx_rate :=
        if with_prior
        then network_rate now_ms (net_last_ts_ms st) tx (net_last_tx_bytes st)
        else 0 in
      ReadOk (mk_network_state (net_ifname st) (net_include_loopback st)
                rx tx now_ms rx_rate tx_rate true)
  end.

Definition network_emit (st : network_state) (b : sysmon_snapshot_builder)
  : sysmon_result * sysmon_snapshot_builder :=
  and_then (sysmon_snapshot_builder_add_string b (Some "network.interface") None
              (Some (net_ifname st)))
  (fun b => and_then (sysmon_snapshot_builder_add_u64 b (Some "network.rx_bytes")
                        (Some "B") (net_last_rx_bytes st))
  (fun b => and_then (sysmon_snapshot_builder_add_u64 b (Some "network.tx_bytes")
                        (Some "B") (net_last_tx_bytes st))
  (fun b => and_then (sysmon_snapshot_builder_add_double b
                        (Some "network.rx_bytes_per_sec") (Some "B/s")
                        (net_last_rx_rate st))
  (fun b => and_then (sysmon_snapshot_builder_add_double b
                        (Some "network.tx_bytes_per_sec") (Some "B/s")
                        (net_last_tx_rate st))
  (fun b => (SYSMON_OK, b)))))).

Definition network_poll (w : os_world) (state : option module_state) (now_ms : Z)
    (refresh_now : bool) (builder : sysmon_snapshot_builder) : module_poll_out :=
  match state with
  | Some (NetworkState st) =>
      let refreshed :=
        if refresh_now || negb (net_has_data st) then network_refresh w now_ms st
        else ReadOk st in
      match refreshed with
      | ReadFailed msg => mk_poll_out SYSMON_ERR_IO state builder (Some msg)
      | ReadOk st' =>
          let '(rc, b') := network_emit st' builder in
          mk_poll_out rc (Some (NetworkState st')) b' None
      end
  | _ => mk_poll_out SYSMON_ERR_INVALID_ARGUMENT state builder None
  end.

Definition sysmon_network_module : sysmon_module_vtable os_world module_state :=
  mk_vtable "network" network_create (Some network_poll) (Some (fun _ => tt)).

(* ----------------------------------------------------------------- *)
(** *** storage *)

Definition SYSMON_STORAGE_PATH_LEN : nat := 256.

Definition copy_path (dst_len : nat) (src : option string) : string :=
  match src with
  | None => EmptyString
  | Some s => snprintf_s dst_len s
  end.

(** Returns [(total, free, avail)]. *)
Definition read_storage_stats (w : os_world) (path : string)
  : os_read (Z * Z * Z) :=
  match os_statvfs w path with
  | ReadFailed msg => ReadFailed msg
  | ReadOk vfs =>
      let block_size :=
        if (wrap64 (f_frsize vfs) =? 0)%Z then wrap64 (f_bsize vfs)
        else wrap64 (f_frsize vfs) in
      ReadOk (wrap64 (wrap64 (f_blocks vfs) * block_size),
              wrap64 (wrap64 (f_bfree vfs) * block_size),
              wrap64 (wrap64 (f_bavail vfs) * block_size))
  end.

Definition storage_create (w : os_world) (ini : sysmon_ini) (section : string)
  : module_create_out :=
  let path :=
    match sysmon_ini_get ini section "path" with
    | Some (String c r) => String c r
    | _ => "/"
    end in
  let st_path := copy_path SYSMON_STORAGE_PATH_LEN (Some path) in
  match read_storage_stats w st_path with
  | ReadFailed msg => mk_create_out SYSMON_ERR_NOT_SUPPORTED None (Some msg)
  | ReadOk _ =>
      mk_create_out SYSMON_OK
        (Some (StorageState (mk_storage_state st_path 0 0 0 0 0 false))) None
  end.

Definition storage_refresh (w : os_world) (st : storage_state)
  : os_read storage_state :=
  match read_storage_stats w (sto_path st) with
  | ReadFailed msg => ReadFailed msg
  | ReadOk (total, free_b, avail) =>
      let used := if (total >=? free_b)%Z then sub64 total free_b else 0%Z in
      ReadOk (mk_storage_state (sto_path st) total free_b avail used
                (if (total >? 0)%Z
                 then u64_to_double used * 100 / u64_to_double total
                 else 0)
                true)
  end.

Definition storage_emit (st : storage_state) (b : sysmon_snapshot_builder)
  : sysmon_result * sysmon_snapshot_builder :=
  and_then (sysmon_snapshot_builder_add_string b (Some "storage.path") None
              (Some (sto_path st)))
  (fun b => and_then (sysmon_snapshot_builder_add_u64 b (Some "storage.total_bytes")
                        (Some "B") (sto_last_total_bytes st))
  (fun b => and_then (sysmon_snapshot_builder_add_u64 b (Some "storage.used_bytes")
                        (Some "B") (sto_last_used_bytes st))
  (fun b => and_then (sysmon_snapshot_builder_add_u64 b (Some "storage.free_bytes")
                        (Some "B") (sto_last_free_bytes st))
  (fun b => and_then (sysmon_snapshot_builder_add_u64 b
                        (Some "storage.available_bytes") (Some "B")
                        (sto_last_avail_bytes st))
  (fun b => and_then (sysmon_snapshot_builder_add_double b
                        (Some "storage.used_percent") (Some "%")
                        (sto_last_used_percent st))
  (fun b => (SYSMON_OK, b))))))).

Definition storage_poll (w : os_world) (state : option module_state) (now_ms : Z)
    (refresh_now : bool) (builder : sysmon_snapshot_builder) : module_poll_out :=
  match state with
  | Some (StorageState st) =>
      let refreshed :=
        if refresh_now || negb (sto_has_data st) then storage_refresh w st
        else ReadOk st in
      match refreshed with
      | ReadFailed msg => mk_poll_out SYSMON_ERR_IO state builder (Some msg)
      | ReadOk st' =>
          let '(rc, b') := storage_emit st' builder in
          mk_poll_out rc (Some (StorageState st')) b' None
      end
  | _ => mk_poll_out SYSMON_ERR_INVALID_ARGUMENT state builder None
  end.

Definition sysmon_storage_module : sysmon_module_vtable os_world module_state :=
  mk_vtable "storage" storage_create (Some storage_poll) (Some (fun _ => tt)).

(* ----------------------------------------------------------------- *)
(** *** The registry (modules/builtin.c) *)

(** The static array [modules[4]] and the count stored in [*out_count]. *)
Definition sysmon_builtin_modules
  : list (sysmon_module_vtable os_world module_state) :=
  [ sysmon_cpu_module; sysmon_ram_module; sysmon_battery_module;
    sysmon_network_module ].

Definition sysmon_builtin_count : nat := 4.

(** *** The records each collector emits from its state *)

Local Close Scope float_scope.
Local Open Scope list_scope.

Definition cpu_metrics (st : cpu_state) : list sysmon_metric :=
  mk_metric (Some "cpu.usage_percent") (Some "%") SYSMON_METRIC_DOUBLE
            (V_f64 (cpu_last_usage_percent st))
  :: (if cpu_core_count st >? 0
      then [mk_metric (Some "cpu.core_count") None SYSMON_METRIC_UINT64
                      (V_u64 (cpu_core_count st))]
      else []).

Definition ram_metrics (st : ram_state) : list sysmon_metric :=
  [ mk_metric (Some "ram.total_bytes") (Some "B") SYSMON_METRIC_UINT64
              (V_u64 (ram_total_bytes st));
    mk_metric (Some "ram.used_bytes") (Some "B") SYSMON_METRIC_UINT64
              (V_u64 (ram_last_used_bytes st));
    mk_metric (Some "ram.free_bytes") (Some "B") SYSMON_METRIC_UINT64
              (V_u64 (ram_last_free_bytes st)) ]
  ++ (if ram_total_bytes st >? 0
      then [mk_metric (Some "ram.used_percent") (Some "%") SYSMON_METRIC_DOUBLE
                      (V_f64 (ram_last_used_percent st))]
      else []).

Definition battery_metrics (st : battery_state) : list sysmon_metric :=
  [ mk_metric (Some "battery.percent") (Some "%") SYSMON_METRIC_DOUBLE
              (V_f64 (bat_last_percent st));
    mk_metric (Some "battery.is_charging") None SYSMON_METRIC_INT64
              (V_i64 (bat_last_is_charging st));
    mk_metric (Some "battery.status") None SYSMON_METRIC_STRING
              (V_str (Some (bat_last_status st))) ].

Definition network_metrics (st : network_state) : list sysmon_metric :=
  [ mk_metric (Some "network.interface") None SYSMON_METRIC_STRING
              (V_str (Some (net_ifname st)));
    mk_metric (Some "network.rx_bytes") (Some "B") SYSMON_METRIC_UINT64
              (V_u64 (net_last_rx_bytes st));
    mk_metric (Some "network.tx_bytes") (Some "B") SYSMON_METRIC_UINT64
              (V_u64 (net_last_tx_bytes st));
    mk_metric (Some "network.rx_bytes_per_sec") (Some "B/s") SYSMON_METRIC_DOUBLE
              (V_f64 (net_last_rx_rate st));
    mk_metric (Some "network.tx_bytes_per_sec") (Some "B/s") SYSMON_METRIC_DOUBLE
              (V_f64 (net_last_tx_rate st)) ].

Definition storage_metrics (st : storage_state) : list sysmon_metric :=
  [ mk_metric (Some "storage.path") None SYSMON_METRIC_STRING
              (V_str (Some (sto_path st)));
    mk_metric (Some "storage.total_bytes") (Some "B") SYSMON_METRIC_UINT64
              (V_u64 (sto_last_total_bytes st));
    mk_metric (Some "storage.used_bytes") (Some "B") SYSMON_METRIC_UINT64
              (V_u64 (sto_last_used_bytes st));
    mk_metric (Some "storage.free_bytes") (Some "B") SYSMON_METRIC_UINT64
              (V_u64 (sto_last_free_bytes st));
    mk_metric (Some "storage.available_bytes") (Some "B") SYSMON_METRIC_UINT64
              (V_u64 (sto_last_avail_bytes st));
    mk_metric (Some "storage.used_percent") (Some "%") SYSMON_METRIC_DOUBLE
              (V_f64 (sto_last_used_percent st)) ].

(** The five collectors: the registry and the storage module. *)
Definition all_collectors : list (sysmon_module_vtable os_world module_state) :=
  sysmon_builtin_modules ++ [sysmon_storage_module].

Local Open Scope string_scope.
Local Open Scope Z_scope.

(* ================================================================= *)
(** ** Vocabulary of the statements *)

(** A call of one of the four typed [add] functions, as a client makes it. *)
Inductive add_op : Type :=
| AddDouble (name : string) (unit_ : option string) (value : float)
| AddI64 (name : string) (unit_ : option string) (value : Z)
| AddU64 (name : string) (unit_ : option string) (value : Z)
| AddString (name : string) (unit_ : option string) (value : string).

Definition apply_add (b : sysmon_snapshot_builder) (op : add_op)
  : sysmon_result * sysmon_snapshot_builder :=
  match op with
  | AddDouble n u v => sysmon_snapshot_builder_add_double b (Some n) u v
  | AddI64 n u v => sysmon_snapshot_builder_add_i64 b (Some n) u v
  | AddU64 n u v => sysmon_snapshot_builder_add_u64 b (Some n) u v
  | AddString n u v => sysmon_snapshot_builder_add_string b (Some n) u (Some v)
  end.

(** Runs the calls in order; the result codes are collected. *)
Fixpoint apply_adds (b : sysmon_snapshot_builder) (ops : list add_op)
  : list sysmon_result * sysmon_snapshot_builder :=
  match ops with
  | [] => ([], b)
  | op :: r =>
      let '(rc, b1) := apply_add b op in
      let '(rcs, b2) := apply_adds b1 r in
      (rc :: rcs, b2)
  end.

Definition op_name (op : add_op) : string :=
  match op with
  | AddDouble n _ _ | AddI64 n _ _ | AddU64 n _ _ | AddString n _ _ => n
  end.

(** What a reader expects to get back for a call. *)
Definition op_metric (op : add_op) : sysmon_metric :=
  match op with
  | AddDouble n u v => mk_metric (Some n) u SYSMON_METRIC_DOUBLE (V_f64 v)
  | AddI64 n u v => mk_metric (Some n) u SYSMON_METRIC_INT64 (V_i64 v)
  | AddU64 n u v => mk_metric (Some n) u SYSMON_METRIC_UINT64 (V_u64 v)
  | AddString n u v => mk_metric (Some n) u SYSMON_METRIC_STRING (V_str (Some v))
  end.

(** Build with a fresh builder, then finalize. *)
Definition build_snapshot (ops : list add_op)
  : list sysmon_result * sysmon_result * sysmon_snapshot_builder
    * option sysmon_snapshot :=
  let '(_, b0) := sysmon_snapshot_builder_create in
  let '(rcs, b1) := apply_adds b0 ops in
  let '(frc, b2, snap) := sysmon_snapshot_builder_finalize b1 in
  (rcs, frc, b2, snap).

(** The two calls of the round-trip scenario. *)
Definition example_ops : list add_op :=
  [ AddDouble "x.a" (Some "u") 1.5%float; AddU64 "x.b" None 42 ].

(** *** Shapes of binary64 values *)

(** Zero or a positive finite number. *)
Definition sf_fin_nonneg (x : spec_float) : Prop :=
  match x with
  | S754_zero _ | S754_finite false _ _ => True
  | _ => False
  end.

(** Strictly positive, possibly infinite. *)
Definition sf_pos (x : spec_float) : Prop :=
  match x with
  | S754_finite false _ _ | S754_infinity false => True
  | _ => False
  end.

(** Positive with magnitude at least [2 ^ (k - 1)], possibly infinite. *)
Definition sf_at_least (k : Z) (x : spec_float) : Prop :=
  match x with
  | S754_finite false m e => k <= Zpos (digits2_pos m) + e
  | S754_infinity false => True
  | _ => False
  end.

(** Not NaN and not below zero. *)
Definition sf_nonneg (x : spec_float) : Prop :=
  match x with
  | S754_zero _ | S754_finite false _ _ | S754_infinity false => True
  | _ => False
  end.

(** *** Vocabulary for the engine *)

(** The synthetic record of [add_module_error]. *)
Definition error_metric (module_name message : string) : sysmon_metric :=
  mk_metric (Some (snprintf_s 192 ("module." ++ module_name ++ ".error"))) None
            SYSMON_METRIC_STRING (V_str (Some message)).

(** One iteration of the loop of [sysmon_poll] that invokes [poll]: how the
    element, the builder and the logged call come out of it. *)
Definition engine_step {World St : Type} (w : World) (now_ms : Z) (i : nat)
    (inst : sysmon_module_instance World St) (b : sysmon_snapshot_builder)
    (inst' : sysmon_module_instance World St) (c : poll_call)
    (b' : sysmon_snapshot_builder) : Prop :=
  exists vt poll,
    inst_enabled inst = true /\ inst_vtable inst = Some vt /\ vt_poll vt = Some poll
    /\ let rn := refresh_due inst now_ms in
       let out := poll w (inst_state inst) now_ms rn b in
       c = mk_call i (vt_name vt) now_ms rn (po_rc out) (po_error out)
             (skipn (b_count b) (b_metrics (po_builder out)))
       /\ inst' = mk_instance (Some vt) (po_state out) true (inst_refresh_ms inst)
                    (if result_eqb (po_rc out) SYSMON_OK && rn then now_ms
                     else inst_last_refresh_ms inst)
       /\ b' = (if result_eqb (po_rc out) SYSMON_OK
                    || result_eqb (po_rc out) SYSMON_ERR_OUT_OF_MEMORY
                then po_builder out
                else add_module_error (po_builder out) (vt_name vt)
                       (or_default (po_error out) "module error")).

(** What the engine itself appends after a call. *)
Definition synthetic_metrics (c : poll_call) : list sysmon_metric :=
  if result_eqb (pc_rc c) SYSMON_OK || result_eqb (pc_rc c) SYSMON_ERR_OUT_OF_MEMORY
  then []
  else [error_metric (pc_name c) (or_default (pc_error c) "module error")].

(** Everything a call contributes to the builder. *)
Definition call_metrics (c : poll_call) : list sysmon_metric :=
  (pc_added c ++ synthetic_metrics c)%list.

(** A [poll] function that only appends records to the builder. *)
Definition append_only {World St : Type} (poll : poll_fn World St) : Prop :=
  forall w st now_ms refresh_now b,
    exists added,
      b_metrics (po_builder (poll w st now_ms refresh_now b))
      = (b_metrics b ++ added)%list.

(** A [poll] function that, once it has succeeded, answers a call without
    refresh from its cache: same state, same records, whatever the
    platform shows. *)
Definition caches_between_refreshes {World St : Type} (poll : poll_fn World St)
  : Prop :=
  forall w1 w2 st0 now1 now2 r1 b1 b2,
    po_rc (poll w1 st0 now1 r1 b1) = SYSMON_OK ->
    let out1 := poll w1 st0 now1 r1 b1 in
    let out2 := poll w2 (po_state out1) now2 false b2 in
    po_rc out2 = SYSMON_OK
    /\ po_state out2 = po_state out1
    /\ skipn (b_count b2) (b_metrics (po_builder out2))
       = skipn (b_count b1) (b_metrics (po_builder out1)).

Definition metric_name_has_prefix (p : string) (m : sysmon_metric) : bool :=
  match m_name m with
  | Some n => starts_with p n
  | None => false
  end.

(** The element can be polled: the three tests at the head of the loop
    body of [sysmon_poll] all pass. *)
Definition pollable {World St : Type} (inst : sysmon_module_instance World St)
  : bool :=
  inst_enabled inst
  && match inst_vtable inst with
     | Some vt => match vt_poll vt with Some _ => true | None => false end
     | None => false
     end.

Definition instance_name {World St : Type}
    (inst : sysmon_module_instance World St) : option string :=
  option_map vt_name (inst_vtable inst).

(** Successive rounds on one engine, one platform view per round. *)
Fixpoint poll_rounds {World St : Type} (ck : sysmon_clock) (ws : list World)
    (s : sysmon_t World St) : list (poll_result World St) :=
  match ws with
  | [] => []
  | w :: r =>
      let R := sysmon_poll ck w s in
      R :: poll_rounds (pr_clock R) r (pr_sysmon R)
  end.

(** Indices of the elements of [ms] that can be polled, counted from [i]. *)
Fixpoint pollable_indices {World St : Type} (i : nat)
    (ms : list (sysmon_module_instance World St)) : list nat :=
  match ms with
  | [] => []
  | inst :: r =>
      if pollable inst then i :: pollable_indices (S i) r
      else pollable_indices (S i) r
  end.

(** *** Decimal numerals *)

Fixpoint all_digits (s : string) : bool :=
  match s with
  | EmptyString => true
  | String c r => isdigit c && all_digits r
  end.

Definition unsigned_numeral (s : string) : bool :=
  match s with
  | EmptyString => false
  | _ => all_digits s
  end.

(** Blanks, then an optional sign, then one or more decimal digits and
    nothing else. *)
Definition decimal_numeral (s : string) : bool :=
  match skip_spaces s with
  | String "-"%char r => unsigned_numeral r
  | String "+"%char r => unsigned_numeral r
  | t => unsigned_numeral t
  end.

(** Every [poll] function an element can dispatch to only appends. *)
Definition instance_append_only {World St : Type}
    (inst : sysmon_module_instance World St) : Prop :=
  forall vt poll,
    inst_vtable inst = Some vt -> vt_poll vt = Some poll -> append_only poll.

(** *** The common shape of the five [poll] functions *)

(** After the NULL test: refresh when asked to or when no sample is held,
    fail with [fail_rc] when the read fails, otherwise emit the state. *)
Definition collector_body {A : Type} (C : A -> module_state) (has : A -> bool)
    (refresh : A -> os_read A)
    (emit : A -> sysmon_snapshot_builder -> sysmon_result * sysmon_snapshot_builder)
    (fail_rc : sysmon_result) (st : A) (refresh_now : bool)
    (builder : sysmon_snapshot_builder) : module_poll_out :=
  let refreshed := if refresh_now || negb (has st) then refresh st else ReadOk st in
  match refreshed with
  | ReadFailed msg => mk_poll_out fail_rc (Some (C st)) builder (Some msg)
  | ReadOk st' =>
      let '(rc, b') := emit st' builder in
      mk_poll_out rc (Some (C st')) b' None
  end.

Definition collector_poll {A : Type} (C : A -> module_state)
    (proj : module_state -> option A) (has : A -> bool)
    (refresh : os_world -> Z -> A -> os_read A)
    (emit : A -> sysmon_snapshot_builder -> sysmon_result * sysmon_snapshot_builder)
    (fail_rc : sysmon_result) : poll_fn os_world module_state :=
  fun w state now_ms refresh_now builder =>
    match state with
    | Some s =>
        match proj s with
        | Some st =>
            collector_body C has (refresh w now_ms) emit fail_rc st refresh_now builder
        | None => mk_poll_out SYSMON_ERR_INVALID_ARGUMENT state builder None
        end
    | None => mk_poll_out SYSMON_ERR_INVALID_ARGUMENT state builder None
    end.

Definition proj_cpu (s : module_state) : option cpu_state :=
  match s with CpuState st => Some st | _ => None end.
Definition proj_ram (s : module_state) : option ram_state :=
  match s with RamState st => Some st | _ => None end.
Definition proj_battery (s : module_state) : option battery_state :=
  match s with BatteryState st => Some st | _ => None end.
Definition proj_network (s : module_state) : option network_state :=
  match s with NetworkState st => Some st | _ => None end.
Definition proj_storage (s : module_state) : option storage_state :=
  match s with StorageState st => Some st | _ => None end.

(** What the engine relies on in a collector: it only appends, it serves a
    call without refresh from its cache once it has succeeded, every record
    it appends lies in its own namespace, and it never reports
    out-of-memory by itself. *)
Definition collector_ok (namespace : string)
    (poll : poll_fn os_world module_state) : Prop :=
  append_only poll
  /\ caches_between_refreshes poll
  /\ (forall w st now_ms refresh_now b,
        Forall (fun m => metric_name_has_prefix namespace m = true)
               (skipn (b_count b)
                  (b_metrics (po_builder (poll w st now_ms refresh_now b)))))
  /\ (forall w st now_ms refresh_now b,
        po_rc (poll w st now_ms refresh_now b) <> SYSMON_ERR_OUT_OF_MEMORY).

(** *** Platform views used in the examples *)

(** A platform on which every read fails. *)
Definition bare_world : os_world :=
  mk_world 0
    (ReadFailed "failed to open /proc/stat")
    (ReadFailed "failed to open /proc/meminfo")
    (ReadFailed "failed to open /sys/class/power_supply")
    (fun _ => None) (fun _ => None)
    (ReadFailed "failed to open /proc/net/dev")
    (fun _ => ReadFailed "statvfs failed").

Definition with_proc_stat (w : os_world) (p : proc_stat_cpu) : os_world :=
  mk_world (os_nprocessors_onln w) (ReadOk p) (os_proc_meminfo w)
    (os_battery_dir w) (os_read_u32_file w) (os_read_string_file w)
    (os_proc_net_dev w) (os_statvfs w).

Definition with_net_dev (w : os_world) (l : list net_dev_line) : os_world :=
  mk_world (os_nprocessors_onln w) (os_proc_stat w) (os_proc_meminfo w)
    (os_battery_dir w) (os_read_u32_file w) (os_read_string_file w)
    (ReadOk l) (os_statvfs w).

Definition with_statvfs (w : os_world) (path : string) (v : statvfs_t) : os_world :=
  mk_world (os_nprocessors_onln w) (os_proc_stat w) (os_proc_meminfo w)
    (os_battery_dir w) (os_read_u32_file w) (os_read_string_file w)
    (os_proc_net_dev w)
    (fun p => if streq p path then ReadOk v else os_statvfs w p).

(** A /proc/stat line whose only non-zero counters are [user] and [idle]. *)
Definition ticks (user idle : Z) : proc_stat_cpu :=
  mk_proc_stat user 0 0 idle 0 0 0 0.

(** The value of the first record a call appended, when it is a double. *)
Definition first_double (ms : list sysmon_metric) : option float :=
  match ms with
  | m :: _ => match m_value m with V_f64 v => Some v | _ => None end
  | [] => None
  end.

(** *** Vocabulary for the network collector *)

(** The cached rates are real, non-negative numbers and the cached
    counters and timestamp are 64-bit values. *)
Definition network_state_ok (st : network_state) : Prop :=
  (0 <=? net_last_rx_rate st)%float = true
  /\ (0 <=? net_last_tx_rate st)%float = true
  /\ 0 <= net_last_rx_bytes st < UINT64_MOD
  /\ 0 <= net_last_tx_bytes st < UINT64_MOD
  /\ 0 <= net_last_ts_ms st < UINT64_MOD.

(** Bytes gained since the previous sample; a counter that went down
    counts for nothing. *)
Definition byte_delta (cur last : Z) : Z := Z.max (cur - last) 0.

(** Seconds between two millisecond timestamps, as a double. *)
Definition elapsed_seconds (now_ms last_ts_ms : Z) : float :=
  (u64_to_double (now_ms - last_ts_ms) / 1000)%float.

(** The rate rule read literally: every refresh that has a prior sample
    reports bytes gained divided by elapsed seconds. *)
Definition network_rate_rule_unguarded : Prop :=
  forall (w : os_world) (now_ms : Z) (st st' : network_state) (rx tx : Z)
         (sel : string),
    network_state_ok st -> 0 <= now_ms < UINT64_MOD ->
    net_has_data st = true ->
    read_interface_bytes w (Some (net_ifname st)) (net_include_loopback st)
      = ReadOk (rx, tx, sel) ->
    network_refresh w now_ms st = ReadOk st' ->
    net_last_rx_rate st'
    = (u64_to_double (byte_delta rx (net_last_rx_bytes st))
       / elapsed_seconds now_ms (net_last_ts_ms st))%float.

(** A state with a sample taken at 1000 ms, and a platform whose counters
    have grown by 100 bytes since. *)
Definition sampled_network_state : network_state :=
  mk_network_state "eth0" false 100 100 1000 0%float 0%float true.

Definition grown_network_world : os_world :=
  with_net_dev bare_world [mk_net_dev "lo" 5 5; mk_net_dev "eth0" 200 200].

(** An example volume: 1000 blocks of 4096 bytes, 250 free, 200 available. *)
Definition example_storage_world : os_world :=
  with_statvfs bare_world "/" (mk_statvfs 4096 4096 1000 250 200).

Definition fresh_storage_state : storage_state :=
  mk_storage_state "/" 0 0 0 0 0%float false.

(** *** Engines built from the registry *)

(** Every element is bound to a registry entry, and an element bound to
    the module called [off] is disabled. *)
Definition registry_engine_without (off : string)
    (s : sysmon_t os_world module_state) : Prop :=
  Forall (fun inst =>
            exists vt, inst_vtable inst = Some vt
                       /\ In vt sysmon_builtin_modules
                       /\ (vt_name vt = off -> inst_enabled inst = false))
         (sm_modules s).

(** *** An example host and configuration *)

(** A clock that advances by one second per read, starting at 100 s. *)
Definition steady_clock : sysmon_clock :=
  mk_clock 0 (fun k => Some (Z.of_nat k + 100, 0)).

(** A laptop: four cores, a battery at 80 percent, one network interface. *)
Definition laptop_world : os_world :=
  mk_world 4
    (ReadOk (mk_proc_stat 1000 0 500 8000 100 0 0 0))
    (ReadOk (mk_meminfo (Some 16000000) 4000000 8000000))
    (ReadOk "/sys/class/power_supply/BAT0")
    (fun _ => Some 80) (fun _ => Some "Discharging")
    (ReadOk [mk_net_dev "lo" 10 10; mk_net_dev "eth0" 5000 7000])
    (fun _ => ReadOk (mk_statvfs 4096 4096 1000 250 200)).

(** [[module.battery] enabled=0]. *)
Definition battery_off_ini : sysmon_ini :=
  [mk_entry "module.battery" "enabled" "0"].

Definition battery_off_engine : option (sysmon_t os_world module_state) :=
  cr_sysmon (sysmon_create sysmon_builtin_modules laptop_world
               (SYSMON_OK, Some battery_off_ini, None)).

(** [[module.battery] refresh_ms=fast]. *)
Definition bad_refresh_ini : sysmon_ini :=
  [mk_entry "module.battery" "refresh_ms" "fast"].

(** *** Vocabulary for the refresh schedule *)

(** Every [poll] function an element can dispatch to answers from its
    cache between refreshes. *)
Definition instance_caches {World St : Type}
    (inst : sysmon_module_instance World St) : Prop :=
  forall vt poll,
    inst_vtable inst = Some vt -> vt_poll vt = Some poll ->
    caches_between_refreshes poll.

(** The cadence rule with "no prior refresh" read as "never refreshed":
    on a freshly constructed engine, a module with a positive interval that
    has refreshed successfully in one round does not refresh in the next
    round when that round starts within the interval, and reports the same
    records. *)
Definition refresh_cadence_unguarded : Prop :=
  forall (w0 : os_world) (ini0 : option sysmon_ini)
         (s : sysmon_t os_world module_state)
         (ck : sysmon_clock) (w1 w2 : os_world) (c1 c2 : poll_call)
         (inst : sysmon_module_instance os_world module_state),
    cr_sysmon (sysmon_create sysmon_builtin_modules w0 (SYSMON_OK, ini0, None))
      = Some s ->
    In c1 (pr_calls (sysmon_poll ck w1 s)) ->
    In c2 (pr_calls (sysmon_poll (pr_clock (sysmon_poll ck w1 s)) w2
                       (pr_sysmon (sysmon_poll ck w1 s)))) ->
    pc_index c2 = pc_index c1 ->
    nth_error (sm_modules s) (pc_index c1) = Some inst ->
    0 < inst_refresh_ms inst ->
    pc_rc c1 = SYSMON_OK -> pc_refresh_now c1 = true ->
    pc_now c1 <= pc_now c2 < pc_now c1 + inst_refresh_ms inst ->
    pc_refresh_now c2 = false /\ pc_added c2 = pc_added c1.

(** [[module.cpu] refresh_ms=1000]. *)
Definition slow_cpu_ini : sysmon_ini :=
  [mk_entry "module.cpu" "refresh_ms" "1000"].

Definition empty_engine : sysmon_t os_world module_state :=
  mk_sysmon (mk_config 0) None [] None.

(** The engine constructed on the laptop with [slow_cpu_ini]. *)
Definition slow_cpu_engine : sysmon_t os_world module_state :=
  match cr_sysmon (sysmon_create sysmon_builtin_modules laptop_world
                     (SYSMON_OK, Some slow_cpu_ini, None)) with
  | Some s => s
  | None => empty_engine
  end.

(** A clock whose first read fails and which shows 5 ms afterwards. *)
Definition late_clock : sysmon_clock :=
  mk_clock 0 (fun k => match k with O => None | S _ => Some (0, 5000000) end).

(** The same laptop after 400 more busy ticks. *)
Definition busy_laptop_world : os_world :=
  with_proc_stat laptop_world (mk_proc_stat 1400 0 500 8000 100 0 0 0).

Definition empty_call : poll_call :=
  mk_call 0 EmptyString 0 false SYSMON_OK None [].

(** The element at index [i] is bound to [vt], keeps the state [st], has
    the refresh interval [r] and was last refreshed at [t]. *)
Definition holds_sample {World St : Type} (vt : sysmon_module_vtable World St)
    (i : nat) (t r : Z) (st : option St) (s : sysmon_t World St) : Prop :=
  exists inst,
    nth_error (sm_modules s) i = Some inst
    /\ inst_vtable inst = Some vt
    /\ inst_state inst = st
    /\ inst_refresh_ms inst = r
    /\ inst_last_refresh_ms inst = t.

(** A clock that shows 100 ms and advances by 5 ms per read. *)
Definition fine_clock : sysmon_clock :=
  mk_clock 0 (fun k => Some (0, 100000000 + 5000000 * Z.of_nat k)).

(** *** Vocabulary for configuration values *)

(** The spellings [parse_bool] recognises, compared without case. *)
Definition true_spellings : list string := ["1"; "true"; "yes"; "on"].
Definition false_spellings : list string := ["0"; "false"; "no"; "off"].

(** The number written by a run of decimal digits that follows [acc]. *)
Fixpoint digits_value (s : string) (acc : Z) : Z :=
  match s with
  | String c r => digits_value r (acc * 10 + digit_value c)
  | EmptyString => acc
  end.

(** A numeral after its leading blanks: whether it carries a minus sign,
    and the characters after the sign. *)
Definition numeral_body (v : string) : bool * string :=
  match skip_spaces v with
  | String "-"%char r => (true, r)
  | String "+"%char r => (false, r)
  | _ => (false, skip_spaces v)
  end.


(** [[sysmon] interval_ms= +0250]. *)
Definition padded_interval_ini : sysmon_ini :=
  [mk_entry "sysmon" "interval_ms" " +0250"].


(** *** Vocabulary for constructed engines *)

(** Whether a state object is of the kind the module called [name] makes. *)
Definition state_of_module (name : string) (st : module_state) : bool :=
  match st with
  | CpuState _ => streq name "cpu"
  | RamState _ => streq name "ram"
  | BatteryState _ => streq name "battery"
  | NetworkState _ => streq name "network"
  | StorageState _ => streq name "storage"
  end.

(** An element as engine construction leaves it: bound to a registry
    entry; when enabled it holds a state of its module's kind, when
    disabled it holds none. *)
Definition instance_ready
    (inst : sysmon_module_instance os_world module_state) : Prop :=
  exists vt,
    inst_vtable inst = Some vt
    /\ In vt sysmon_builtin_modules
    /\ if inst_enabled inst
       then exists st, inst_state inst = Some st
                       /\ state_of_module (vt_name vt) st = true
       else inst_state inst = None.

Definition engine_ready (s : sysmon_t os_world module_state) : Prop :=
  Forall instance_ready (sm_modules s).

(** The names of the enabled elements, in array order. *)
Definition enabled_names {World St : Type} (s : sysmon_t World St) : list string :=
  flat_map (fun inst =>
              match inst_enabled inst, inst_vtable inst with
              | true, Some vt => [vt_name vt]
              | _, _ => []
              end)
           (sm_modules s).

(** The two ways a call of a built-in [poll] can end. *)
Definition poll_outcome (name : string) (fail_rc : sysmon_result)
    (st : module_state) (b : sysmon_snapshot_builder)
    (out : module_poll_out) : Prop :=
  (po_rc out = SYSMON_OK /\ po_error out = None
   /\ exists st' added,
        po_state out = Some st' /\ state_of_module name st' = true
        /\ added <> []
        /\ b_metrics (po_builder out) = (b_metrics b ++ added)%list)
  \/ (po_rc out = fail_rc /\ po_state out = Some st /\ po_builder out = b
      /\ exists msg, po_error out = Some msg).

(** The two ways a call of a built-in [create] can end. *)
Definition create_outcome (name : string) (co : module_create_out) : Prop :=
  (co_rc co = SYSMON_OK
   /\ exists st, co_state co = Some st /\ state_of_module name st = true)
  \/ (co_rc co = SYSMON_ERR_NOT_SUPPORTED /\ co_state co = None
      /\ exists msg, co_error co = Some msg).


(** *** Vocabulary for builder clients *)

(** A call of one of the four typed [add] functions as the C interface
    allows it: the name, the unit and a string value may be NULL. *)
Inductive builder_call : Type :=
| CallDouble (name unit_ : option string) (value : float)
| CallI64 (name unit_ : option string) (value : Z)
| CallU64 (name unit_ : option string) (value : Z)
| CallString (name unit_ : option string) (value : option string).

Definition run_call (b : sysmon_snapshot_builder) (c : builder_call)
  : sysmon_result * sysmon_snapshot_builder :=
  match c with
  | CallDouble n u v => sysmon_snapshot_builder_add_double b n u v
  | CallI64 n u v => sysmon_snapshot_builder_add_i64 b n u v
  | CallU64 n u v => sysmon_snapshot_builder_add_u64 b n u v
  | CallString n u v => sysmon_snapshot_builder_add_string b n u v
  end.

Fixpoint run_calls (b : sysmon_snapshot_builder) (cs : list builder_call)
  : list sysmon_result * sysmon_snapshot_builder :=
  match cs with
  | [] => ([], b)
  | c :: r =>
      let '(rc, b1) := run_call b c in
      let '(rcs, b2) := run_calls b1 r in
      (rc :: rcs, b2)
  end.

Definition call_name (c : builder_call) : option string :=
  match c with
  | CallDouble n _ _ | CallI64 n _ _ | CallU64 n _ _ | CallString n _ _ => n
  end.

(** The record a call leaves in the builder, if any. *)
Definition call_record (c : builder_call) : list sysmon_metric :=
  match c with
  | CallDouble (Some n) u v => [mk_metric (Some n) u SYSMON_METRIC_DOUBLE (V_f64 v)]
  | CallI64 (Some n) u v => [mk_metric (Some n) u SYSMON_METRIC_INT64 (V_i64 v)]
  | CallU64 (Some n) u v => [mk_metric (Some n) u SYSMON_METRIC_UINT64 (V_u64 v)]
  | CallString (Some n) u v =>
      [mk_metric (Some n) u SYSMON_METRIC_STRING
                 (V_str (Some (match v with Some t => t | None => EmptyString end)))]
  | _ => []
  end.

(** The capacity is 0 for an empty builder and otherwise the smallest of
    32, 64, 128, ... that holds the records. *)
Definition capacity_fits (b : sysmon_snapshot_builder) : Prop :=
  (b_count b = 0%nat /\ b_capacity b = 0%nat)
  \/ ((1 <= b_count b <= b_capacity b)%nat
      /\ exists k : nat,
           b_capacity b = (32 * 2 ^ k)%nat
           /\ (k = 0%nat \/ (b_capacity b < 2 * b_count b)%nat)).


(** *** Vocabulary for the collectors *)

(** The charging flag agrees with the status text, which fits its buffer. *)
Definition battery_state_ok (st : battery_state) : Prop :=
  bat_last_is_charging st
  = (if strcaseeq (bat_last_status st) "Charging" then 1 else 0)
  /\ (String.length (bat_last_status st) <= 31)%nat
  /\ (0 <=? bat_last_percent st)%float = true.

(** The cached byte counts add up. *)
Definition ram_state_ok (st : ram_state) : Prop :=
  0 <= ram_total_bytes st < UINT64_MOD
  /\ (ram_has_data st = true ->
      0 <= ram_last_free_bytes st <= ram_total_bytes st
      /\ ram_last_used_bytes st + ram_last_free_bytes st = ram_total_bytes st)
  /\ (0 <=? ram_last_used_percent st)%float = true.


(** The cached volume figures are 64-bit values that fit together. *)
Definition storage_state_ok (st : storage_state) : Prop :=
  (sto_has_data st = true ->
   0 <= sto_last_total_bytes st < UINT64_MOD
   /\ 0 <= sto_last_free_bytes st < UINT64_MOD
   /\ 0 <= sto_last_avail_bytes st < UINT64_MOD
   /\ 0 <= sto_last_used_bytes st <= sto_last_total_bytes st
   /\ (sto_last_free_bytes st <= sto_last_total_bytes st ->
       sto_last_used_bytes st + sto_last_free_bytes st = sto_last_total_bytes st)
   /\ (sto_last_total_bytes st < sto_last_free_bytes st -> sto_last_used_bytes st = 0))
  /\ (0 <=? sto_last_used_percent st)%float = true.


(* ================================================================= *)
(** ** Loading a configuration file (sysmon_ini.c) *)

Definition NUL : ascii := "000"%char.
Definition LF : ascii := "010"%char.

(** The string a [char] buffer holds: its characters up to the first NUL. *)
Fixpoint c_str (s : string) : string :=
  match s with
  | String c r => if Ascii.eqb c NUL then EmptyString else String c (c_str r)
  | EmptyString => EmptyString
  end.

Definition push_char (c : ascii) (chunks : list string) : list string :=
  match chunks with
  | [] => [String c EmptyString]
  | h :: t => String c h :: t
  end.

(** The buffers the loop [while (fgets(line, n, f))] sees on a file with
    the given bytes: each call stores characters up to and including a
    newline, and at most [n - 1] of them.  [room] is what is left of the
    buffer being filled. *)
Fixpoint read_lines (n room : nat) (bytes : string) : list string :=
  match bytes with
  | EmptyString => []
  | String c r =>
      if Ascii.eqb c LF || (room <=? 1)%nat
      then String c EmptyString :: read_lines n (n - 1) r
      else push_char c (read_lines n (room - 1) r)
  end.

(** Removes trailing white space, as the second loop of [trim]. *)
Fixpoint rstrip (s : string) : string :=
  match s with
  | EmptyString => EmptyString
  | String c r =>
      match rstrip r with
      | EmptyString => if isspace c then EmptyString else String c EmptyString
      | r' => String c r'
      end
  end.

Definition trim (s : string) : string := rstrip (skip_spaces s).

Definition starts_with_comment (s : string) : bool :=
  match s with
  | EmptyString => true
  | String c _ => Ascii.eqb c ";" || Ascii.eqb c "#"
  end.

(** [strchr(s, ch)] followed by [*p = 0]: the text before the first [ch]
    and the text after it. *)
Fixpoint strchr_split (ch : ascii) (s : string) : option (string * string) :=
  match s with
  | EmptyString => None
  | String c r =>
      if Ascii.eqb c ch then Some (EmptyString, r)
      else match strchr_split ch r with
           | Some (a, b) => Some (String c a, b)
           | None => None
           end
  end.

Definition push_entry (ini : sysmon_ini) (section key value : string) : sysmon_ini :=
  (ini ++ [mk_entry section key value])%list.

(** [snprintf(buf, 256, "ini parse error at line %zu: <what>", line_no)]. *)
Definition parse_error_message (line_no : nat) (what : string) : string :=
  snprintf_s 256 ("ini parse error at line "
                  ++ NilZero.string_of_uint (Nat.to_uint line_no) ++ ": " ++ what).

(** The loop of [sysmon_ini_load_file] over the buffers read; [line_no]
    counts the buffers seen so far and [section] is the current section.
    The result is the code, [*out_ini] and [*out_error]. *)
Fixpoint load_lines (lines : list string) (line_no : nat) (section : string)
    (ini : sysmon_ini) : sysmon_result * option sysmon_ini * option string :=
  match lines with
  | [] => (SYSMON_OK, Some ini, None)
  | line :: rest =>
      let line_no := S line_no in
      let s := trim (c_str line) in
      if starts_with_comment s then load_lines rest line_no section ini
      else
        match s with
        | String c body =>
            if Ascii.eqb c "[" then
              match strchr_split "]" body with
              | None =>
                  (SYSMON_ERR_PARSE, None, Some (parse_error_message line_no "missing ']'"))
              | Some (inner, _) =>
                  load_lines rest line_no (snprintf_s 128 (trim inner)) ini
              end
            else
              match strchr_split "=" s with
              | None =>
                  (SYSMON_ERR_PARSE, None,
                   Some (parse_error_message line_no "expected key=value"))
              | Some (k, v) =>
                  load_lines rest line_no section (push_entry ini section (trim k) (trim v))
              end
        | EmptyString => load_lines rest line_no section ini
        end
  end.

(** [fs path] is what [fopen(path, "r")] finds: the bytes of the file, or
    the text of [strerror(errno)]. *)
Definition sysmon_ini_load_file (fs : string -> os_read string) (path : option string)
  : sysmon_result * option sysmon_ini * option string :=
  match path with
  | None => (SYSMON_ERR_INVALID_ARGUMENT, None, None)
  | Some p =>
      match fs p with
      | ReadFailed reason =>
          (SYSMON_ERR_IO, None,
           Some (snprintf_s 256
                   ("failed to open ini file: " ++ p ++ " (" ++ reason ++ ")")))
      | ReadOk bytes => load_lines (read_lines 1024 1023 bytes) 0 EmptyString []
      end
  end.


(** *** Vocabulary for the loader *)

(** A buffer the loop passes over: blank, or a comment. *)
Definition ignorable (line : string) : bool :=
  starts_with_comment (trim (c_str line)).

(** What is wrong with a buffer, if anything: a section header without
    its closing bracket, or a line without an equals sign. *)
Definition malformed (line : string) : option string :=
  match trim (c_str line) with
  | EmptyString => None
  | String c body =>
      if Ascii.eqb c ";" || Ascii.eqb c "#" then None
      else if Ascii.eqb c "[" then
        match strchr_split "]" body with
        | None => Some "missing ']'"
        | Some _ => None
        end
      else
        match strchr_split "=" (String c body) with
        | None => Some "expected key=value"
        | Some _ => None
        end
  end.

(** The first malformed buffer after [line_no] buffers: its number,
    counted from 1, and what is wrong with it. *)
Fixpoint first_malformed (lines : list string) (line_no : nat)
  : option (nat * string) :=
  match lines with
  | [] => None
  | line :: rest =>
      match malformed line with
      | Some what => Some (S line_no, what)
      | None => first_malformed rest (S line_no)
      end
  end.


Definition first_is_space (s : string) : bool :=
  match s with
  | String c _ => isspace c
  | EmptyString => false
  end.

Fixpoint last_is_space (s : string) : bool :=
  match s with
  | EmptyString => false
  | String c r =>
      match r with
      | EmptyString => isspace c
      | String _ _ => last_is_space r
      end
  end.

(** No white space at either end. *)
Definition is_trimmed (s : string) : bool :=
  negb (first_is_space s) && negb (last_is_space s).

Fixpoint has_char (ch : ascii) (s : string) : bool :=
  match s with
  | EmptyString => false
  | String c r => Ascii.eqb c ch || has_char ch r
  end.

(** A key does not look like a comment or a section header. *)
Definition entry_start (key : string) : bool :=
  match key with
  | String c _ => negb (Ascii.eqb c ";" || Ascii.eqb c "#" || Ascii.eqb c "[")
  | EmptyString => true
  end.

(** What holds of every entry a file can yield. *)
Definition entry_loaded (e : sysmon_ini_entry) : Prop :=
  is_trimmed (e_key e) = true
  /\ is_trimmed (e_value e) = true
  /\ has_char "=" (e_key e) = false
  /\ entry_start (e_key e) = true
  /\ (String.length (e_section e) <= 127)%nat
  /\ first_is_space (e_section e) = false
  /\ has_char "]" (e_section e) = false
  /\ has_char NUL (e_section e) = false
  /\ has_char NUL (e_key e) = false
  /\ has_char NUL (e_value e) = false.

(** An entry that can be written to a file and read back: as above, and
    the section is trimmed, nothing contains a newline, and key and value
    fit one buffer. *)
Definition entry_writable (e : sysmon_ini_entry) : Prop :=
  entry_loaded e
  /\ last_is_space (e_section e) = false
  /\ has_char LF (e_section e) = false
  /\ has_char LF (e_key e) = false
  /\ has_char LF (e_value e) = false
  /\ (String.length (e_key e) + String.length (e_value e) <= 1021)%nat.

(** The text of an entry: its section header, then [key=value]. *)
Definition render_entry (e : sysmon_ini_entry) : string :=
  "[" ++ e_section e ++ "]" ++ String LF (e_key e ++ "=" ++ e_value e ++ String LF EmptyString).

Fixpoint render_ini (ini : sysmon_ini) : string :=
  match ini with
  | [] => EmptyString
  | e :: r => render_entry e ++ render_ini r
  end.


(** What holds of the current section throughout the loop. *)
Definition section_loaded (section : string) : Prop :=
  (String.length section <= 127)%nat
  /\ first_is_space section = false
  /\ has_char "]" section = false
  /\ has_char NUL section = false.

(** A file system holding one small configuration file. *)
Definition example_ini_fs (path : string) : os_read string :=
  if streq path "sysmon.ini" then
    ReadOk ("; engine" ++ String LF ("[ sysmon ]" ++ String LF
            ("  interval_ms = 250  " ++ String LF EmptyString)))
  else ReadFailed "No such file or directory".


(** The two lines [render_entry] writes, without their newlines. *)
Definition header_text (e : sysmon_ini_entry) : string :=
  String "[" (e_section e ++ "]").

Definition entry_text (e : sysmon_ini_entry) : string :=
  e_key e ++ String "=" (e_value e).

(** A table to write and read back. *)
Definition example_table : sysmon_ini :=
  [ mk_entry "sysmon" "interval_ms" "250";
    mk_entry "module.network" "interface" "eth0";
    mk_entry "" "" "" ].


(** A clock that shows 100 ms, then fails to read, then shows 120 ms. *)
Definition faulty_clock : sysmon_clock :=
  mk_clock 0 (fun k => match k with
                       | O => Some (0, 100000000)
                       | S O => None
                       | S (S _) => Some (0, 120000000)
                       end).

(** The laptop after 400 more ticks, all of them idle. *)
Definition idle_laptop_world : os_world :=
  with_proc_stat laptop_world (mk_proc_stat 1400 0 500 8400 100 0 0 0).

(** The call a round made on the first module of the registry. *)
Definition cpu_call (R : poll_result os_world module_state) : poll_call :=
  nth 0 (pr_calls R) empty_call.


(* ================================================================= *)
(** ** The snapshot builder when an allocation can fail *)

(** The allocator as the builder sees it: the outcomes of the requests
    still to come ([realloc], [malloc] under [sysmon_strdup]), in program
    order, [true] for a request that is granted.  Requests beyond the end
    of the list are granted. *)
Definition heap_plan : Type := list bool.

Definition request (h : heap_plan) : bool * heap_plan :=
  match h with
  | [] => (true, [])
  | ok :: r => (ok, r)
  end.

(** [sysmon_set_error] into an error slot that the caller frees unread:
    one [sysmon_strdup] of the message. *)
Definition dropped_error (h : heap_plan) : heap_plan := snd (request h).

Definition ensure_capacity_h (h : heap_plan) (b : sysmon_snapshot_builder)
  : sysmon_result * sysmon_snapshot_builder * heap_plan :=
  if (b_count b <? b_capacity b)%nat then (SYSMON_OK, b, h)
  else
    let new_cap := if (b_capacity b =? 0)%nat then 32%nat
                   else (b_capacity b * 2)%nat in
    let '(granted, h1) := request h in
    if granted then (SYSMON_OK, mk_builder (b_metrics b) new_cap, h1)
    else (SYSMON_ERR_OUT_OF_MEMORY, b, dropped_error h1).

(** Both copies are requested before either is tested. *)
Definition add_common_h (h : heap_plan) (b : sysmon_snapshot_builder)
    (name unit_ : option string) (type : sysmon_metric_type)
  : sysmon_result * sysmon_snapshot_builder * heap_plan :=
  match name with
  | None => (SYSMON_ERR_INVALID_ARGUMENT, b, h)
  | Some n =>
      let '(rc, b1, h1) := ensure_capacity_h h b in
      if negb (result_eqb rc SYSMON_OK) then (rc, b1, h1)
      else
        let '(name_copy, h2) := request h1 in
        let '(unit_copy, h3) :=
          match unit_ with
          | Some _ => request h2
          | None => (true, h2)
          end in
        if negb name_copy || negb unit_copy then
          (SYSMON_ERR_OUT_OF_MEMORY, b1, dropped_error h3)
        else
          let m := mk_metric (Some n) unit_ type (zero_value type) in
          (SYSMON_OK, mk_builder (b_metrics b1 ++ [m])%list (b_capacity b1), h3)
  end.

(** The three numeric [add] functions: the value is stored in place. *)
Definition add_number_h (h : heap_plan) (b : sysmon_snapshot_builder)
    (name unit_ : option string) (type : sysmon_metric_type) (v : metric_value)
  : sysmon_result * sysmon_snapshot_builder * heap_plan :=
  let '(rc, b1, h1) := add_common_h h b name unit_ type in
  if negb (result_eqb rc SYSMON_OK) then (rc, b1, h1)
  else (SYSMON_OK, mk_builder (set_last_value v (b_metrics b1)) (b_capacity b1), h1).

(** [add_string] copies the value after the record is in the array; when
    that copy is refused the record stays, with a NULL string. *)
Definition add_string_h (h : heap_plan) (b : sysmon_snapshot_builder)
    (name unit_ value : option string)
  : sysmon_result * sysmon_snapshot_builder * heap_plan :=
  let '(rc, b1, h1) := add_common_h h b name unit_ SYSMON_METRIC_STRING in
  if negb (result_eqb rc SYSMON_OK) then (rc, b1, h1)
  else
    let '(value_copy, h2) := request h1 in
    if value_copy then
      (SYSMON_OK,
       mk_builder
         (set_last_value
            (V_str (Some (match value with Some v => v | None => EmptyString end)))
            (b_metrics b1))
         (b_capacity b1),
       h2)
    else (SYSMON_ERR_OUT_OF_MEMORY, b1, h2).

Definition run_call_h (h : heap_plan) (b : sysmon_snapshot_builder)
    (c : builder_call) : sysmon_result * sysmon_snapshot_builder * heap_plan :=
  match c with
  | CallDouble n u v => add_number_h h b n u SYSMON_METRIC_DOUBLE (V_f64 v)
  | CallI64 n u v => add_number_h h b n u SYSMON_METRIC_INT64 (V_i64 v)
  | CallU64 n u v => add_number_h h b n u SYSMON_METRIC_UINT64 (V_u64 v)
  | CallString n u v => add_string_h h b n u v
  end.

Fixpoint run_calls_h (h : heap_plan) (b : sysmon_snapshot_builder)
    (cs : list builder_call)
  : list sysmon_result * sysmon_snapshot_builder * heap_plan :=
  match cs with
  | [] => ([], b, h)
  | c :: r =>
      let '(rc, b1, h1) := run_call_h h b c in
      let '(rcs, b2, h2) := run_calls_h h1 b1 r in
      (rc :: rcs, b2, h2)
  end.

(** Every request of the plan is granted. *)
Definition all_granted (h : heap_plan) : Prop := Forall (fun ok => ok = true) h.

(** The record an [add_string] call leaves when the copy of its value is
    refused. *)
Definition unfinished_record (c : builder_call) : list sysmon_metric :=
  match c with
  | CallString (Some n) u _ => [mk_metric (Some n) u SYSMON_METRIC_STRING (V_str None)]
  | _ => []
  end.


(** *** Files seen as lines *)

(** The bytes of a file with the lines [ls], each ended by a newline. *)
Fixpoint file_of_lines (ls : list string) : string :=
  match ls with
  | [] => EmptyString
  | l :: r => l ++ String LF (file_of_lines r)
  end.

(** A line that one [fgets] call reads whole into the 1024-byte buffer:
    with its newline it has at most 1023 characters. *)
Definition line_fits (l : string) : Prop :=
  has_char LF l = false /\ (String.length l <= 1022)%nat.

(** Four lines, two of which say nothing. *)
Definition commented_lines : list string :=
  ["# engine settings"; "[sysmon]"; "   "; "interval_ms = 250"].

(* ================================================================= *)
(** * Properties *)

Local Close Scope float_scope.
Local Open Scope list_scope.

(** ** Result codes *)

Lemma result_eqb_eq (a b : sysmon_result) : result_eqb a b = true <-> a = b.
Proof.
  split.
  - destruct a, b; cbv; congruence.
  - intros ->. destruct b; reflexivity.
Qed.

Lemma result_eqb_refl (a : sysmon_result) : result_eqb a a = true.
Proof. now apply result_eqb_eq. Qed.

Lemma result_eqb_neq (a b : sysmon_result) : result_eqb a b = false <-> a <> b.
Proof.
  split.
  - intros H E. apply result_eqb_eq in E. congruence.
  - intros H. destruct (result_eqb a b) eqn:E; trivial.
    apply result_eqb_eq in E. contradiction.
Qed.

(** ** Snapshot builder *)

Lemma set_last_value_app (v : metric_value) (l : list sysmon_metric) (m : sysmon_metric) :
  set_last_value v (l ++ [m]) = l ++ [mk_metric (m_name m) (m_unit m) (m_type m) v].
Proof.
  induction l as [|a l IH]; [reflexivity|].
  change ((a :: l) ++ [m]) with (a :: (l ++ [m])).
  cbn [set_last_value]. rewrite IH.
  destruct (l ++ [m]) eqn:E; [destruct l; discriminate|reflexivity].
Qed.

Lemma add_with_value_some (b : sysmon_snapshot_builder) (n : string)
    (u : option string) (t : sysmon_metric_type) (v : metric_value) :
  exists cap,
    add_with_value b (Some n) u t v =
    (SYSMON_OK, mk_builder (b_metrics b ++ [mk_metric (Some n) u t v]) cap).
Proof.
  unfold add_with_value, add_common, ensure_capacity.
  destruct (b_count b <? b_capacity b)%nat; cbn;
    rewrite set_last_value_app; cbn; eexists; reflexivity.
Qed.

Lemma apply_add_metrics (b : sysmon_snapshot_builder) (op : add_op) :
  exists cap,
    apply_add b op = (SYSMON_OK, mk_builder (b_metrics b ++ [op_metric op]) cap).
Proof. destruct op; cbn; apply add_with_value_some. Qed.

Lemma apply_adds_metrics (ops : list add_op) (b : sysmon_snapshot_builder) :
  exists cap,
    apply_adds b ops =
    (map (fun _ => SYSMON_OK) ops,
     mk_builder (b_metrics b ++ map op_metric ops) cap).
Proof.
  revert b. induction ops as [|op ops IH]; intros b; cbn [apply_adds map].
  - exists (b_capacity b). rewrite app_nil_r. now destruct b.
  - destruct (apply_add_metrics b op) as [c1 ->].
    destruct (IH (mk_builder (b_metrics b ++ [op_metric op]) c1)) as [c2 ->].
    exists c2. cbn. now rewrite <- app_assoc.
Qed.

Lemma build_snapshot_eq (ops : list add_op) :
  build_snapshot ops =
  (map (fun _ => SYSMON_OK) ops, SYSMON_OK, mk_builder [] 0,
   Some (mk_snapshot (map op_metric ops))).
Proof.
  unfold build_snapshot, sysmon_snapshot_builder_create.
  destruct (apply_adds_metrics ops (mk_builder [] 0)) as [c ->].
  reflexivity.
Qed.

(** ** Snapshot lookups *)

Lemma streq_eq (a b : string) : streq a b = true <-> a = b.
Proof. apply String.eqb_eq. Qed.

Lemma name_matches_iff (n : string) (m : sysmon_metric) :
  name_matches n m = true <-> m_name m = Some n.
Proof.
  unfold name_matches. destruct (m_name m) as [k|].
  - rewrite streq_eq. split; congruence.
  - split; discriminate.
Qed.

Lemma find_index_none (n : string) (ms : list sysmon_metric) (i : nat) :
  find_index n i ms = None <-> (forall m, In m ms -> m_name m <> Some n).
Proof.
  revert i. induction ms as [|a ms IH]; intros i; cbn [find_index].
  - split; [intros _ m []|reflexivity].
  - destruct (name_matches n a) eqn:E.
    + split; [discriminate|]. intros H. apply name_matches_iff in E.
      exfalso. apply (H a); [now left|assumption].
    + rewrite IH. split.
      * intros H m [<-|Hm]; [|now apply H].
        intros K. apply name_matches_iff in K. congruence.
      * intros H m Hm. apply H. now right.
Qed.

Lemma find_index_some (n : string) (ms : list sysmon_metric) (i k : nat) :
  find_index n i ms = Some k ->
  exists j m, k = (i + j)%nat /\ nth_error ms j = Some m /\ m_name m = Some n /\
    forall j' m', (j' < j)%nat -> nth_error ms j' = Some m' -> m_name m' <> Some n.
Proof.
  revert i. induction ms as [|a ms IH]; intros i; cbn [find_index]; [discriminate|].
  destruct (name_matches n a) eqn:E.
  - intros [= <-]. exists 0%nat, a. repeat split; [lia| |intros j' m' Hj; lia].
    now apply name_matches_iff.
  - intros H. destruct (IH _ H) as (j & m & -> & Hn & Hm & Hfirst).
    exists (S j), m. repeat split; [lia|assumption|assumption|].
    intros [|j'] m' Hj; cbn.
    + intros [= <-] K. apply name_matches_iff in K. congruence.
    + apply Hfirst. lia.
Qed.

Lemma find_index_first (n : string) (ms : list sysmon_metric) (j : nat) (m : sysmon_metric) :
  nth_error ms j = Some m -> m_name m = Some n ->
  (forall j' m', (j' < j)%nat -> nth_error ms j' = Some m' -> m_name m' <> Some n) ->
  forall i, find_index n i ms = Some (i + j)%nat.
Proof.
  revert j. induction ms as [|a ms IH]; intros j Hj Hm Hfirst i.
  - destruct j; discriminate.
  - cbn [find_index]. destruct j as [|j].
    + cbn in Hj. injection Hj as ->. apply name_matches_iff in Hm. rewrite Hm.
      f_equal. lia.
    + destruct (name_matches n a) eqn:E.
      * apply name_matches_iff in E. exfalso.
        apply (Hfirst 0%nat a); [lia|reflexivity|assumption].
      * rewrite (IH j Hj Hm); [f_equal; lia|].
        intros j' m' Hlt Hn. apply (Hfirst (S j') m'); [lia|exact Hn].
Qed.

Lemma snapshot_find_first (s : sysmon_snapshot) (n : string) (i : nat) (m : sysmon_metric) :
  nth_error (s_metrics s) i = Some m ->
  m_name m = Some n ->
  (forall j m', (j < i)%nat -> nth_error (s_metrics s) j = Some m' ->
                m_name m' <> Some n) ->
  sysmon_snapshot_find (Some s) (Some n) = Some m.
Proof.
  intros Hi Hm Hfirst. cbn.
  rewrite (find_index_first n _ i m Hi Hm Hfirst 0%nat). cbn. exact Hi.
Qed.

(** C10 — the read interface of a snapshot is total at its boundary:
    the count of a NULL snapshot is 0; [sysmon_snapshot_metric_at] is NULL
    exactly when the snapshot is NULL or the index is not below the count,
    and is otherwise the record stored at that index;
    [sysmon_snapshot_find] is NULL when the snapshot or the name is NULL or
    no record carries exactly that name, and is otherwise the record of
    lowest index with that name, so a duplicated name resolves to the record
    inserted first. *)
Theorem snapshot_read_interface_total :
  sysmon_snapshot_metric_count None = 0%nat
  /\ (forall snap i,
        sysmon_snapshot_metric_at snap i = None <->
        snap = None \/ (sysmon_snapshot_metric_count snap <= i)%nat)
  /\ (forall s i,
        (i < sysmon_snapshot_metric_count (Some s))%nat ->
        exists m, nth_error (s_metrics s) i = Some m
                  /\ sysmon_snapshot_metric_at (Some s) i = Some m)
  /\ (forall snap name,
        sysmon_snapshot_find snap name = None <->
        snap = None \/ name = None \/
        exists s n, snap = Some s /\ name = Some n
                    /\ forall m, In m (s_metrics s) -> m_name m <> Some n)
  /\ (forall s n i m,
        nth_error (s_metrics s) i = Some m ->
        m_name m = Some n ->
        (forall j m', (j < i)%nat -> nth_error (s_metrics s) j = Some m' ->
                      m_name m' <> Some n) ->
        sysmon_snapshot_find (Some s) (Some n) = Some m)
  /\ (forall s n m,
        sysmon_snapshot_find (Some s) (Some n) = Some m ->
        exists i, nth_error (s_metrics s) i = Some m /\ m_name m = Some n
                  /\ forall j m', (j < i)%nat ->
                       nth_error (s_metrics s) j = Some m' -> m_name m' <> Some n).
Proof.
  split; [reflexivity|].
  split.
  { intros [s|] i; cbn.
    - unfold s_count. destruct (Nat.leb_spec (List.length (s_metrics s)) i) as [H|H].
      + split; [intros _; now right|reflexivity].
      + split.
        * intros E. apply nth_error_None in E. lia.
        * intros [E|E]; [discriminate|lia].
    - split; [intros _; now left|reflexivity]. }
  split.
  { intros s i Hi. cbn in *. unfold s_count in *.
    destruct (nth_error (s_metrics s) i) as [m|] eqn:E.
    - exists m. split; [reflexivity|].
      destruct (Nat.leb_spec (List.length (s_metrics s)) i); [lia|reflexivity].
    - apply nth_error_None in E. lia. }
  split.
  { intros [s|] [n|]; cbn.
    - destruct (find_index n 0 (s_metrics s)) as [k|] eqn:E.
      + destruct (find_index_some _ _ _ _ E) as (j & m & -> & Hj & Hm & _).
        cbn. rewrite Hj. split; [discriminate|].
        intros [H|[H|(s' & n' & [= <-] & [= <-] & H)]]; try discriminate.
        exfalso. apply (H m); [now apply nth_error_In with j|assumption].
      + split; [|reflexivity]. intros _. right. right.
        exists s, n. repeat split. now apply (find_index_none n _ 0%nat).
    - split; [intros _; right; now left|reflexivity].
    - split; [intros _; now left|reflexivity].
    - split; [intros _; now left|reflexivity]. }
  split.
  { exact snapshot_find_first. }
  intros s n m. cbn.
  destruct (find_index n 0 (s_metrics s)) as [k|] eqn:E; [|discriminate].
  destruct (find_index_some _ _ _ _ E) as (j & m0 & -> & Hj & Hm & Hfirst).
  cbn. rewrite Hj. intros [= <-]. exists j. auto.
Qed.

(** C9 — builder round trip.  After any sequence of typed [add] calls with
    pairwise distinct names on a fresh builder, followed by [finalize]:
    every call returned OK; the snapshot holds one record per call, in
    insertion order; reading by index and by exact name gives back the
    name, unit, type tag and value of the call.  [finalize] hands every
    accumulated record of any builder to the snapshot and leaves the
    builder with no records and no capacity. *)
Theorem builder_round_trip (ops : list add_op) :
  NoDup (map op_name ops) ->
  exists snap,
    build_snapshot ops =
      (map (fun _ => SYSMON_OK) ops, SYSMON_OK, mk_builder [] 0, Some snap)
    /\ sysmon_snapshot_metric_count (Some snap) = List.length ops
    /\ (forall i op, nth_error ops i = Some op ->
          sysmon_snapshot_metric_at (Some snap) i = Some (op_metric op)
          /\ sysmon_snapshot_find (Some snap) (Some (op_name op)) = Some (op_metric op))
    /\ (forall b, exists b',
          sysmon_snapshot_builder_finalize b =
            (SYSMON_OK, b', Some (mk_snapshot (b_metrics b)))
          /\ b_metrics b' = [] /\ b_count b' = 0%nat /\ b_capacity b' = 0%nat).
Proof.
  intros Hnd. exists (mk_snapshot (map op_metric ops)).
  split; [apply build_snapshot_eq|].
  split; [cbn; unfold s_count; cbn; apply length_map|].
  split.
  - intros i op Hi.
    assert (Hm : nth_error (map op_metric ops) i = Some (op_metric op))
      by (rewrite nth_error_map, Hi; reflexivity).
    split.
    + cbn. unfold s_count. cbn.
      destruct (Nat.leb_spec (List.length (map op_metric ops)) i) as [H|H]; [|exact Hm].
      apply nth_error_None in H. congruence.
    + apply (snapshot_find_first (mk_snapshot (map op_metric ops)) (op_name op) i); cbn.
      * exact Hm.
      * now destruct op.
      * intros j m' Hj Hn Hname.
        rewrite nth_error_map in Hn.
        destruct (nth_error ops j) as [op'|] eqn:Ej; [|discriminate].
        cbn in Hn. injection Hn as <-.
        assert (Hnames : op_name op' = op_name op)
          by (destruct op'; cbn in *; congruence).
        assert (Hj' : nth_error (map op_name ops) j = Some (op_name op))
          by (rewrite nth_error_map, Ej; cbn; congruence).
        assert (Hi' : nth_error (map op_name ops) i = Some (op_name op))
          by (rewrite nth_error_map, Hi; reflexivity).
        rewrite NoDup_nth_error in Hnd.
        assert (j = i); [|lia].
        apply Hnd; [|congruence].
        apply nth_error_Some. congruence.
  - intros b. exists (mk_builder [] 0). repeat split.
Qed.

Lemma builder_round_trip_witness :
  NoDup (map op_name example_ops)
  /\ exists snap,
       build_snapshot example_ops =
         ([SYSMON_OK; SYSMON_OK], SYSMON_OK, mk_builder [] 0, Some snap)
       /\ sysmon_snapshot_metric_count (Some snap) = 2%nat
       /\ sysmon_snapshot_metric_at (Some snap) 0 =
            Some (mk_metric (Some "x.a") (Some "u") SYSMON_METRIC_DOUBLE (V_f64 1.5%float))
       /\ sysmon_snapshot_metric_at (Some snap) 1 =
            Some (mk_metric (Some "x.b") None SYSMON_METRIC_UINT64 (V_u64 42))
       /\ sysmon_snapshot_find (Some snap) (Some "x.a") =
            Some (mk_metric (Some "x.a") (Some "u") SYSMON_METRIC_DOUBLE (V_f64 1.5%float))
       /\ sysmon_snapshot_find (Some snap) (Some "x.b") =
            Some (mk_metric (Some "x.b") None SYSMON_METRIC_UINT64 (V_u64 42)).
Proof.
  assert (Hnd : NoDup (map op_name example_ops)).
  { cbn. repeat constructor; cbn; intuition discriminate. }
  split; [exact Hnd|].
  destruct (builder_round_trip example_ops Hnd) as (snap & Hb & Hc & Hread & _).
  exists snap. split; [exact Hb|]. split; [exact Hc|].
  destruct (Hread 0%nat _ eq_refl) as [Ha0 Hf0].
  destruct (Hread 1%nat _ eq_refl) as [Ha1 Hf1].
  repeat split; assumption.
Defined.

(** ** Binary64 facts *)

Lemma SFmul_comm (x y : spec_float) : SF64mul x y = SF64mul y x.
Proof.
  unfold SF64mul, SFmul.
  destruct x as [sx|sx| |sx mx ex], y as [sy|sy| |sy my ey];
    try reflexivity; try (now rewrite xorb_comm).
  now rewrite xorb_comm, Pos.mul_comm, Z.add_comm.
Qed.

Lemma float_mul_comm (x y : float) : (x * y = y * x)%float.
Proof.
  apply Prim2SF_inj. rewrite !FloatAxioms.mul_spec. apply SFmul_comm.
Qed.

Lemma digits2_pos_lower (p : positive) :
  2 ^ (Zpos (digits2_pos p) - 1) <= Zpos p.
Proof.
  induction p as [p IH|p IH|]; cbn [digits2_pos]; [| |cbn; lia].
  - rewrite Pos2Z.inj_succ.
    replace (Z.succ (Zpos (digits2_pos p)) - 1) with (Z.succ (Zpos (digits2_pos p) - 1)) by lia.
    rewrite Z.pow_succ_r by lia. lia.
  - rewrite Pos2Z.inj_succ.
    replace (Z.succ (Zpos (digits2_pos p)) - 1) with (Z.succ (Zpos (digits2_pos p) - 1)) by lia.
    rewrite Z.pow_succ_r by lia. lia.
Qed.

Lemma Zdigits2_le (z k : Z) : 0 <= k -> 0 <= z < 2 ^ k -> Zdigits2 z <= k.
Proof.
  intros Hk [Hz Hlt]. destruct z as [|p|p]; cbn [Zdigits2]; [lia| |lia].
  destruct (Z_le_gt_dec (Zpos (digits2_pos p)) k) as [H|H]; [exact H|].
  pose proof (digits2_pos_lower p) as Hp.
  assert (2 ^ k <= 2 ^ (Zpos (digits2_pos p) - 1)) by (apply Z.pow_le_mono_r; lia).
  lia.
Qed.

Lemma Zdigits2_nonneg (z : Z) : 0 <= Zdigits2 z.
Proof. destruct z; cbn; lia. Qed.

Lemma digits2_pos_succ (p : positive) :
  Zpos (digits2_pos (Pos.succ p)) <= Zpos (digits2_pos p) + 1.
Proof.
  induction p as [p IH|p IH|]; cbn [Pos.succ digits2_pos]; rewrite ?Pos2Z.inj_succ; lia.
Qed.

Lemma Zdigits2_succ (z : Z) : 0 <= z -> Zdigits2 (z + 1) <= Zdigits2 z + 1.
Proof.
  intros Hz. destruct z as [|p|p]; [cbn; lia| |lia].
  change (Zpos p + 1) with (Zpos (p + 1)). rewrite Pos.add_1_r. cbn [Zdigits2].
  apply digits2_pos_succ.
Qed.

Lemma shr_1_shape (mrs : shr_record) :
  0 <= shr_m mrs ->
  0 <= shr_m (shr_1 mrs) /\ Zdigits2 (shr_m (shr_1 mrs)) <= Zdigits2 (shr_m mrs).
Proof.
  destruct mrs as [m r s]. cbn [shr_m]. intros Hm.
  destruct m as [|[p|p|]|p]; cbn [shr_1 shr_m Zdigits2 digits2_pos];
    rewrite ?Pos2Z.inj_succ; lia.
Qed.

Lemma iter_shr_1_shape (p : positive) (mrs : shr_record) :
  0 <= shr_m mrs ->
  0 <= shr_m (iter_pos shr_1 p mrs)
  /\ Zdigits2 (shr_m (iter_pos shr_1 p mrs)) <= Zdigits2 (shr_m mrs).
Proof.
  revert mrs. induction p as [p IH|p IH|]; intros mrs Hm; cbn [iter_pos].
  - destruct (shr_1_shape mrs Hm) as [H1 D1].
    destruct (IH _ H1) as [H2 D2]. destruct (IH _ H2) as [H3 D3]. lia.
  - destruct (IH _ Hm) as [H2 D2]. destruct (IH _ H2) as [H3 D3]. lia.
  - now apply shr_1_shape.
Qed.

Lemma shr_record_of_loc_m (m : Z) (l : location) : shr_m (shr_record_of_loc m l) = m.
Proof. destruct l as [|[]]; reflexivity. Qed.

Lemma shr_fexp_shape (m e : Z) (l : location) :
  0 <= m ->
  let '(mrs, e') := shr_fexp prec emax m e l in
  0 <= shr_m mrs /\ Zdigits2 (shr_m mrs) <= Zdigits2 m
  /\ e' = Z.max e (fexp prec emax (Zdigits2 m + e)).
Proof.
  intros Hm. unfold shr_fexp, shr.
  destruct (fexp prec emax (Zdigits2 m + e) - e) as [|p|p] eqn:E.
  - rewrite shr_record_of_loc_m. lia.
  - pose proof (iter_shr_1_shape p (shr_record_of_loc m l)) as H.
    rewrite shr_record_of_loc_m in H. destruct (H Hm). lia.
  - rewrite shr_record_of_loc_m. lia.
Qed.

Lemma round_nearest_even_shape (m : Z) (l : location) :
  0 <= m ->
  0 <= round_nearest_even m l /\ Zdigits2 (round_nearest_even m l) <= Zdigits2 m + 1.
Proof.
  intros Hm. pose proof (Zdigits2_succ m Hm).
  unfold round_nearest_even. destruct l as [|[]]; try destruct (Z.even m); lia.
Qed.

Lemma fexp_le (k : Z) : fexp prec emax k <= Z.max (k - 53) (-1074).
Proof. unfold fexp, SpecFloat.emin, prec, emax. lia. Qed.

(** Rounding a non-negative mantissa of moderate size gives a zero or a
    finite number of the requested sign: no overflow, no NaN. *)
Lemma binary_round_aux_shape (sx : bool) (mx ex : Z) (lx : location) :
  0 <= mx ->
  match binary_round_aux prec emax sx mx ex lx with
  | S754_zero s => s = sx
  | S754_finite s _ e =>
      s = sx /\ (Zdigits2 mx <= 128 -> ex <= 200 -> e <= 400)
             /\ (Zdigits2 mx <= 128 -> ex <= 0 -> e <= 200)
  | S754_infinity s => s = sx /\ ~ (Zdigits2 mx <= 128 /\ ex <= 200)
  | S754_nan => False
  end.
Proof.
  intros Hm. unfold binary_round_aux.
  pose proof (shr_fexp_shape mx ex lx Hm) as H1.
  destruct (shr_fexp prec emax mx ex lx) as [mrs' e'].
  destruct H1 as (Hm1 & Hd1 & He1).
  destruct (round_nearest_even_shape (shr_m mrs') (loc_of_shr_record mrs') Hm1) as [Hr Hdr].
  pose proof (shr_fexp_shape _ e' loc_Exact Hr) as H2.
  destruct (shr_fexp prec emax _ e' loc_Exact) as [mrs'' e''].
  destruct H2 as (Hm2 & Hd2 & He2).
  pose proof (fexp_le (Zdigits2 mx + ex)).
  pose proof (fexp_le (Zdigits2 (round_nearest_even (shr_m mrs') (loc_of_shr_record mrs')) + e')).
  pose proof (Zdigits2_nonneg mx).
  destruct (shr_m mrs'') as [|p|p]; [reflexivity| |lia].
  change (emax - prec) with 971.
  destruct (Z.leb_spec e'' 971); repeat split; try reflexivity; lia.
Qed.

Lemma digits2_pos_iter_xO (d m : positive) :
  Zpos (digits2_pos (Pos.iter xO m d)) = Zpos (digits2_pos m) + Zpos d.
Proof.
  induction d as [|d IH] using Pos.peano_ind.
  - cbn. rewrite Pos2Z.inj_succ. lia.
  - rewrite Pos.iter_succ. cbn [digits2_pos]. rewrite Pos2Z.inj_succ, IH. lia.
Qed.

Lemma shl_align_shape (mx : positive) (ex ex' : Z) :
  let '(mz, ez) := shl_align mx ex ex' in
  ez <= ex
  /\ Zpos (digits2_pos mz) <= Z.max (Zpos (digits2_pos mx)) (Zpos (digits2_pos mx) + ex - ex').
Proof.
  unfold shl_align. destruct (ex' - ex) as [|d|d] eqn:E; try lia.
  rewrite digits2_pos_iter_xO. lia.
Qed.

Lemma fexp_ge (k : Z) : k - 53 <= fexp prec emax k.
Proof. unfold fexp, prec. lia. Qed.

Lemma binary_round_shape (sx : bool) (mx : positive) (ex : Z) :
  Zpos (digits2_pos mx) <= 128 -> ex <= 200 ->
  match binary_round prec emax sx mx ex with
  | S754_zero s => s = sx
  | S754_finite s _ e => s = sx /\ e <= 400 /\ (ex <= 0 -> e <= 200)
  | _ => False
  end.
Proof.
  intros Hd He. unfold binary_round.
  pose proof (shl_align_shape mx ex (fexp prec emax (Zpos (digits2_pos mx) + ex))) as Hs.
  destruct (shl_align mx ex _) as [mz ez]. destruct Hs as [Hez Hdz].
  pose proof (fexp_ge (Zpos (digits2_pos mx) + ex)).
  pose proof (binary_round_aux_shape sx (Zpos mz) ez loc_Exact ltac:(lia)) as Hr.
  cbn [Zdigits2] in Hr.
  destruct (binary_round_aux prec emax sx (Zpos mz) ez loc_Exact) as [s|s| |s m e].
  - exact Hr.
  - destruct Hr as [_ Hr]. apply Hr. lia.
  - exact Hr.
  - destruct Hr as (-> & Hr1 & Hr2). repeat split; [apply Hr1|intros; apply Hr2]; lia.
Qed.

(** A [uint63] converts to a finite non-negative number. *)
Lemma of_uint63_shape (n : int) :
  match Prim2SF (of_uint63 n) with
  | S754_zero s => s = false
  | S754_finite s m e => s = false /\ e <= 200 /\ Zpos (digits2_pos m) <= 53
  | _ => False
  end.
Proof.
  pose proof (Prim2SF_valid (of_uint63 n)) as Hv.
  rewrite FloatAxioms.of_uint63_spec in *. unfold binary_normalize in *.
  pose proof (to_Z_bounded n) as Hb.
  destruct (to_Z n) as [|p|p]; [reflexivity| |lia].
  assert (Hd : Zpos (digits2_pos p) <= 63).
  { apply (Zdigits2_le (Zpos p) 63); [lia|]. exact Hb. }
  pose proof (binary_round_shape false p 0 ltac:(lia) ltac:(lia)) as Hr.
  destruct (binary_round prec emax false p 0) as [s|s| |s m e]; try exact Hr.
  destruct Hr as (-> & _ & He). repeat split; [apply He; lia|].
  cbn in Hv. apply andb_prop in Hv. destruct Hv as [Hc _].
  unfold canonical_mantissa in Hc. apply Z.eqb_eq in Hc.
  pose proof (fexp_ge (Zpos (digits2_pos m) + e)). lia.
Qed.

Lemma u64_to_double_shape (z : Z) : sf_fin_nonneg (Prim2SF (u64_to_double z)).
Proof.
  unfold u64_to_double. destruct (z <? 2 ^ 63).
  - pose proof (of_uint63_shape (of_Z z)) as H.
    destruct (Prim2SF (of_uint63 (of_Z z))) as [s|s| |s m e]; cbn; try tauto.
    now destruct H as [-> _].
  - pose proof (of_uint63_shape (of_Z (Z.lor (Z.shiftr z 1) (Z.land z 1)))) as H.
    rewrite FloatAxioms.add_spec. unfold SF64add, SFadd.
    destruct (Prim2SF (of_uint63 _)) as [s|s| |s m e]; try contradiction.
    + subst s. exact I.
    + destruct H as (-> & He & Hd).
      rewrite Z.min_id. unfold shl_align. rewrite Z.sub_diag. cbn [fst cond_Zopp].
      cbn [Z.add binary_normalize].
      pose proof (binary_round_shape false (m + m) e) as Hr.
      assert (Hmm : Zpos (digits2_pos (m + m)) <= 128).
      { rewrite Pos.add_diag. cbn [digits2_pos]. rewrite Pos2Z.inj_succ. lia. }
      specialize (Hr Hmm ltac:(lia)).
      destruct (binary_round prec emax false (m + m) e) as [s|s| |s m' e']; cbn; try tauto.
      now destruct Hr as [-> _].
Qed.

Lemma SFdiv_core_nonneg (mx : positive) (ex : Z) (my : positive) (ey : Z) :
  0 <= fst (fst (SFdiv_core_binary prec emax (Zpos mx) ex (Zpos my) ey)).
Proof.
  unfold SFdiv_core_binary.
  set (s := _ - _ - Z.min _ _).
  set (m' := match s with Z0 => Zpos mx | Zpos _ => Z.shiftl (Zpos mx) s | Zneg _ => 0 end).
  assert (Hm' : 0 <= m').
  { subst m'. destruct s; [lia| |lia]. apply Z.shiftl_nonneg. lia. }
  pose proof (Z.div_pos m' (Zpos my) Hm' ltac:(lia)) as Hq.
  unfold Z.div in Hq. destruct (Z.div_eucl m' (Zpos my)) as [q r]. exact Hq.
Qed.

Lemma SFdiv_nonneg (x y : spec_float) :
  sf_fin_nonneg x -> sf_pos y -> sf_nonneg (SF64div x y).
Proof.
  unfold SF64div, SFdiv.
  destruct x as [sx|sx| |[|] mx ex]; cbn [sf_fin_nonneg]; try contradiction;
    destruct y as [sy|[|]| |[|] my ey]; cbn [sf_pos]; try contradiction; intros _ _;
    try exact I.
  pose proof (SFdiv_core_nonneg mx ex my ey) as Hq.
  destruct (SFdiv_core_binary prec emax (Zpos mx) ex (Zpos my) ey) as [[mz ez] lz].
  cbn [fst] in Hq.
  pose proof (binary_round_aux_shape (xorb false false) mz ez lz Hq) as Hr.
  destruct (binary_round_aux prec emax (xorb false false) mz ez lz) as [s|s| |s m e];
    cbn [sf_nonneg]; try exact I; try contradiction.
  - now destruct Hr as [-> _].
  - now destruct Hr as [-> _].
Qed.

Lemma float_zero_leb (x : float) :
  sf_nonneg (Prim2SF x) -> (0 <=? x)%float = true.
Proof.
  intros H. rewrite FloatAxioms.leb_spec.
  change (Prim2SF 0) with (S754_zero false).
  destruct (Prim2SF x) as [s|[|]| |[|] m e]; cbn in H; try contradiction; reflexivity.
Qed.

Lemma float_zero_ltb (x : float) :
  (0 <? x)%float = true -> sf_pos (Prim2SF x).
Proof.
  rewrite FloatAxioms.ltb_spec.
  change (Prim2SF 0) with (S754_zero false).
  destruct (Prim2SF x) as [s|[|]| |[|] m e]; cbn; intros H; try discriminate; exact I.
Qed.

Lemma u64_quotient_nonneg (z : Z) (y : float) :
  (0 <? y)%float = true -> (0 <=? u64_to_double z / y)%float = true.
Proof.
  intros Hy. apply float_zero_leb. rewrite FloatAxioms.div_spec.
  apply SFdiv_nonneg; [apply u64_to_double_shape|now apply float_zero_ltb].
Qed.

(** *** Quotients that cannot vanish *)

Lemma digits2_pos_upper (p : positive) : Zpos p < 2 ^ Zpos (digits2_pos p).
Proof.
  induction p as [p IH|p IH|]; cbn [digits2_pos]; [| |cbn; lia];
    rewrite Pos2Z.inj_succ, Z.pow_succ_r by lia; lia.
Qed.

Lemma Zdigits2_lower (z k : Z) : 0 <= k -> 2 ^ k <= z -> k + 1 <= Zdigits2 z.
Proof.
  intros Hk Hz. pose proof (Z.pow_pos_nonneg 2 k ltac:(lia) Hk).
  destruct z as [|p|p]; [lia| |lia]. cbn [Zdigits2].
  destruct (Z_le_gt_dec (k + 1) (Zpos (digits2_pos p))) as [H'|H']; [exact H'|].
  pose proof (digits2_pos_upper p).
  assert (2 ^ Zpos (digits2_pos p) <= 2 ^ k) by (apply Z.pow_le_mono_r; lia).
  lia.
Qed.

Lemma Zdigits2_mono (a b : Z) : 0 < a <= b -> Zdigits2 a <= Zdigits2 b.
Proof.
  intros [Ha Hab]. destruct a as [|p|p]; [lia| |lia].
  pose proof (digits2_pos_lower p).
  pose proof (Zdigits2_lower b (Zpos (digits2_pos p) - 1) ltac:(lia) ltac:(lia)).
  cbn [Zdigits2]. lia.
Qed.

Lemma shr_1_lower (mrs : shr_record) (k : Z) :
  0 <= k -> 2 ^ (k + 1) <= shr_m mrs -> 2 ^ k <= shr_m (shr_1 mrs).
Proof.
  intros Hk.
  replace (2 ^ (k + 1)) with (2 * 2 ^ k) by (rewrite Z.pow_add_r by lia; lia).
  pose proof (Z.pow_pos_nonneg 2 k ltac:(lia) Hk).
  destruct mrs as [m r s]. cbn [shr_m].
  destruct m as [|[p|p|]|p]; cbn [shr_1 shr_m]; lia.
Qed.

Lemma iter_shr_1_lower (p : positive) :
  forall (mrs : shr_record) (k : Z),
    0 <= k -> 2 ^ (k + Zpos p) <= shr_m mrs ->
    2 ^ k <= shr_m (iter_pos shr_1 p mrs).
Proof.
  induction p as [p IH|p IH|]; intros mrs k Hk Hm; cbn [iter_pos].
  - apply IH; [lia|]. apply IH; [lia|]. apply shr_1_lower; [lia|].
    replace (k + Zpos p + Zpos p + 1) with (k + Zpos p~1) by lia. exact Hm.
  - apply IH; [lia|]. apply IH; [lia|].
    replace (k + Zpos p + Zpos p) with (k + Zpos p~0) by lia. exact Hm.
  - now apply shr_1_lower.
Qed.

(** In the normal range the shift keeps the leading digit: the mantissa
    stays positive and the number loses nothing of its magnitude. *)
Lemma shr_fexp_lower (m e : Z) (l : location) :
  0 < m -> SpecFloat.emin prec emax + 53 <= Zdigits2 m + e ->
  1 <= shr_m (fst (shr_fexp prec emax m e l))
  /\ Zdigits2 m + e
     <= Zdigits2 (shr_m (fst (shr_fexp prec emax m e l)))
        + snd (shr_fexp prec emax m e l).
Proof.
  intros Hm Hk. unfold shr_fexp, shr.
  assert (Hf : fexp prec emax (Zdigits2 m + e) = Zdigits2 m + e - 53)
    by (unfold fexp, prec in *; lia).
  rewrite Hf.
  destruct (Zdigits2 m + e - 53 - e) as [|p|p] eqn:E; cbn [fst snd];
    rewrite ?shr_record_of_loc_m; try lia.
  assert (H52 : 2 ^ 52 <= shr_m (iter_pos shr_1 p (shr_record_of_loc m l))).
  { apply iter_shr_1_lower; [lia|]. rewrite shr_record_of_loc_m.
    destruct m as [|q|q]; try lia. cbn [Zdigits2] in E.
    pose proof (digits2_pos_lower q) as Hq.
    replace (52 + Zpos p) with (Zpos (digits2_pos q) - 1) by lia. exact Hq. }
  pose proof (Zdigits2_lower _ 52 ltac:(lia) H52). lia.
Qed.

Lemma round_nearest_even_ge (m : Z) (l : location) : m <= round_nearest_even m l.
Proof.
  unfold round_nearest_even. destruct l as [|[]]; try destruct (Z.even m); lia.
Qed.

Lemma binary_round_aux_lower (mx ex : Z) (lx : location) :
  0 < mx -> SpecFloat.emin prec emax + 53 <= Zdigits2 mx + ex ->
  sf_at_least (Zdigits2 mx + ex) (binary_round_aux prec emax false mx ex lx).
Proof.
  intros Hm Hk. unfold binary_round_aux.
  destruct (shr_fexp_lower mx ex lx Hm Hk) as [H1 K1].
  destruct (shr_fexp prec emax mx ex lx) as [mrs' e']. cbn [fst snd] in H1, K1.
  pose proof (round_nearest_even_ge (shr_m mrs') (loc_of_shr_record mrs')) as Hr.
  set (m2 := round_nearest_even (shr_m mrs') (loc_of_shr_record mrs')) in *.
  pose proof (Zdigits2_mono (shr_m mrs') m2 ltac:(lia)) as Hd.
  destruct (shr_fexp_lower m2 e' loc_Exact ltac:(lia) ltac:(lia)) as [H2 K2].
  destruct (shr_fexp prec emax m2 e' loc_Exact) as [mrs'' e'']. cbn [fst snd] in H2, K2.
  destruct (shr_m mrs'') as [|p|p]; [lia| |lia].
  destruct (e'' <=? emax - prec); cbn [sf_at_least Zdigits2] in *; [lia|exact I].
Qed.

Lemma binary_round_lower (mx : positive) (ex : Z) :
  SpecFloat.emin prec emax + 53 <= Zpos (digits2_pos mx) + ex ->
  sf_at_least (Zpos (digits2_pos mx) + ex) (binary_round prec emax false mx ex).
Proof.
  intros Hk. unfold binary_round, shl_align.
  destruct (fexp prec emax (Zpos (digits2_pos mx) + ex) - ex) as [|d|d] eqn:E.
  - apply (binary_round_aux_lower (Zpos mx) ex loc_Exact); [lia|exact Hk].
  - apply (binary_round_aux_lower (Zpos mx) ex loc_Exact); [lia|exact Hk].
  - pose proof (binary_round_aux_lower (Zpos (shift_pos d mx))
                  (fexp prec emax (Zpos (digits2_pos mx) + ex)) loc_Exact ltac:(lia)) as H.
    cbn [Zdigits2] in H. unfold shift_pos in H. rewrite digits2_pos_iter_xO in H.
    replace (Zpos (digits2_pos mx) + Zpos d + fexp prec emax (Zpos (digits2_pos mx) + ex))
      with (Zpos (digits2_pos mx) + ex) in H by lia.
    apply H. exact Hk.
Qed.

(** A non-zero [uint63] converts to a number that is at least 1. *)
Lemma of_uint63_lower (n : int) :
  1 <= to_Z n ->
  match Prim2SF (of_uint63 n) with
  | S754_finite false m e => 1 <= Zpos (digits2_pos m) + e
  | _ => False
  end.
Proof.
  intros Hn. pose proof (of_uint63_shape n) as Hs.
  rewrite FloatAxioms.of_uint63_spec in *. unfold binary_normalize in *.
  destruct (to_Z n) as [|p|p]; [lia| |lia].
  pose proof (binary_round_lower p 0) as Hl.
  assert (Hd : 1 <= Zpos (digits2_pos p)) by lia.
  specialize (Hl ltac:(unfold SpecFloat.emin, prec, emax; lia)).
  destruct (binary_round prec emax false p 0) as [s|s| |[|] m e];
    cbn [sf_at_least] in Hl; try contradiction.
  lia.
Qed.

Lemma land_1_range (a : Z) : 0 <= Z.land a 1 < 2.
Proof.
  change (Z.land a 1) with (Z.land a (Z.ones 1)).
  rewrite Z.land_ones by lia. apply Z.mod_pos_bound. lia.
Qed.

Lemma halved_range (z : Z) :
  2 ^ 63 <= z < 2 ^ 64 ->
  1 <= Z.lor (Z.shiftr z 1) (Z.land z 1) < 2 ^ 63.
Proof.
  intros Hz.
  assert (Ha : 2 ^ 62 <= Z.shiftr z 1 < 2 ^ 63).
  { rewrite Z.shiftr_div_pow2 by lia. change (2 ^ 1) with 2.
    split; [apply Z.div_le_lower_bound; lia|apply Z.div_lt_upper_bound; lia]. }
  pose proof (land_1_range z) as Hb.
  pose proof (Z.add_lor_land (Z.shiftr z 1) (Z.land z 1)) as Hsum.
  assert (Hl : Z.land (Z.shiftr z 1) (Z.land z 1) <= Z.land z 1).
  { destruct (Z.eq_dec (Z.land z 1) 0) as [->|Hne]; [now rewrite Z.land_0_r|].
    replace (Z.land z 1) with 1 by lia.
    pose proof (land_1_range (Z.shiftr z 1)). lia. }
  split; [lia|].
  apply Z.log2_lt_pow2; [lia|].
  rewrite Z.log2_lor by lia.
  apply Z.max_lub_lt.
  - apply Z.log2_lt_pow2; lia.
  - destruct (Z.eq_dec (Z.land z 1) 0) as [->|Hne]; [cbn; lia|].
    replace (Z.land z 1) with 1 by lia. cbn. lia.
Qed.

Lemma u64_to_double_lower (z : Z) :
  1 <= z < 2 ^ 64 ->
  match Prim2SF (u64_to_double z) with
  | S754_finite false m e =>
      1 <= Zpos (digits2_pos m) + e
      /\ Zpos (digits2_pos m) <= 53
  | S754_infinity false => True
  | _ => False
  end.
Proof.
  intros Hz. pose proof (Prim2SF_valid (u64_to_double z)) as Hv. revert Hv.
  assert (Hcanon : forall x, valid_binary x = true ->
            match x with
            | S754_finite false m e => 1 <= Zpos (digits2_pos m) + e
            | S754_infinity false => True
            | _ => False
            end ->
            match x with
            | S754_finite false m e =>
                1 <= Zpos (digits2_pos m) + e /\ Zpos (digits2_pos m) <= 53
            | S754_infinity false => True
            | _ => False
            end).
  { intros [s|[|]| |[|] m e] Hv H; try contradiction; try exact I.
    split; [exact H|]. cbn in Hv. apply andb_prop in Hv. destruct Hv as [Hc _].
    unfold canonical_mantissa in Hc. apply Z.eqb_eq in Hc.
    pose proof (fexp_ge (Zpos (digits2_pos m) + e)). lia. }
  intros Hv. apply Hcanon; [exact Hv|]. clear Hv Hcanon.
  unfold u64_to_double. destruct (Z.ltb_spec z (2 ^ 63)).
  - pose proof (of_uint63_lower (of_Z z)) as H1.
    rewrite of_Z_spec, Z.mod_small in H1 by (change wB with (2 ^ 63); lia).
    specialize (H1 ltac:(lia)).
    destruct (Prim2SF (of_uint63 (of_Z z))) as [s|s| |[|] m e]; try contradiction.
    exact H1.
  - pose proof (halved_range z ltac:(lia)) as Hh.
    pose proof (of_uint63_lower (of_Z (Z.lor (Z.shiftr z 1) (Z.land z 1)))) as H1.
    rewrite of_Z_spec, Z.mod_small in H1 by (change wB with (2 ^ 63); lia).
    specialize (H1 ltac:(lia)).
    rewrite FloatAxioms.add_spec. unfold SF64add, SFadd.
    destruct (Prim2SF (of_uint63 _)) as [s|s| |[|] m e]; try contradiction.
    rewrite Z.min_id. unfold shl_align. rewrite Z.sub_diag. cbn [fst cond_Zopp].
    cbn [Z.add binary_normalize].
    pose proof (binary_round_lower (m + m) e) as Hr.
    assert (Hmm : Zpos (digits2_pos (m + m)) = Zpos (digits2_pos m) + 1).
    { rewrite Pos.add_diag. cbn [digits2_pos]. rewrite Pos2Z.inj_succ. lia. }
    rewrite Hmm in Hr.
    specialize (Hr ltac:(unfold SpecFloat.emin, prec, emax; lia)).
    destruct (binary_round prec emax false (m + m) e) as [s|[|]| |[|] m' e'];
      cbn [sf_at_least] in Hr; try contradiction; [exact I|].
    change (1 <= Zpos (digits2_pos m') + e'). lia.
Qed.

(** A quotient of positive numbers that is not in the subnormal range is
    positive. *)
Lemma SFdiv_pos (mx : positive) (ex : Z) (my : positive) (ey : Z) :
  Zpos (digits2_pos mx) <= 53 ->
  SpecFloat.emin prec emax + 53
    <= Zpos (digits2_pos mx) + ex - (Zpos (digits2_pos my) + ey) ->
  sf_pos (SF64div (S754_finite false mx ex) (S754_finite false my ey)).
Proof.
  intros Hd Hk. unfold SF64div, SFdiv. cbn [xorb].
  unfold SFdiv_core_binary. cbn [Zdigits2].
  set (d1 := Zpos (digits2_pos mx)) in *. set (d2 := Zpos (digits2_pos my)) in *.
  assert (Hf : fexp prec emax (d1 + ex - (d2 + ey)) = d1 + ex - (d2 + ey) - 53)
    by (unfold fexp, prec in *; lia).
  rewrite Hf.
  assert (Hd2 : 1 <= d2) by (subst d2; lia).
  rewrite Z.min_l by lia.
  replace (ex - ey - (d1 + ex - (d2 + ey) - 53)) with (53 + d2 - d1) by lia.
  destruct (53 + d2 - d1) as [|s|s] eqn:Es; [lia| |lia].
  rewrite Z.shiftl_mul_pow2 by lia.
  assert (Hq : 2 ^ 52 <= (Zpos mx * 2 ^ Zpos s) / Zpos my).
  { apply Z.div_le_lower_bound; [lia|].
    pose proof (digits2_pos_lower mx) as Hl. fold d1 in Hl.
    pose proof (digits2_pos_upper my) as Hu. fold d2 in Hu.
    assert (Hp : 2 ^ (d1 - 1) * 2 ^ Zpos s = 2 ^ 52 * 2 ^ d2).
    { rewrite <- !Z.pow_add_r by lia. f_equal. lia. }
    pose proof (Z.pow_pos_nonneg 2 (Zpos s) ltac:(lia) ltac:(lia)).
    nia. }
  unfold Z.div in Hq.
  destruct (Z.div_eucl (Zpos mx * 2 ^ Zpos s) (Zpos my)) as [q r]. cbn [fst] in Hq.
  pose proof (Zdigits2_lower q 52 ltac:(lia) Hq) as Hdq.
  pose proof (binary_round_aux_lower q (d1 + ex - (d2 + ey) - 53)
                (new_location (Zpos my) r) ltac:(lia) ltac:(lia)) as Hr.
  destruct (binary_round_aux prec emax false q _ _) as [s0|[|]| |[|] m e];
    cbn [sf_at_least] in Hr; try contradiction; exact I.
Qed.

Lemma float_zero_ltb_pos (x : float) :
  sf_pos (Prim2SF x) -> (0 <? x)%float = true.
Proof.
  rewrite FloatAxioms.ltb_spec.
  change (Prim2SF 0) with (S754_zero false).
  destruct (Prim2SF x) as [s|[|]| |[|] m e]; cbn; intros H; try contradiction; reflexivity.
Qed.

(** Between two distinct 64-bit timestamps a positive time has elapsed. *)
Lemma elapsed_seconds_pos (now_ms last_ts_ms : Z) :
  0 <= last_ts_ms < now_ms -> now_ms < UINT64_MOD ->
  (0 <? elapsed_seconds now_ms last_ts_ms)%float = true.
Proof.
  intros Ht Hn. apply float_zero_ltb_pos. unfold elapsed_seconds.
  rewrite FloatAxioms.div_spec.
  pose proof (u64_to_double_lower (now_ms - last_ts_ms)
                ltac:(unfold UINT64_MOD in Hn; lia)) as Hx.
  destruct (Prim2SF (u64_to_double (now_ms - last_ts_ms))) as [s|[|]| |[|] m e];
    try contradiction.
  - reflexivity.
  - destruct Hx as [Hx Hd].
    change (Prim2SF 1000) with (S754_finite false 8796093022208000 (-43)).
    apply SFdiv_pos; [exact Hd|].
    change (Zpos (digits2_pos 8796093022208000)) with 53.
    unfold SpecFloat.emin, prec, emax. lia.
Qed.

(** ** The poll round *)

Section EngineFacts.

Context {World St : Type}.

Implicit Types (inst : sysmon_module_instance World St)
               (ms : list (sysmon_module_instance World St))
               (b : sysmon_snapshot_builder) (w : World) (c : poll_call).

Lemma poll_instance_spec w (now_ms : Z) (i : nat) inst b :
  match poll_instance w now_ms i inst b with
  | StepSkip => pollable inst = false
  | StepNext inst' b' c =>
      engine_step w now_ms i inst b inst' c b'
      /\ pc_rc c <> SYSMON_ERR_OUT_OF_MEMORY
  | StepAbort inst' b' c err =>
      engine_step w now_ms i inst b inst' c b'
      /\ pc_rc c = SYSMON_ERR_OUT_OF_MEMORY
      /\ err = or_default (pc_error c) "out of memory"
  end.
Proof.
  unfold poll_instance, pollable, engine_step.
  destruct inst as [[vt|] st en r l]; cbn [inst_enabled inst_vtable inst_state
    inst_refresh_ms inst_last_refresh_ms];
    destruct en; cbn [negb andb]; try reflexivity.
  destruct (vt_poll vt) as [poll|] eqn:Ep; [|reflexivity].
  cbv zeta. set (rn := refresh_due _ _). clearbody rn.
  remember (poll w st now_ms rn b) as out eqn:Eout. destruct out as [rc st' b' e].
  unfold set_last_refresh, set_state.
  destruct rc; cbn;
    (split; [exists vt, poll; rewrite <- Eout; cbn; repeat split; try assumption;
             destruct rn; reflexivity|]);
    try split; try reflexivity; discriminate.
Qed.

Lemma poll_modules_length w (now_ms : Z) ms :
  forall i b, List.length (lr_modules (poll_modules w now_ms i ms b)) = List.length ms.
Proof.
  induction ms as [|inst rest IH]; intros i b; cbn [poll_modules]; [reflexivity|].
  destruct (poll_instance w now_ms i inst b); cbn; now rewrite ?IH.
Qed.

(** Every logged call is one loop iteration on the element it names. *)
Lemma poll_modules_call w (now_ms : Z) ms :
  forall i b c,
    In c (lr_calls (poll_modules w now_ms i ms b)) ->
    exists k inst inst' b0 b1,
      pc_index c = (i + k)%nat
      /\ nth_error ms k = Some inst
      /\ nth_error (lr_modules (poll_modules w now_ms i ms b)) k = Some inst'
      /\ engine_step w now_ms (i + k) inst b0 inst' c b1.
Proof.
  induction ms as [|inst rest IH]; intros i b c; cbn [poll_modules]; [intros []|].
  pose proof (poll_instance_spec w now_ms i inst b) as Hs.
  destruct (poll_instance w now_ms i inst b) as [|inst' b' c0|inst' b' c0 err];
    cbn [lr_calls lr_modules].
  - intros Hc. destruct (IH _ _ _ Hc) as (k & a & a' & b0 & b1 & Hi & Hk & Hk' & He).
    exists (S k), a, a', b0, b1. rewrite Nat.add_succ_r. cbn. auto.
  - intros [<-|Hc].
    + destruct Hs as [Hs _]. exists 0%nat, inst, inst', b, b'.
      rewrite Nat.add_0_r. repeat split; try assumption.
      destruct Hs as (vt & poll & _ & _ & _ & -> & _). reflexivity.
    + destruct (IH _ _ _ Hc) as (k & a & a' & b0 & b1 & Hi & Hk & Hk' & He).
      exists (S k), a, a', b0, b1. rewrite Nat.add_succ_r. cbn. auto.
  - intros [<-|[]]. destruct Hs as [Hs _]. exists 0%nat, inst, inst', b, b'.
    rewrite Nat.add_0_r. repeat split; try assumption.
    destruct Hs as (vt & poll & _ & _ & _ & -> & _). reflexivity.
Qed.

(** An element that cannot be polled is left as it is and is never called. *)
Lemma poll_modules_not_pollable w (now_ms : Z) ms :
  forall i b k inst,
    nth_error ms k = Some inst -> pollable inst = false ->
    nth_error (lr_modules (poll_modules w now_ms i ms b)) k = Some inst
    /\ forall c, In c (lr_calls (poll_modules w now_ms i ms b)) ->
                 pc_index c <> (i + k)%nat.
Proof.
  induction ms as [|a rest IH]; intros i b k inst Hk Hp; [destruct k; discriminate|].
  cbn [poll_modules].
  pose proof (poll_instance_spec w now_ms i a b) as Hs.
  assert (Hge : forall j b0 c, In c (lr_calls (poll_modules w now_ms j rest b0)) ->
                               (j <= pc_index c)%nat).
  { intros j b0 c Hc. destruct (poll_modules_call _ _ _ _ _ _ Hc) as (k' & _ & _ & _ & _ & -> & _).
    lia. }
  destruct k as [|k].
  - cbn in Hk. injection Hk as ->.
    destruct (poll_instance w now_ms i inst b) as [|inst' b' c0|inst' b' c0 err].
    + cbn. split; [reflexivity|]. intros c Hc. apply Hge in Hc. lia.
    + destruct Hs as [(vt & poll & He & Hv & Hpoll & _) _].
      unfold pollable in Hp. rewrite He, Hv, Hpoll in Hp. discriminate.
    + destruct Hs as [(vt & poll & He & Hv & Hpoll & _) _].
      unfold pollable in Hp. rewrite He, Hv, Hpoll in Hp. discriminate.
  - cbn in Hk.
    destruct (poll_instance w now_ms i a b) as [|inst' b' c0|inst' b' c0 err];
      cbn [lr_modules lr_calls nth_error].
    + destruct (IH (S i) b k inst Hk Hp) as [H1 H2]. split; [exact H1|].
      intros c Hc. specialize (H2 c Hc). lia.
    + destruct (IH (S i) b' k inst Hk Hp) as [H1 H2]. split; [exact H1|].
      intros c [<-|Hc]; [|specialize (H2 c Hc); lia].
      destruct Hs as [(vt & poll & _ & _ & _ & -> & _) _]. cbn. lia.
    + split; [exact Hk|]. intros c [<-|[]].
      destruct Hs as [(vt & poll & _ & _ & _ & -> & _) _]. cbn. lia.
Qed.

(** The configuration of every element survives the round: same capability
    table, same [enabled] flag, same refresh interval. *)
Lemma poll_modules_static w (now_ms : Z) ms :
  forall i b,
    Forall2 (fun a a' => inst_vtable a' = inst_vtable a
                         /\ inst_enabled a' = inst_enabled a
                         /\ inst_refresh_ms a' = inst_refresh_ms a)
            ms (lr_modules (poll_modules w now_ms i ms b)).
Proof.
  assert (Hrefl : forall l : list (sysmon_module_instance World St),
            Forall2 (fun a a' => inst_vtable a' = inst_vtable a
                         /\ inst_enabled a' = inst_enabled a
                         /\ inst_refresh_ms a' = inst_refresh_ms a) l l).
  { induction l; constructor; auto. }
  induction ms as [|a rest IH]; intros i b; cbn [poll_modules]; [constructor|].
  pose proof (poll_instance_spec w now_ms i a b) as Hs.
  destruct (poll_instance w now_ms i a b) as [|inst' b' c0|inst' b' c0 err];
    cbn [lr_modules]; constructor; auto.
  - destruct Hs as [(vt & poll & He & Hv & _ & _ & -> & _) _]. cbn. auto.
  - destruct Hs as [(vt & poll & He & Hv & _ & _ & -> & _) _]. cbn. auto.
Qed.

(** Without an abort, the calls are exactly those of the pollable
    elements, in array order. *)
Lemma poll_modules_indices w (now_ms : Z) ms :
  forall i b,
    lr_abort (poll_modules w now_ms i ms b) = None ->
    map pc_index (lr_calls (poll_modules w now_ms i ms b)) = pollable_indices i ms.
Proof.
  induction ms as [|a rest IH]; intros i b; cbn [poll_modules pollable_indices];
    [reflexivity|].
  pose proof (poll_instance_spec w now_ms i a b) as Hs.
  destruct (poll_instance w now_ms i a b) as [|inst' b' c0|inst' b' c0 err];
    cbn [lr_abort lr_calls map].
  - rewrite Hs. apply IH.
  - destruct Hs as [(vt & poll & He & Hv & Hp & -> & _) _].
    unfold pollable. rewrite He, Hv, Hp. cbn. intros H. now rewrite IH.
  - discriminate.
Qed.

(** The round aborts exactly when a call returns out-of-memory; that call
    is the last one made. *)
Lemma poll_modules_abort w (now_ms : Z) ms :
  forall i b,
    match lr_abort (poll_modules w now_ms i ms b) with
    | None =>
        forall c, In c (lr_calls (poll_modules w now_ms i ms b)) ->
                  pc_rc c <> SYSMON_ERR_OUT_OF_MEMORY
    | Some err =>
        exists cs c,
          lr_calls (poll_modules w now_ms i ms b) = cs ++ [c]
          /\ pc_rc c = SYSMON_ERR_OUT_OF_MEMORY
          /\ err = or_default (pc_error c) "out of memory"
          /\ forall c', In c' cs -> pc_rc c' <> SYSMON_ERR_OUT_OF_MEMORY
    end.
Proof.
  induction ms as [|a rest IH]; intros i b; cbn [poll_modules]; [intros c []|].
  pose proof (poll_instance_spec w now_ms i a b) as Hs.
  destruct (poll_instance w now_ms i a b) as [|inst' b' c0|inst' b' c0 err];
    cbn [lr_abort lr_calls].
  - apply IH.
  - specialize (IH (S i) b'). destruct Hs as [_ Hs].
    destruct (lr_abort (poll_modules w now_ms (S i) rest b')) as [err|].
    + destruct IH as (cs & c & -> & H1 & H2 & H3).
      exists (c0 :: cs), c. repeat split; auto.
      intros c' [<-|Hc]; auto.
    + intros c [<-|Hc]; auto.
  - destruct Hs as (_ & Hs & ->). exists [], c0. repeat split; auto; intros c' [].
Qed.

Lemma add_module_error_metrics b (name msg : string) :
  b_metrics (add_module_error b name msg) = b_metrics b ++ [error_metric name msg].
Proof.
  unfold add_module_error, sysmon_snapshot_builder_add_string.
  destruct (add_with_value_some b (snprintf_s 192 ("module." ++ name ++ ".error"))
              None SYSMON_METRIC_STRING (V_str (Some msg))) as [cap ->].
  reflexivity.
Qed.

Lemma skipn_app_exact (A : Type) (l1 l2 : list A) :
  skipn (List.length l1) (l1 ++ l2) = l2.
Proof. induction l1; cbn; auto. Qed.

Lemma engine_step_metrics w (now_ms : Z) (i : nat) inst b inst' c b' :
  instance_append_only inst ->
  engine_step w now_ms i inst b inst' c b' ->
  b_metrics b' = b_metrics b ++ call_metrics c.
Proof.
  intros Ha (vt & poll & _ & Hv & Hp & Hc & _ & Hb). cbv zeta in *.
  destruct (Ha vt poll Hv Hp w (inst_state inst) now_ms (refresh_due inst now_ms) b)
    as [added Hadd].
  subst c b'. unfold call_metrics, synthetic_metrics. cbn.
  rewrite Hadd. unfold b_count. rewrite skipn_app_exact.
  destruct (result_eqb _ SYSMON_OK || result_eqb _ SYSMON_ERR_OUT_OF_MEMORY).
  - now rewrite Hadd, app_nil_r.
  - now rewrite add_module_error_metrics, Hadd, app_assoc.
Qed.

(** The builder after the loop holds what it held before, followed by the
    contribution of every call in order. *)
Lemma poll_modules_metrics w (now_ms : Z) ms :
  Forall instance_append_only ms ->
  forall i b,
    b_metrics (lr_builder (poll_modules w now_ms i ms b))
    = b_metrics b ++ flat_map call_metrics (lr_calls (poll_modules w now_ms i ms b)).
Proof.
  induction 1 as [|a rest Ha Hrest IH]; intros i b; cbn [poll_modules].
  - cbn. now rewrite app_nil_r.
  - pose proof (poll_instance_spec w now_ms i a b) as Hs.
    destruct (poll_instance w now_ms i a b) as [|inst' b' c0|inst' b' c0 err];
      cbn [lr_builder lr_calls flat_map].
    + apply IH.
    + destruct Hs as [Hs _]. rewrite IH, (engine_step_metrics _ _ _ _ _ _ _ _ Ha Hs).
      now rewrite app_assoc.
    + destruct Hs as [Hs _]. rewrite (engine_step_metrics _ _ _ _ _ _ _ _ Ha Hs).
      now rewrite app_nil_r.
Qed.

Lemma poll_modules_index_lower w (now_ms : Z) ms (i : nat) b c :
  In c (lr_calls (poll_modules w now_ms i ms b)) -> (i <= pc_index c)%nat.
Proof.
  intros Hc. destruct (poll_modules_call _ _ _ _ _ _ Hc) as (k & _ & _ & _ & _ & -> & _).
  lia.
Qed.

Lemma poll_modules_index_nodup w (now_ms : Z) ms :
  forall i b, NoDup (map pc_index (lr_calls (poll_modules w now_ms i ms b))).
Proof.
  induction ms as [|a rest IH]; intros i b; cbn [poll_modules]; [constructor|].
  pose proof (poll_instance_spec w now_ms i a b) as Hs.
  destruct (poll_instance w now_ms i a b) as [|inst' b' c0|inst' b' c0 err];
    cbn [lr_calls map].
  - apply IH.
  - constructor; [|apply IH]. intros Hin. apply in_map_iff in Hin.
    destruct Hin as (c & Hi & Hc). apply poll_modules_index_lower in Hc.
    destruct Hs as [(vt & poll & _ & _ & _ & -> & _) _]. cbn in Hi. lia.
  - constructor; [intros []|constructor].
Qed.

Lemma poll_modules_call_unique w (now_ms : Z) ms (i : nat) b c c' :
  In c (lr_calls (poll_modules w now_ms i ms b)) ->
  In c' (lr_calls (poll_modules w now_ms i ms b)) ->
  pc_index c = pc_index c' -> c = c'.
Proof.
  intros Hc Hc' Hi.
  pose proof (poll_modules_index_nodup w now_ms ms i b) as Hnd.
  destruct (In_nth_error _ _ Hc) as [n Hn]. destruct (In_nth_error _ _ Hc') as [n' Hn'].
  rewrite NoDup_nth_error in Hnd.
  assert (n = n').
  { apply Hnd.
    - rewrite length_map. apply nth_error_Some. congruence.
    - rewrite !nth_error_map, Hn, Hn'. cbn. now rewrite Hi. }
  subst n'. congruence.
Qed.

(** [sysmon_poll] written out: one clock read, the loop on a fresh
    builder, then either the abort path or [finalize]. *)
Lemma sysmon_poll_unfold (ck : sysmon_clock) w (s : sysmon_t World St) :
  let now_ms := fst (sysmon_now_ms ck) in
  let r := poll_modules w now_ms 0 (sm_modules s) (mk_builder [] 0) in
  sysmon_poll ck w s =
  match lr_abort r with
  | Some err =>
      mk_poll_result SYSMON_ERR_OUT_OF_MEMORY None
        (mk_sysmon (sm_config s) (sm_ini s) (lr_modules r) (Some err))
        (snd (sysmon_now_ms ck)) (lr_calls r) (b_metrics (lr_builder r))
  | None =>
      mk_poll_result SYSMON_OK (Some (mk_snapshot (b_metrics (lr_builder r))))
        (mk_sysmon (sm_config s) (sm_ini s) (lr_modules r) (sm_last_error s))
        (snd (sysmon_now_ms ck)) (lr_calls r) []
  end.
Proof.
  unfold sysmon_poll, sysmon_snapshot_builder_create. cbn [negb result_eqb].
  change (negb (result_eqb SYSMON_OK SYSMON_OK)) with false. cbv iota.
  destruct (sysmon_now_ms ck) as [now_ms ck']. cbn [fst snd].
  destruct (lr_abort _); reflexivity.
Qed.

Lemma sysmon_now_ms_reads (ck : sysmon_clock) :
  ck_reads (snd (sysmon_now_ms ck)) = S (ck_reads ck)
  /\ ck_source (snd (sysmon_now_ms ck)) = ck_source ck.
Proof.
  unfold sysmon_now_ms. destruct (ck_source ck (ck_reads ck)) as [[sec nsec]|]; split; reflexivity.
Qed.

Lemma wrap64_range (z : Z) : 0 <= wrap64 z < UINT64_MOD.
Proof. unfold wrap64, UINT64_MOD. apply Z.mod_pos_bound. reflexivity. Qed.

Lemma sysmon_now_ms_range (ck : sysmon_clock) :
  0 <= fst (sysmon_now_ms ck) < UINT64_MOD.
Proof.
  unfold sysmon_now_ms. destruct (ck_source ck (ck_reads ck)) as [[sec nsec]|]; cbn [fst].
  - apply wrap64_range.
  - unfold UINT64_MOD. lia.
Qed.

End EngineFacts.

(** ** Collectors *)

Lemma and_then_add (b : sysmon_snapshot_builder) (n : string) (u : option string)
    (t : sysmon_metric_type) (v : metric_value)
    (k : sysmon_snapshot_builder -> sysmon_result * sysmon_snapshot_builder) :
  exists cap,
    and_then (add_with_value b (Some n) u t v) k
    = k (mk_builder (b_metrics b ++ [mk_metric (Some n) u t v]) cap).
Proof.
  destruct (add_with_value_some b n u t v) as [cap ->]. exists cap. reflexivity.
Qed.

Ltac emit_step :=
  match goal with
  | |- context [and_then (add_with_value ?b (Some ?n) ?u ?t ?v) ?k] =>
      let cap := fresh "cap" in
      destruct (and_then_add b n u t v k) as [cap ->]; cbv beta; cbn [b_metrics]
  end.

Ltac emit_done :=
  eexists; apply f_equal; rewrite <- ?app_assoc; reflexivity.

Ltac emit_unfold :=
  unfold sysmon_snapshot_builder_add_double, sysmon_snapshot_builder_add_u64,
    sysmon_snapshot_builder_add_i64, sysmon_snapshot_builder_add_string.

Lemma cpu_emit_metrics (st : cpu_state) (b : sysmon_snapshot_builder) :
  exists cap, cpu_emit st b = (SYSMON_OK, mk_builder (b_metrics b ++ cpu_metrics st) cap).
Proof.
  unfold cpu_emit, cpu_metrics. emit_unfold. emit_step.
  destruct (cpu_core_count st >? 0); [emit_step|]; emit_done.
Qed.

Lemma ram_emit_metrics (st : ram_state) (b : sysmon_snapshot_builder) :
  exists cap, ram_emit st b = (SYSMON_OK, mk_builder (b_metrics b ++ ram_metrics st) cap).
Proof.
  unfold ram_emit, ram_metrics. emit_unfold. do 3 emit_step.
  destruct (ram_total_bytes st >? 0); [emit_step|]; emit_done.
Qed.

Lemma battery_emit_metrics (st : battery_state) (b : sysmon_snapshot_builder) :
  exists cap,
    battery_emit st b = (SYSMON_OK, mk_builder (b_metrics b ++ battery_metrics st) cap).
Proof.
  unfold battery_emit, battery_metrics. emit_unfold. do 3 emit_step. emit_done.
Qed.

Lemma network_emit_metrics (st : network_state) (b : sysmon_snapshot_builder) :
  exists cap,
    network_emit st b = (SYSMON_OK, mk_builder (b_metrics b ++ network_metrics st) cap).
Proof.
  unfold network_emit, network_metrics. emit_unfold. do 5 emit_step. emit_done.
Qed.

Lemma storage_emit_metrics (st : storage_state) (b : sysmon_snapshot_builder) :
  exists cap,
    storage_emit st b = (SYSMON_OK, mk_builder (b_metrics b ++ storage_metrics st) cap).
Proof.
  unfold storage_emit, storage_metrics. emit_unfold. do 6 emit_step. emit_done.
Qed.

Section CollectorShape.

Context {A : Type} (C : A -> module_state) (proj : module_state -> option A)
        (has : A -> bool) (refresh : os_world -> Z -> A -> os_read A)
        (emit : A -> sysmon_snapshot_builder -> sysmon_result * sysmon_snapshot_builder)
        (metrics : A -> list sysmon_metric)
        (fail_rc : sysmon_result) (namespace : string).

Hypothesis proj_C : forall a, proj (C a) = Some a.
Hypothesis proj_inv : forall s a, proj s = Some a -> s = C a.
Hypothesis emit_metrics :
  forall st b, exists cap,
    emit st b = (SYSMON_OK, mk_builder (b_metrics b ++ metrics st) cap).
Hypothesis refresh_has : forall w now_ms st st', refresh w now_ms st = ReadOk st' -> has st' = true.
Hypothesis metrics_namespace :
  forall st, Forall (fun m => metric_name_has_prefix namespace m = true) (metrics st).
Hypothesis fail_not_ok : fail_rc <> SYSMON_OK.
Hypothesis fail_not_oom : fail_rc <> SYSMON_ERR_OUT_OF_MEMORY.

Let poll := collector_poll C proj has refresh emit fail_rc.

(** The three ways a call can end. *)
Lemma collector_poll_cases (w : os_world) (state : option module_state)
    (now_ms : Z) (r : bool) (b : sysmon_snapshot_builder) :
  (po_rc (poll w state now_ms r b) = SYSMON_ERR_INVALID_ARGUMENT
   /\ po_state (poll w state now_ms r b) = state
   /\ po_builder (poll w state now_ms r b) = b
   /\ forall a, state <> Some (C a))
  \/ (exists st,
        state = Some (C st)
        /\ po_rc (poll w state now_ms r b) = fail_rc
        /\ po_state (poll w state now_ms r b) = state
        /\ po_builder (poll w state now_ms r b) = b)
  \/ (exists st st',
        state = Some (C st)
        /\ po_rc (poll w state now_ms r b) = SYSMON_OK
        /\ po_state (poll w state now_ms r b) = Some (C st')
        /\ has st' = true
        /\ b_metrics (po_builder (poll w state now_ms r b))
           = b_metrics b ++ metrics st'
        /\ (r || negb (has st) = false -> st' = st)).
Proof.
  unfold poll, collector_poll.
  destruct state as [s|]; [|left; repeat split; discriminate].
  destruct (proj s) as [st|] eqn:Ep.
  - apply proj_inv in Ep. subst s. right. unfold collector_body.
    destruct (r || negb (has st)) eqn:Er.
    + destruct (refresh w now_ms st) as [st'|msg] eqn:Eref.
      * right. destruct (emit_metrics st' b) as [cap ->]. exists st, st'.
        repeat split; [now apply refresh_has in Eref|rewrite Er; discriminate].
      * left. exists st. repeat split.
    + right. destruct (emit_metrics st b) as [cap ->]. exists st, st.
      repeat split. apply orb_false_elim in Er. destruct Er as [_ Er].
      now apply negb_false_iff in Er.
  - left. repeat split. intros a [= ->]. rewrite proj_C in Ep. discriminate.
Qed.

Lemma collector_poll_cached (w : os_world) (st : A) (now_ms : Z)
    (b : sysmon_snapshot_builder) :
  has st = true ->
  po_rc (poll w (Some (C st)) now_ms false b) = SYSMON_OK
  /\ po_state (poll w (Some (C st)) now_ms false b) = Some (C st)
  /\ b_metrics (po_builder (poll w (Some (C st)) now_ms false b))
     = b_metrics b ++ metrics st.
Proof.
  intros Hh. unfold poll, collector_poll, collector_body.
  rewrite proj_C, Hh. cbn [orb negb].
  destruct (emit_metrics st b) as [cap ->]. repeat split.
Qed.

Lemma collector_poll_ok : collector_ok namespace poll.
Proof.
  split; [|split; [|split]].
  - intros w st now_ms r b.
    destruct (collector_poll_cases w st now_ms r b)
      as [(_ & _ & -> & _)|[(s & _ & _ & _ & ->)|(s & s' & _ & _ & _ & _ & -> & _)]].
    + exists []. now rewrite app_nil_r.
    + exists []. now rewrite app_nil_r.
    + eexists. reflexivity.
  - intros w1 w2 st0 now1 now2 r1 b1 b2 Hok. cbv zeta.
    destruct (collector_poll_cases w1 st0 now1 r1 b1)
      as [(E & _)|[(s & _ & E & _)|(s & s' & _ & _ & E1 & Hh & Hm1 & _)]];
      [congruence|congruence|].
    rewrite E1.
    destruct (collector_poll_cached w2 s' now2 b2 Hh) as (H1 & H2 & H3).
    repeat split; [exact H1|exact H2|].
    rewrite H3, Hm1. unfold b_count. now rewrite !skipn_app_exact.
  - intros w st now_ms r b.
    destruct (collector_poll_cases w st now_ms r b)
      as [(_ & _ & -> & _)|[(s & _ & _ & _ & ->)|(s & s' & _ & _ & _ & _ & -> & _)]];
      unfold b_count;
      [rewrite skipn_all; constructor|rewrite skipn_all; constructor|
       rewrite skipn_app_exact; apply metrics_namespace].
  - intros w st now_ms r b.
    destruct (collector_poll_cases w st now_ms r b)
      as [(-> & _)|[(s & _ & -> & _)|(s & s' & _ & -> & _)]]; congruence.
Qed.

End CollectorShape.

Lemma collector_ok_ext (namespace : string) (p q : poll_fn os_world module_state) :
  (forall w st now_ms r b, p w st now_ms r b = q w st now_ms r b) ->
  collector_ok namespace q -> collector_ok namespace p.
Proof.
  intros E (Ha & Hc & Hn & Ho). split; [|split; [|split]].
  - intros w st now_ms r b. rewrite E. apply Ha.
  - intros w1 w2 st0 now1 now2 r1 b1 b2. cbv zeta. rewrite !E. apply Hc.
  - intros w st now_ms r b. rewrite E. apply Hn.
  - intros w st now_ms r b. rewrite E. apply Ho.
Qed.

Lemma cpu_poll_ok : collector_ok "cpu." cpu_poll.
Proof.
  apply collector_ok_ext with
    (q := collector_poll CpuState proj_cpu cpu_has_prev (fun w _ => cpu_refresh w)
            cpu_emit SYSMON_ERR_NOT_SUPPORTED).
  - intros w [[st| | | |]|] now_ms r b; reflexivity.
  - apply collector_poll_ok with (metrics := cpu_metrics); try discriminate.
    + reflexivity.
    + intros [] a; cbn; congruence.
    + apply cpu_emit_metrics.
    + intros w _ st st'. unfold cpu_refresh.
      destruct (read_cpu_ticks w) as [[total idle]|msg]; [|discriminate].
      now intros [= <-].
    + intros st. unfold cpu_metrics. destruct (cpu_core_count st >? 0); repeat constructor.
Qed.

Lemma ram_poll_ok : collector_ok "ram." ram_poll.
Proof.
  apply collector_ok_ext with
    (q := collector_poll RamState proj_ram ram_has_data (fun w _ => ram_refresh w)
            ram_emit SYSMON_ERR_NOT_SUPPORTED).
  - intros w [[| st | | |]|] now_ms r b; reflexivity.
  - apply collector_poll_ok with (metrics := ram_metrics); try discriminate.
    + reflexivity.
    + intros [] a; cbn; congruence.
    + apply ram_emit_metrics.
    + intros w _ st st'. unfold ram_refresh.
      destruct (read_mem_used_free w _) as [[used free_b]|msg]; [|discriminate].
      now intros [= <-].
    + intros st. unfold ram_metrics. destruct (ram_total_bytes st >? 0); repeat constructor.
Qed.

Lemma battery_poll_ok : collector_ok "battery." battery_poll.
Proof.
  apply collector_ok_ext with
    (q := collector_poll BatteryState proj_battery bat_has_data
            (fun w _ => battery_refresh w) battery_emit SYSMON_ERR_NOT_SUPPORTED).
  - intros w [[| | st | |]|] now_ms r b; reflexivity.
  - apply collector_poll_ok with (metrics := battery_metrics); try discriminate.
    + reflexivity.
    + intros [] a; cbn; congruence.
    + apply battery_emit_metrics.
    + intros w _ st st'. unfold battery_refresh.
      destruct (os_read_u32_file w _) as [cap|]; [|discriminate].
      now intros [= <-].
    + intros st. repeat constructor.
Qed.

Lemma network_poll_ok : collector_ok "network." network_poll.
Proof.
  apply collector_ok_ext with
    (q := collector_poll NetworkState proj_network net_has_data network_refresh
            network_emit SYSMON_ERR_IO).
  - intros w [[| | | st |]|] now_ms r b; reflexivity.
  - apply collector_poll_ok with (metrics := network_metrics); try discriminate.
    + reflexivity.
    + intros [] a; cbn; congruence.
    + apply network_emit_metrics.
    + intros w now_ms st st'. unfold network_refresh.
      destruct (read_interface_bytes w _ _) as [[[rx tx] sel]|msg]; [|discriminate].
      now intros [= <-].
    + intros st. repeat constructor.
Qed.

Lemma storage_poll_ok : collector_ok "storage." storage_poll.
Proof.
  apply collector_ok_ext with
    (q := collector_poll StorageState proj_storage sto_has_data
            (fun w _ => storage_refresh w) storage_emit SYSMON_ERR_IO).
  - intros w [[| | | | st]|] now_ms r b; reflexivity.
  - apply collector_poll_ok with (metrics := storage_metrics); try discriminate.
    + reflexivity.
    + intros [] a; cbn; congruence.
    + apply storage_emit_metrics.
    + intros w _ st st'. unfold storage_refresh.
      destruct (read_storage_stats w _) as [[[total free_b] avail]|msg]; [|discriminate].
      now intros [= <-].
    + intros st. repeat constructor.
Qed.

(** Every collector of the repository obeys the engine's expectations,
    with its own name and a dot as namespace. *)
Lemma all_collectors_ok (vt : sysmon_module_vtable os_world module_state) :
  In vt all_collectors ->
  exists poll, vt_poll vt = Some poll /\ collector_ok (vt_name vt ++ ".") poll.
Proof.
  intros [<-|[<-|[<-|[<-|[<-|[]]]]]]; eexists; (split; [reflexivity|]).
  - apply cpu_poll_ok.
  - apply ram_poll_ok.
  - apply battery_poll_ok.
  - apply network_poll_ok.
  - apply storage_poll_ok.
Qed.

(** ** Engine construction *)

Section CreateFacts.

Context {World St : Type}.

Implicit Types (vt : sysmon_module_vtable World St)
               (bs : list (sysmon_module_vtable World St))
               (ms : list (sysmon_module_instance World St)) (w : World).

Lemma init_loop_length w (ini : sysmon_ini) bs :
  List.length (snd (fst (init_loop w ini bs))) = List.length bs.
Proof.
  induction bs as [|vt rest IH]; [reflexivity|]. cbn [init_loop].
  destruct (sysmon_ini_get_u32 ini _ "refresh_ms" 0) as [r ok].
  destruct (init_loop w ini rest) as [[rc l] e]. cbn [fst snd] in IH.
  destruct ok; cbn [negb]; [|cbn; now rewrite length_map].
  destruct (sysmon_ini_get_bool ini _ "enabled" true); cbn [negb];
    [|cbn; now rewrite IH].
  destruct (result_eqb _ SYSMON_ERR_NOT_SUPPORTED); [cbn; now rewrite IH|].
  destruct (result_eqb _ SYSMON_OK); cbn; now rewrite ?IH, ?length_map.
Qed.

(** On success the array holds one element per registry entry, in registry
    order, each bound to its entry; an element is enabled only if its
    section does not switch it off. *)
Lemma init_loop_ok w (ini : sysmon_ini) bs :
  forall ms e,
    init_loop w ini bs = (SYSMON_OK, ms, e) ->
    e = None
    /\ Forall2 (fun vt inst =>
                  inst_vtable inst = Some vt
                  /\ inst_last_refresh_ms inst = 0
                  /\ (inst_enabled inst = true ->
                      sysmon_ini_get_bool ini (module_section (vt_name vt))
                        "enabled" true = true))
               bs ms.
Proof.
  induction bs as [|vt rest IH]; intros ms e; cbn [init_loop].
  - intros [= <- <-]. split; [reflexivity|constructor].
  - destruct (sysmon_ini_get_u32 ini _ "refresh_ms" 0) as [r ok].
    destruct (init_loop w ini rest) as [[rc l] e'].
    destruct ok; cbn [negb]; [|discriminate].
    destruct (sysmon_ini_get_bool ini _ "enabled" true) eqn:Een; cbn [negb].
    + destruct (result_eqb _ SYSMON_ERR_NOT_SUPPORTED).
      * intros [= -> <- <-]. destruct (IH l e' eq_refl) as [-> Hl].
        split; [reflexivity|]. constructor; [|exact Hl]. cbn. repeat split. discriminate.
      * destruct (result_eqb _ SYSMON_OK) eqn:Eok; cbn [negb].
        -- intros [= -> <- <-]. destruct (IH l e' eq_refl) as [-> Hl].
           split; [reflexivity|]. constructor; [|exact Hl]. cbn. auto.
        -- intros [= Hrc _ _]. rewrite Hrc in Eok. discriminate.
    + intros [= -> <- <-]. destruct (IH l e' eq_refl) as [-> Hl].
      split; [reflexivity|]. constructor; [|exact Hl]. cbn. repeat split. discriminate.
Qed.

Lemma init_loop_app w (ini : sysmon_ini) (pre rest : list (sysmon_module_vtable World St)) :
  forall ms e,
    init_loop w ini pre = (SYSMON_OK, ms, e) ->
    init_loop w ini (pre ++ rest)
    = (fst (fst (init_loop w ini rest)),
       ms ++ snd (fst (init_loop w ini rest)),
       snd (init_loop w ini rest)).
Proof.
  induction pre as [|vt pre IH]; intros ms e.
  - cbn. intros [= <- <-]. now destruct (init_loop w ini rest) as [[rc l] e'].
  - cbn [init_loop app].
    destruct (sysmon_ini_get_u32 ini _ "refresh_ms" 0) as [r ok].
    destruct (init_loop w ini pre) as [[rc l] e'].
    destruct ok; cbn [negb]; [|discriminate].
    destruct (sysmon_ini_get_bool ini _ "enabled" true); cbn [negb].
    + destruct (result_eqb _ SYSMON_ERR_NOT_SUPPORTED).
      * intros [= -> <- <-]. now rewrite (IH l e' eq_refl).
      * destruct (result_eqb _ SYSMON_OK) eqn:Eok; cbn [negb].
        -- intros [= -> <- <-]. now rewrite (IH l e' eq_refl).
        -- intros [= Hrc _ _]. rewrite Hrc in Eok. discriminate.
    + intros [= -> <- <-]. now rewrite (IH l e' eq_refl).
Qed.

Lemma destroy_zero_instances (n : list (sysmon_module_vtable World St)) :
  flat_map destroy_instance (map (fun _ => @zero_instance World St) n) = [].
Proof. induction n; cbn; auto. Qed.

End CreateFacts.

Lemma sysmon_create_some {World St : Type}
    (builtins : list (sysmon_module_vtable World St)) (w : World)
    (load : sysmon_result * option sysmon_ini * option string) (s : sysmon_t World St) :
  cr_sysmon (sysmon_create builtins w load) = Some s ->
  exists lini lerr,
    load = (SYSMON_OK, lini, lerr)
    /\ init_loop w (match lini with Some i => i | None => [] end) builtins
       = (SYSMON_OK, sm_modules s, None)
    /\ sm_ini s = lini
    /\ cr_rc (sysmon_create builtins w load) = SYSMON_OK.
Proof.
  unfold sysmon_create. destruct load as [[lrc lini] lerr].
  destruct (result_eqb lrc SYSMON_OK) eqn:El; cbn [negb]; [|discriminate].
  apply result_eqb_eq in El. subst lrc.
  destruct (sysmon_config_load_from_ini lini) as [[crc cfg] cerr].
  destruct (result_eqb crc SYSMON_OK); cbn [negb]; [|discriminate].
  unfold init_modules. cbn [sm_ini sm_config sm_last_error].
  destruct builtins as [|vt rest]; [cbn; discriminate|].
  destruct (init_loop w _ (vt :: rest)) as [[rc ms] e] eqn:Ei.
  destruct (result_eqb rc SYSMON_OK) eqn:Er; cbn [negb]; [|discriminate].
  apply result_eqb_eq in Er. subst rc. cbn [cr_sysmon cr_rc]. intros [= <-].
  destruct (init_loop_ok _ _ _ _ _ Ei) as [-> _].
  exists lini, lerr. repeat split. exact Ei.
Qed.

(** C2 — the registry of built-in modules.  The array returned by
    [sysmon_builtin_modules] has the four entries cpu, ram, battery and
    network; the storage capability table exists but is not among them, so
    no engine ever holds a storage instance: whatever the platform and the
    configuration, a constructed engine has exactly the four instances
    cpu, ram, battery, network, in this order. *)
Theorem builtin_registry_lacks_storage :
  map vt_name sysmon_builtin_modules = ["cpu"; "ram"; "battery"; "network"]
  /\ List.length sysmon_builtin_modules = sysmon_builtin_count
  /\ vt_name sysmon_storage_module = "storage"
  /\ (forall (w : os_world) load s,
        cr_sysmon (sysmon_create sysmon_builtin_modules w load) = Some s ->
        map instance_name (sm_modules s)
          = [Some "cpu"; Some "ram"; Some "battery"; Some "network"]
        /\ forall inst, In inst (sm_modules s) -> instance_name inst <> Some "storage").
Proof.
  split; [reflexivity|]. split; [reflexivity|]. split; [reflexivity|].
  intros w load s Hs.
  assert (Hmap : map instance_name (sm_modules s)
                 = [Some "cpu"; Some "ram"; Some "battery"; Some "network"]).
  { destruct (sysmon_create_some _ _ _ _ Hs) as (lini & lerr & _ & Hi & _).
    apply init_loop_ok in Hi. destruct Hi as [_ Hf].
    unfold sysmon_builtin_modules in Hf.
    repeat match goal with
           | H : Forall2 _ (_ :: _) _ |- _ => inversion H; subst; clear H
           | H : Forall2 _ [] _ |- _ => inversion H; subst; clear H
           end.
    unfold instance_name. cbn.
    repeat match goal with
           | H : inst_vtable _ = _ /\ _ |- _ => destruct H as [H _]; rewrite H
           end.
    reflexivity. }
  split; [exact Hmap|].
  intros inst Hin Hn. apply (in_map instance_name) in Hin.
  rewrite Hmap, Hn in Hin. cbn in Hin. intuition discriminate.
Qed.

(** ** cpu *)

(** What one refresh of the cpu collector does to the reported percentage. *)
Lemma cpu_refresh_cases (w : os_world) (st st' : cpu_state) :
  cpu_refresh w st = ReadOk st' ->
  exists total idle,
    read_cpu_ticks w = ReadOk (total, idle)
    /\ cpu_last_total st' = total /\ cpu_last_idle st' = idle
    /\ cpu_has_prev st' = true /\ cpu_core_count st' = cpu_core_count st
    /\ let total_delta := sub64 total (cpu_last_total st) in
       let idle_delta := sub64 idle (cpu_last_idle st) in
       (cpu_has_prev st = false ->
        cpu_last_usage_percent st' = cpu_last_usage_percent st)
       /\ (total_delta = 0 \/ idle_delta > total_delta ->
           cpu_last_usage_percent st' = cpu_last_usage_percent st)
       /\ (cpu_has_prev st = true -> 0 < total_delta -> idle_delta <= total_delta ->
           cpu_last_usage_percent st'
           = (u64_to_double (sub64 total_delta idle_delta) * 100
              / u64_to_double total_delta)%float).
Proof.
  unfold cpu_refresh. destruct (read_cpu_ticks w) as [[total idle]|msg]; [|discriminate].
  intros [= <-]. exists total, idle. cbn. repeat split.
  - now intros ->.
  - intros H. destruct (cpu_has_prev st); [|reflexivity].
    destruct (Z.gtb_spec (sub64 total (cpu_last_total st)) 0);
      destruct (Z.leb_spec (sub64 idle (cpu_last_idle st)) (sub64 total (cpu_last_total st)));
      cbn; try reflexivity.
    pose proof (wrap64_range (total - cpu_last_total st)). unfold sub64 in *. lia.
  - intros -> H1 H2.
    destruct (Z.gtb_spec (sub64 total (cpu_last_total st)) 0); [|lia].
    destruct (Z.leb_spec (sub64 idle (cpu_last_idle st)) (sub64 total (cpu_last_total st)));
      [reflexivity|lia].
Qed.

(** The very first poll after [cpu_create] reports 0. *)
Lemma cpu_first_poll_reports_zero (w0 w : os_world) (ini : sysmon_ini)
    (section : string) (now_ms : Z) (r : bool) (b : sysmon_snapshot_builder) :
  po_rc (cpu_poll w (co_state (cpu_create w0 ini section)) now_ms r b) = SYSMON_OK ->
  first_double (skipn (b_count b)
     (b_metrics (po_builder (cpu_poll w (co_state (cpu_create w0 ini section)) now_ms r b))))
  = Some 0%float.
Proof.
  cbn. rewrite orb_true_r. unfold cpu_refresh.
  destruct (read_cpu_ticks w) as [[total idle]|msg]; [|discriminate]. cbn.
  match goal with |- context [cpu_emit ?s b] =>
    destruct (cpu_emit_metrics s b) as [cap ->] end.
  intros _. cbn. unfold b_count. rewrite skipn_app_exact. reflexivity.
Qed.

(** C6 — the percentage emitted as cpu.usage_percent can exceed 100.
    Two runs of the collector from [cpu_create], each with two refreshing
    polls and no idle tick in between.  In the first the tick total drops
    by 32768 between the polls (a counter reset), so the unsigned delta is
    2^64 - 32768; in the second it grows by 2^53 - 16.  Both deltas pass
    the test [total_delta > 0 && idle_delta <= total_delta], and the
    expression [(double)(total_delta - idle_delta) * 100.0 /
    (double)total_delta] rounds to 100.00000000000001. *)
Theorem cpu_usage_percent_exceeds_100 :
  (let w1 := with_proc_stat bare_world (ticks 1000032768 0) in
   let w2 := with_proc_stat bare_world (ticks 1000000000 0) in
   let out1 := cpu_poll w1 (co_state (cpu_create w1 [] "module.cpu")) 1000 true
                 (mk_builder [] 0) in
   let out2 := cpu_poll w2 (po_state out1) 2000 true (mk_builder [] 0) in
   po_rc out1 = SYSMON_OK /\ po_rc out2 = SYSMON_OK
   /\ exists v,
        b_metrics (po_builder out2)
        = [mk_metric (Some "cpu.usage_percent") (Some "%") SYSMON_METRIC_DOUBLE (V_f64 v)]
        /\ (100 <? v)%float = true)
  /\
  (let w1 := with_proc_stat bare_world (ticks 0 0) in
   let w2 := with_proc_stat bare_world (ticks 9007199254740976 0) in
   let out1 := cpu_poll w1 (co_state (cpu_create w1 [] "module.cpu")) 1000 true
                 (mk_builder [] 0) in
   let out2 := cpu_poll w2 (po_state out1) 2000 true (mk_builder [] 0) in
   po_rc out1 = SYSMON_OK /\ po_rc out2 = SYSMON_OK
   /\ exists v,
        b_metrics (po_builder out2)
        = [mk_metric (Some "cpu.usage_percent") (Some "%") SYSMON_METRIC_DOUBLE (V_f64 v)]
        /\ (100 <? v)%float = true).
Proof.
  split; cbv zeta; (split; [vm_compute; reflexivity|]);
    (split; [vm_compute; reflexivity|]); eexists; split;
    [vm_compute; reflexivity|vm_compute; reflexivity| |]; vm_compute; reflexivity.
Qed.

(** ** storage *)

Lemma read_storage_stats_range (w : os_world) (path : string) (total free_b avail : Z) :
  read_storage_stats w path = ReadOk (total, free_b, avail) ->
  0 <= total < UINT64_MOD /\ 0 <= free_b < UINT64_MOD /\ 0 <= avail < UINT64_MOD.
Proof.
  unfold read_storage_stats. destruct (os_statvfs w path) as [vfs|msg]; [|discriminate].
  intros [= <- <- <-]. repeat split; apply wrap64_range.
Qed.

Lemma sub64_exact (a b : Z) : 0 <= b <= a -> a < UINT64_MOD -> sub64 a b = a - b.
Proof.
  intros H1 H2. unfold sub64, wrap64. apply Z.mod_small. lia.
Qed.

(** C8 — storage refresh.  Whenever a poll of the storage collector
    refreshes (it is asked to, or it holds no sample) and the filesystem
    statistics of its path can be read as [(total, free, avail)], the poll
    succeeds and leaves: total, free and available bytes as read;
    used bytes = total - free clamped at zero (free, not avail, is
    subtracted); used percent = 100 * used / total in binary64, and 0 when
    total is 0; these are the values it emits.  And a module created from
    a configuration without a [path] key probes and keeps the path "/". *)
Theorem storage_refresh_values (w : os_world) (st : storage_state) (now_ms : Z)
    (refresh_now : bool) (b : sysmon_snapshot_builder) (total free_b avail : Z) :
  refresh_now || negb (sto_has_data st) = true ->
  read_storage_stats w (sto_path st) = ReadOk (total, free_b, avail) ->
  (exists st',
     po_rc (storage_poll w (Some (StorageState st)) now_ms refresh_now b) = SYSMON_OK
     /\ po_state (storage_poll w (Some (StorageState st)) now_ms refresh_now b)
        = Some (StorageState st')
     /\ b_metrics (po_builder (storage_poll w (Some (StorageState st)) now_ms refresh_now b))
        = b_metrics b ++ storage_metrics st'
     /\ sto_path st' = sto_path st
     /\ sto_last_total_bytes st' = total
     /\ sto_last_free_bytes st' = free_b
     /\ sto_last_avail_bytes st' = avail
     /\ sto_last_used_bytes st' = Z.max (total - free_b) 0
     /\ sto_last_used_percent st'
        = (if (total =? 0)%Z then 0
           else 100 * u64_to_double (sto_last_used_bytes st') / u64_to_double total)%float)
  /\ (forall (w0 : os_world) (ini : sysmon_ini) (section : string),
        sysmon_ini_get ini section "path" = None ->
        storage_create w0 ini section
        = match read_storage_stats w0 "/" with
          | ReadFailed msg => mk_create_out SYSMON_ERR_NOT_SUPPORTED None (Some msg)
          | ReadOk _ =>
              mk_create_out SYSMON_OK
                (Some (StorageState (mk_storage_state "/" 0 0 0 0 0%float false))) None
          end).
Proof.
  intros Hr Hread. split.
  - destruct (read_storage_stats_range _ _ _ _ _ Hread) as (Ht & Hf & _).
    cbn [storage_poll]. rewrite Hr. unfold storage_refresh. rewrite Hread.
    match goal with |- context [storage_emit ?s b] =>
      destruct (storage_emit_metrics s b) as [cap ->]; exists s end.
    cbn. repeat split.
    + destruct (Z.geb_spec total free_b).
      * rewrite sub64_exact by lia. lia.
      * lia.
    + destruct (Z.eqb_spec total 0) as [->|Hne]; [reflexivity|].
      destruct (Z.gtb_spec total 0); [|lia].
      now rewrite float_mul_comm.
  - intros w0 ini section Hp. unfold storage_create. rewrite Hp. reflexivity.
Qed.

Lemma storage_refresh_values_witness :
  true || negb (sto_has_data fresh_storage_state) = true
  /\ read_storage_stats example_storage_world (sto_path fresh_storage_state)
     = ReadOk (4096000, 1024000, 819200)
  /\ exists st',
       po_state (storage_poll example_storage_world
                   (Some (StorageState fresh_storage_state)) 0 true (mk_builder [] 0))
       = Some (StorageState st')
       /\ sto_last_used_bytes st' = 3072000
       /\ sto_last_used_percent st' = 75%float.
Proof.
  split; [reflexivity|]. split; [reflexivity|].
  destruct (storage_refresh_values example_storage_world fresh_storage_state 0 true
              (mk_builder [] 0) 4096000 1024000 819200 eq_refl eq_refl)
    as [(st' & _ & Hs & _ & _ & _ & _ & _ & Hu & Hp) _].
  exists st'. split; [exact Hs|]. split; [exact Hu|].
  rewrite Hp, Hu. vm_compute. reflexivity.
Defined.

(** ** network *)

Lemma network_rate_nonneg (now_ms last_ts_ms cur last : Z) :
  (0 <=? network_rate now_ms last_ts_ms cur last)%float = true.
Proof.
  unfold network_rate.
  destruct (0 <? u64_to_double (sub64 now_ms last_ts_ms) / 1000)%float eqn:E.
  - now apply u64_quotient_nonneg.
  - reflexivity.
Qed.

(** Zero divided by a positive number is zero. *)
Lemma float_zero_quotient (y : float) :
  (0 <? y)%float = true -> (u64_to_double 0 / y = 0)%float.
Proof.
  intros Hy. apply Prim2SF_inj. rewrite FloatAxioms.div_spec.
  apply float_zero_ltb in Hy.
  change (Prim2SF (u64_to_double 0)) with (S754_zero false).
  change (Prim2SF 0) with (S754_zero false).
  destruct (Prim2SF y) as [s|[|]| |[|] m e]; cbn in Hy; try contradiction; reflexivity.
Qed.

Lemma network_rate_decreased (now_ms last_ts_ms cur last : Z) :
  cur < last -> network_rate now_ms last_ts_ms cur last = 0%float.
Proof.
  intros H. unfold network_rate.
  destruct (Z.geb_spec cur last); [lia|].
  destruct (0 <? u64_to_double (sub64 now_ms last_ts_ms) / 1000)%float eqn:E;
    [now apply float_zero_quotient|reflexivity].
Qed.

Lemma network_rate_formula (now_ms last_ts_ms cur last : Z) :
  0 <= last_ts_ms < now_ms -> now_ms < UINT64_MOD ->
  0 <= last -> cur < UINT64_MOD ->
  network_rate now_ms last_ts_ms cur last
  = (u64_to_double (byte_delta cur last) / elapsed_seconds now_ms last_ts_ms)%float.
Proof.
  intros Ht Hn Hl Hc. pose proof (elapsed_seconds_pos now_ms last_ts_ms Ht Hn) as Hpos.
  unfold network_rate, elapsed_seconds, byte_delta in *.
  rewrite sub64_exact by lia. rewrite Hpos.
  destruct (Z.geb_spec cur last).
  - rewrite sub64_exact by lia. now rewrite Z.max_l by lia.
  - now rewrite Z.max_r by lia.
Qed.

Lemma read_interface_bytes_range (w : os_world) (req : option string) (lo : bool)
    (rx tx : Z) (sel : string) :
  read_interface_bytes w req lo = ReadOk (rx, tx, sel) ->
  0 <= rx < UINT64_MOD /\ 0 <= tx < UINT64_MOD.
Proof.
  unfold read_interface_bytes. destruct (os_proc_net_dev w) as [lines|msg]; [|discriminate].
  destruct (select_interface _ _ _ lines) as [l|]; [|discriminate].
  intros [= <- <- _]. split; apply wrap64_range.
Qed.

(** The rate rule read literally fails when no time has elapsed: with a
    sample taken at 1000 ms, a refresh at 1000 ms that sees 100 more bytes
    reports rate 0, whereas 100 bytes over 0 seconds is +infinity. *)
Lemma network_rate_rule_unguarded_fails : ~ network_rate_rule_unguarded.
Proof.
  intros H.
  specialize (H grown_network_world 1000 sampled_network_state
                (mk_network_state "eth0" false 200 200 1000 0%float 0%float true)
                200 200 "eth0").
  assert (Hok : network_state_ok sampled_network_state).
  { unfold network_state_ok, UINT64_MOD. cbn. repeat split; lia. }
  specialize (H Hok ltac:(unfold UINT64_MOD; lia) eq_refl eq_refl eq_refl).
  apply (f_equal (fun f => PrimFloat.ltb 0%float f)) in H.
  vm_compute in H. discriminate.
Qed.

(** C7 — network rates.  Starting from a state whose cached rates are
    non-negative (as the state made by [network_create] is), every poll
    leaves non-negative cached rates, and a successful poll emits exactly
    the cached values.  A refresh that reads counters [(rx, tx)]:
    - with a prior sample whose timestamp is non-zero and strictly earlier
      than [now_ms], reports bytes gained divided by the seconds elapsed
      since that sample, [(now_ms - last_ts_ms) / 1000.0], a positive
      number, whatever interval is configured;
    - reports 0 for a direction whose counter went down;
    - reports 0 for both directions when there is no prior sample, when the
      prior timestamp is 0, or when no time has elapsed. *)
Theorem network_rates (w : os_world) (now_ms : Z) (refresh_now : bool)
    (b : sysmon_snapshot_builder) (st : network_state) :
  network_state_ok st ->
  0 <= now_ms < UINT64_MOD ->
  let out := network_poll w (Some (NetworkState st)) now_ms refresh_now b in
  (exists st',
     po_state out = Some (NetworkState st') /\ network_state_ok st'
     /\ (po_rc out = SYSMON_OK ->
         b_metrics (po_builder out) = b_metrics b ++ network_metrics st')
     /\ (forall rx tx sel,
           refresh_now || negb (net_has_data st) = true ->
           read_interface_bytes w (Some (net_ifname st)) (net_include_loopback st)
             = ReadOk (rx, tx, sel) ->
           po_rc out = SYSMON_OK
           /\ net_last_rx_bytes st' = rx /\ net_last_tx_bytes st' = tx
           /\ net_last_ts_ms st' = now_ms /\ net_has_data st' = true
           /\ (net_has_data st = true -> 0 < net_last_ts_ms st < now_ms ->
               let seconds := elapsed_seconds now_ms (net_last_ts_ms st) in
               (0 <? seconds)%float = true
               /\ net_last_rx_rate st'
                  = (u64_to_double (byte_delta rx (net_last_rx_bytes st)) / seconds)%float
               /\ net_last_tx_rate st'
                  = (u64_to_double (byte_delta tx (net_last_tx_bytes st)) / seconds)%float)
           /\ (rx < net_last_rx_bytes st -> net_last_rx_rate st' = 0%float)
           /\ (tx < net_last_tx_bytes st -> net_last_tx_rate st' = 0%float)
           /\ (net_has_data st = false \/ net_last_ts_ms st = 0
               \/ now_ms <= net_last_ts_ms st ->
               net_last_rx_rate st' = 0%float /\ net_last_tx_rate st' = 0%float)))
  /\ (forall (w0 : os_world) (ini : sysmon_ini) (section : string) st0,
        co_state (network_create w0 ini section) = Some (NetworkState st0) ->
        network_state_ok st0 /\ net_has_data st0 = false
        /\ net_last_rx_rate st0 = 0%float /\ net_last_tx_rate st0 = 0%float).
Proof.
  intros Hok Hnow out. split.
  - subst out. cbn [network_poll].
    destruct Hok as (Hrx & Htx & Hrb & Htb & Hts).
    destruct (refresh_now || negb (net_has_data st)) eqn:Er.
    + unfold network_refresh.
      destruct (read_interface_bytes w _ _) as [[[rx tx] sel]|msg] eqn:Eread.
      * destruct (read_interface_bytes_range _ _ _ _ _ _ Eread) as [Hrx' Htx'].
        match goal with |- context [network_emit ?s b] =>
          destruct (network_emit_metrics s b) as [cap ->]; exists s end.
        cbn. split; [reflexivity|]. split.
        { unfold network_state_ok, UINT64_MOD in *. cbn.
          destruct (net_has_data st && _ && _); repeat split; try lia;
            try reflexivity; apply network_rate_nonneg. }
        split; [reflexivity|].
        intros rx0 tx0 sel0 _ [= <- <- <-]. repeat split.
        -- apply (elapsed_seconds_pos now_ms (net_last_ts_ms st)); lia.
        -- rewrite H. destruct (Z.gtb_spec (net_last_ts_ms st) 0); [|lia].
           destruct (Z.gtb_spec now_ms (net_last_ts_ms st)); [|lia]. cbn.
           apply network_rate_formula; lia.
        -- rewrite H. destruct (Z.gtb_spec (net_last_ts_ms st) 0); [|lia].
           destruct (Z.gtb_spec now_ms (net_last_ts_ms st)); [|lia]. cbn.
           apply network_rate_formula; lia.
        -- intros Hlt. destruct (net_has_data st && _ && _); [|reflexivity].
           now apply network_rate_decreased.
        -- intros Hlt. destruct (net_has_data st && _ && _); [|reflexivity].
           now apply network_rate_decreased.
        -- destruct H as [->|[->|H]]; [reflexivity| |].
           ++ rewrite andb_false_r. reflexivity.
           ++ destruct (Z.gtb_spec now_ms (net_last_ts_ms st)); [lia|].
              now rewrite andb_false_r.
        -- destruct H as [->|[->|H]]; [reflexivity| |].
           ++ rewrite andb_false_r. reflexivity.
           ++ destruct (Z.gtb_spec now_ms (net_last_ts_ms st)); [lia|].
              now rewrite andb_false_r.
      * exists st. cbn. split; [reflexivity|].
        split; [unfold network_state_ok; auto|]. split; [discriminate|].
        intros rx tx sel _ [=].
    + destruct (network_emit_metrics st b) as [cap ->]. exists st. cbn.
      split; [reflexivity|]. split; [unfold network_state_ok; auto|].
      split; [reflexivity|]. intros rx tx sel [=].
  - intros w0 ini section st0. unfold network_create.
    destruct (read_interface_bytes w0 _ _) as [[[rx tx] sel]|msg]; [|discriminate].
    cbn. intros [= <-]. cbn. unfold network_state_ok, UINT64_MOD. cbn.
    repeat split; lia.
Qed.

Lemma network_rates_witness :
  network_state_ok sampled_network_state
  /\ 0 <= 2000 < UINT64_MOD
  /\ exists st',
       po_state (network_poll grown_network_world
                   (Some (NetworkState sampled_network_state)) 2000 true
                   (mk_builder [] 0))
       = Some (NetworkState st')
       /\ network_state_ok st'
       /\ net_last_rx_rate st' = 100%float
       /\ net_last_tx_rate st' = 100%float.
Proof.
  assert (Hok : network_state_ok sampled_network_state).
  { unfold network_state_ok, UINT64_MOD. cbn. repeat split; lia. }
  assert (Hnow : 0 <= 2000 < UINT64_MOD) by (unfold UINT64_MOD; lia).
  split; [exact Hok|]. split; [exact Hnow|].
  destruct (network_rates grown_network_world 2000 true (mk_builder [] 0)
              sampled_network_state Hok Hnow) as [(st' & Hs & Hok' & _ & Hr) _].
  exists st'. split; [exact Hs|]. split; [exact Hok'|].
  destruct (Hr 200 200 "eth0" eq_refl eq_refl) as (_ & _ & _ & _ & _ & Hrate & _).
  destruct (Hrate eq_refl ltac:(cbn; lia)) as (_ & H1 & H2).
  split; [rewrite H1|rewrite H2]; vm_compute; reflexivity.
Defined.

(** ** Disabled modules *)

Lemma prefix_split (p n : string) :
  String.prefix p n = true -> exists r, n = (p ++ r)%string.
Proof.
  revert n. induction p as [|a p IH]; intros n; cbn.
  - intros _. now exists n.
  - destruct n as [|c n]; [discriminate|]. cbn.
    destruct (ascii_dec a c) as [->|]; [|discriminate].
    intros H. destruct (IH _ H) as [r ->]. now exists r.
Qed.

Lemma error_metric_not_battery (name msg : string) :
  metric_name_has_prefix "battery." (error_metric name msg) = false.
Proof. reflexivity. Qed.

Lemma namespace_not_battery (vt : sysmon_module_vtable os_world module_state)
    (m : sysmon_metric) :
  In vt sysmon_builtin_modules -> vt_name vt <> "battery" ->
  metric_name_has_prefix (vt_name vt ++ ".") m = true ->
  metric_name_has_prefix "battery." m = false.
Proof.
  unfold metric_name_has_prefix, starts_with.
  destruct (m_name m) as [n|]; [|reflexivity].
  intros [<-|[<-|[<-|[<-|[]]]]] Hne H; cbn in Hne; try congruence;
    apply prefix_split in H; destruct H as [r ->]; reflexivity.
Qed.

Lemma registry_engine_append_only (off : string) (s : sysmon_t os_world module_state) :
  registry_engine_without off s -> Forall instance_append_only (sm_modules s).
Proof.
  unfold registry_engine_without. rewrite !Forall_forall. intros H inst Hin.
  destruct (H inst Hin) as (vt & Hv & Hreg & _).
  intros vt' poll Hv' Hp. rewrite Hv in Hv'. injection Hv' as <-.
  destruct (all_collectors_ok vt) as (poll' & Hp' & Hok & _).
  { unfold all_collectors. apply in_or_app. now left. }
  rewrite Hp in Hp'. injection Hp' as <-. exact Hok.
Qed.

Lemma Forall2_transfer (A : Type) (R : A -> A -> Prop) (P : A -> Prop)
    (l1 l2 : list A) :
  Forall2 R l1 l2 -> (forall a a', R a a' -> P a -> P a') ->
  Forall P l1 -> Forall P l2.
Proof.
  intros H2 Hstep. induction H2 as [|a a' l1 l2 Hr _ IH]; intros Hf; [constructor|].
  inversion Hf; subst. constructor; eauto.
Qed.

Lemma sysmon_poll_modules {World St : Type} (ck : sysmon_clock) (w : World)
    (s : sysmon_t World St) :
  sm_modules (pr_sysmon (sysmon_poll ck w s))
  = lr_modules (poll_modules w (fst (sysmon_now_ms ck)) 0 (sm_modules s)
                  (mk_builder [] 0))
  /\ pr_calls (sysmon_poll ck w s)
     = lr_calls (poll_modules w (fst (sysmon_now_ms ck)) 0 (sm_modules s)
                   (mk_builder [] 0))
  /\ pr_clock (sysmon_poll ck w s) = snd (sysmon_now_ms ck).
Proof.
  pose proof (sysmon_poll_unfold ck w s) as Hu. cbv zeta in Hu. rewrite Hu.
  now destruct (lr_abort _).
Qed.

Lemma registry_engine_round (off : string) (ck : sysmon_clock) (w : os_world)
    (s : sysmon_t os_world module_state) :
  registry_engine_without off s ->
  registry_engine_without off (pr_sysmon (sysmon_poll ck w s)).
Proof.
  unfold registry_engine_without. destruct (sysmon_poll_modules ck w s) as (-> & _).
  apply Forall2_transfer with (1 := poll_modules_static w _ (sm_modules s) 0 _).
  intros a a' (Hv & He & _) (vt & Hvt & Hreg & Hoff).
  exists vt. rewrite Hv, He. auto.
Qed.

Lemma sysmon_poll_snapshot {World St : Type} (ck : sysmon_clock) (w : World)
    (s : sysmon_t World St) (snap : sysmon_snapshot) :
  Forall instance_append_only (sm_modules s) ->
  pr_snapshot (sysmon_poll ck w s) = Some snap ->
  s_metrics snap = flat_map call_metrics (pr_calls (sysmon_poll ck w s)).
Proof.
  intros Ha. pose proof (sysmon_poll_unfold ck w s) as Hu. cbv zeta in Hu. rewrite Hu.
  pose proof (poll_modules_metrics w (fst (sysmon_now_ms ck)) (sm_modules s) Ha 0
                (mk_builder [] 0)) as Hm.
  destruct (lr_abort _); [discriminate|]. cbn. intros [= <-]. exact Hm.
Qed.

Lemma sysmon_poll_disabled {World St : Type} (ck : sysmon_clock) (w : World)
    (s : sysmon_t World St) (i : nat) (inst : sysmon_module_instance World St) :
  nth_error (sm_modules s) i = Some inst ->
  inst_enabled inst = false ->
  (forall c, In c (pr_calls (sysmon_poll ck w s)) -> pc_index c <> i)
  /\ nth_error (sm_modules (pr_sysmon (sysmon_poll ck w s))) i = Some inst.
Proof.
  intros Hi He. destruct (sysmon_poll_modules ck w s) as (-> & -> & _).
  assert (Hp : pollable inst = false) by (unfold pollable; now rewrite He).
  destruct (poll_modules_not_pollable w (fst (sysmon_now_ms ck)) _ 0 (mk_builder [] 0)
              i inst Hi Hp) as [H1 H2].
  split; [exact H2|exact H1].
Qed.

Lemma created_engine_without_battery (w0 : os_world) (ini : sysmon_ini)
    (s0 : sysmon_t os_world module_state) :
  cr_sysmon (sysmon_create sysmon_builtin_modules w0 (SYSMON_OK, Some ini, None))
    = Some s0 ->
  sysmon_ini_get ini "module.battery" "enabled" = Some "0" ->
  registry_engine_without "battery" s0.
Proof.
  intros Hc Hini. destruct (sysmon_create_some _ _ _ _ Hc) as (lini & lerr & [= <- <-] & Hi & _).
  apply init_loop_ok in Hi. destruct Hi as [_ Hf].
  unfold registry_engine_without. revert Hf.
  assert (Hall : forall vt, In vt sysmon_builtin_modules -> In vt sysmon_builtin_modules)
    by auto.
  revert Hall. generalize (sm_modules s0). generalize sysmon_builtin_modules at 1 3.
  intros bs l Hall Hf. induction Hf as [|vt inst bs l (Hv & _ & Hen) _ IH]; [constructor|].
  constructor.
  - exists vt. split; [exact Hv|]. split; [apply Hall; now left|].
    intros Hname. destruct (inst_enabled inst); [|reflexivity].
    specialize (Hen eq_refl). rewrite Hname in Hen.
    unfold sysmon_ini_get_bool in Hen.
    change (module_section "battery") with "module.battery" in Hen.
    rewrite Hini in Hen. discriminate.
  - apply IH. intros v Hin. apply Hall. now right.
Qed.

Lemma registry_engine_snapshot (off : string) (ck : sysmon_clock) (w : os_world)
    (s : sysmon_t os_world module_state) :
  registry_engine_without off s ->
  (forall c, In c (pr_calls (sysmon_poll ck w s)) ->
     pc_name c <> off
     /\ exists vt, In vt sysmon_builtin_modules /\ vt_name vt = pc_name c
                   /\ Forall (fun m => metric_name_has_prefix (vt_name vt ++ ".") m = true)
                             (pc_added c)).
Proof.
  intros Hreg c Hc. destruct (sysmon_poll_modules ck w s) as (_ & Hcalls & _).
  rewrite Hcalls in Hc.
  destruct (poll_modules_call _ _ _ _ _ _ Hc)
    as (k & inst & inst' & b0 & b1 & _ & Hk & _ & (vt & poll & Hen & Hv & Hp & Hcall & _)).
  cbv zeta in Hcall.
  unfold registry_engine_without in Hreg. rewrite Forall_forall in Hreg.
  destruct (Hreg inst (nth_error_In _ _ Hk)) as (vt' & Hv' & Hin & Hoff).
  rewrite Hv in Hv'. injection Hv' as <-.
  assert (Hname : pc_name c = vt_name vt) by (rewrite Hcall; reflexivity).
  split.
  - rewrite Hname. intros E. specialize (Hoff E). congruence.
  - exists vt. split; [exact Hin|]. split; [now rewrite Hname|].
    destruct (all_collectors_ok vt) as (poll' & Hp' & _ & _ & Hns & _).
    { unfold all_collectors. apply in_or_app. now left. }
    rewrite Hp in Hp'. injection Hp' as <-.
    rewrite Hcall. cbn [pc_added]. apply Hns.
Qed.

Lemma registry_engine_rounds (off : string) (P : poll_result os_world module_state -> Prop) :
  (forall ck w s, registry_engine_without off s -> P (sysmon_poll ck w s)) ->
  forall ws ck s R,
    registry_engine_without off s -> In R (poll_rounds ck ws s) -> P R.
Proof.
  intros HP. induction ws as [|w ws IH]; intros ck s R Hreg; cbn; [intros []|].
  intros [<-|Hin]; [now apply HP|].
  apply (IH _ _ _ (registry_engine_round off ck w s Hreg) Hin).
Qed.

(** C4 — a disabled module is never polled and never appears in a snapshot.
    In any engine state, for any round: no call is made for an element
    whose [enabled] flag is false, the element comes out of the round
    untouched, and (the collectors only appending) the snapshot is made of
    the contributions of the calls that were made, so none of its records
    comes from that element.  In particular, an engine built by
    [sysmon_create] from a configuration whose [module.battery] section
    sets [enabled] to 0 never calls the battery module, and no snapshot of
    any of its rounds holds a record whose name starts with "battery.". *)
Theorem disabled_module_never_polled (ck : sysmon_clock) (w : os_world)
    (s : sysmon_t os_world module_state) (i : nat)
    (inst : sysmon_module_instance os_world module_state) :
  nth_error (sm_modules s) i = Some inst ->
  inst_enabled inst = false ->
  (forall c, In c (pr_calls (sysmon_poll ck w s)) -> pc_index c <> i)
  /\ nth_error (sm_modules (pr_sysmon (sysmon_poll ck w s))) i = Some inst
  /\ (Forall instance_append_only (sm_modules s) ->
      forall snap, pr_snapshot (sysmon_poll ck w s) = Some snap ->
        s_metrics snap = flat_map call_metrics (pr_calls (sysmon_poll ck w s)))
  /\ (forall (w0 : os_world) (ini : sysmon_ini) s0 ck0 (ws : list os_world) R,
        cr_sysmon (sysmon_create sysmon_builtin_modules w0 (SYSMON_OK, Some ini, None))
          = Some s0 ->
        sysmon_ini_get ini "module.battery" "enabled" = Some "0" ->
        In R (poll_rounds ck0 ws s0) ->
        (forall c, In c (pr_calls R) -> pc_name c <> "battery")
        /\ forall snap m,
             pr_snapshot R = Some snap -> In m (s_metrics snap) ->
             metric_name_has_prefix "battery." m = false).
Proof.
  intros Hi He.
  destruct (sysmon_poll_disabled ck w s i inst Hi He) as [H1 H2].
  split; [exact H1|]. split; [exact H2|].
  split; [intros Ha snap; now apply sysmon_poll_snapshot|].
  intros w0 ini s0 ck0 ws R Hc Hini HR.
  pose proof (created_engine_without_battery w0 ini s0 Hc Hini) as Hreg.
  clear Hc. revert ws ck0 s0 R Hreg HR.
  apply (registry_engine_rounds "battery"
           (fun R => (forall c, In c (pr_calls R) -> pc_name c <> "battery")
                     /\ forall snap m, pr_snapshot R = Some snap ->
                          In m (s_metrics snap) ->
                          metric_name_has_prefix "battery." m = false)).
  intros ck1 w1 s1 Hreg. split.
  - intros c Hc. now apply (registry_engine_snapshot "battery" ck1 w1 s1 Hreg c Hc).
  - intros snap m Hs Hm.
    rewrite (sysmon_poll_snapshot ck1 w1 s1 snap
               (registry_engine_append_only _ _ Hreg) Hs) in Hm.
    apply in_flat_map in Hm. destruct Hm as (c & Hc & Hm).
    destruct (registry_engine_snapshot "battery" ck1 w1 s1 Hreg c Hc)
      as (Hne & vt & Hin & Hname & Hpre).
    unfold call_metrics in Hm. apply in_app_or in Hm. destruct Hm as [Hm|Hm].
    + rewrite Forall_forall in Hpre.
      apply (namespace_not_battery vt m Hin); [congruence|now apply Hpre].
    + unfold synthetic_metrics in Hm.
      destruct (_ || _); [destruct Hm|]. destruct Hm as [<-|[]].
      apply error_metric_not_battery.
Qed.

Lemma battery_off_engine_shape :
  exists s0 inst,
    battery_off_engine = Some s0
    /\ nth_error (sm_modules s0) 2 = Some inst
    /\ inst_enabled inst = false
    /\ instance_name inst = Some "battery".
Proof.
  assert (He : option_map (fun s => option_map inst_enabled (nth_error (sm_modules s) 2))
                 battery_off_engine = Some (Some false))
    by (vm_compute; reflexivity).
  assert (Hn : option_map (fun s => option_map instance_name (nth_error (sm_modules s) 2))
                 battery_off_engine = Some (Some (Some "battery")))
    by (vm_compute; reflexivity).
  revert He Hn. destruct battery_off_engine as [s0|]; cbn [option_map]; [|discriminate].
  destruct (nth_error (sm_modules s0) 2) as [inst|] eqn:Ei; cbn [option_map];
    [|discriminate].
  intros He Hn. exists s0, inst.
  split; [reflexivity|]. split; [exact Ei|]. split; congruence.
Qed.

Lemma disabled_module_never_polled_witness :
  exists s0 inst,
    battery_off_engine = Some s0
    /\ nth_error (sm_modules s0) 2 = Some inst
    /\ inst_enabled inst = false
    /\ instance_name inst = Some "battery"
    /\ (forall c, In c (pr_calls (sysmon_poll steady_clock laptop_world s0)) ->
                  pc_index c <> 2%nat)
    /\ (forall R, In R (poll_rounds steady_clock [laptop_world; laptop_world] s0) ->
          forall snap m, pr_snapshot R = Some snap -> In m (s_metrics snap) ->
                         metric_name_has_prefix "battery." m = false).
Proof.
  destruct battery_off_engine_shape as (s0 & c & Es & Ei & He & Hn).
  exists s0, c. split; [exact Es|]. split; [exact Ei|]. split; [exact He|].
  split; [exact Hn|].
  destruct (disabled_module_never_polled steady_clock laptop_world s0 2 c Ei He)
    as (H1 & _ & _ & H4).
  split; [exact H1|].
  intros R HR snap m Hs Hm'.
  apply (proj2 (H4 laptop_world battery_off_ini s0 steady_clock
                  [laptop_world; laptop_world] R Es eq_refl HR) snap m Hs Hm').
Defined.

(** ** Failure isolation in a round *)

Lemma substring_all (s : string) (n : nat) :
  (String.length s <= n)%nat -> String.substring 0 n s = s.
Proof.
  revert n. induction s as [|c s IH]; intros n H.
  - destruct n; reflexivity.
  - destruct n as [|n]; cbn in H; [lia|]. cbn. rewrite IH by lia. reflexivity.
Qed.

Lemma string_length_app (a b : string) :
  String.length (a ++ b)%string = (String.length a + String.length b)%nat.
Proof. induction a as [|c a IH]; cbn; [reflexivity|now rewrite IH]. Qed.

Lemma error_metric_short_name (name msg : string) :
  (String.length name <= 178)%nat ->
  error_metric name msg
  = mk_metric (Some ("module." ++ name ++ ".error")%string) None
              SYSMON_METRIC_STRING (V_str (Some msg)).
Proof.
  intros H. unfold error_metric, snprintf_s. rewrite substring_all; [reflexivity|].
  rewrite !string_length_app. cbn. lia.
Qed.

Lemma poll_rounds_enabled {World St : Type} (ws : list World) :
  forall (ck : sysmon_clock) (s : sysmon_t World St) R,
    In R (poll_rounds ck ws s) ->
    map inst_enabled (sm_modules (pr_sysmon R)) = map inst_enabled (sm_modules s).
Proof.
  assert (Hone : forall (ck : sysmon_clock) w (s : sysmon_t World St),
             map inst_enabled (sm_modules (pr_sysmon (sysmon_poll ck w s)))
             = map inst_enabled (sm_modules s)).
  { intros ck w s. destruct (sysmon_poll_modules ck w s) as (-> & _).
    pose proof (poll_modules_static w (fst (sysmon_now_ms ck)) (sm_modules s) 0
                  (mk_builder [] 0)) as H.
    induction H as [|a a' l l' (_ & He & _) _ IH]; cbn; [reflexivity|].
    now rewrite He, IH. }
  induction ws as [|w ws IH]; intros ck s R; cbn; [intros []|].
  intros [<-|Hin]; [apply Hone|].
  rewrite (IH _ _ _ Hin). apply Hone.
Qed.

(** C3 — failure isolation.  In a round over collectors that only append
    and whose names fit the name buffer:
    - a call that fails with a code other than out-of-memory contributes
      what the module had appended followed by exactly one synthetic string
      record named module.<name>.error; the element keeps its
      [last_refresh_ms] and stays enabled;
    - if no call fails with out-of-memory the round returns OK, every
      pollable element has been called, in order, and the snapshot is the
      concatenation of the contributions of all calls (so a failure did not
      stop the round);
    - a call that fails with out-of-memory is the last call of the round:
      the round returns out-of-memory, produces no snapshot, releases every
      record accumulated so far with the builder, and stores the error;
    - no round, now or later, changes the [enabled] flag of any element. *)
Theorem poll_failure_isolation {World St : Type} (ck : sysmon_clock) (w : World)
    (s : sysmon_t World St) :
  Forall instance_append_only (sm_modules s) ->
  (forall inst vt, In inst (sm_modules s) -> inst_vtable inst = Some vt ->
                   (String.length (vt_name vt) <= 178)%nat) ->
  let R := sysmon_poll ck w s in
  (forall c, In c (pr_calls R) ->
     pc_rc c <> SYSMON_OK -> pc_rc c <> SYSMON_ERR_OUT_OF_MEMORY ->
     call_metrics c
     = pc_added c
       ++ [mk_metric (Some ("module." ++ pc_name c ++ ".error")%string) None
                     SYSMON_METRIC_STRING
                     (V_str (Some (or_default (pc_error c) "module error")))]
     /\ exists inst inst',
          nth_error (sm_modules s) (pc_index c) = Some inst
          /\ nth_error (sm_modules (pr_sysmon R)) (pc_index c) = Some inst'
          /\ inst_last_refresh_ms inst' = inst_last_refresh_ms inst
          /\ inst_enabled inst' = true)
  /\ ((forall c, In c (pr_calls R) -> pc_rc c <> SYSMON_ERR_OUT_OF_MEMORY) ->
      pr_rc R = SYSMON_OK
      /\ map pc_index (pr_calls R) = pollable_indices 0 (sm_modules s)
      /\ pr_snapshot R = Some (mk_snapshot (flat_map call_metrics (pr_calls R)))
      /\ pr_released R = [])
  /\ (forall c, In c (pr_calls R) -> pc_rc c = SYSMON_ERR_OUT_OF_MEMORY ->
      pr_rc R = SYSMON_ERR_OUT_OF_MEMORY
      /\ pr_snapshot R = None
      /\ pr_released R = flat_map call_metrics (pr_calls R)
      /\ (exists cs, pr_calls R = cs ++ [c])
      /\ sm_last_error (pr_sysmon R)
         = Some (or_default (pc_error c) "out of memory"))
  /\ (forall (ws : list World) ck' R',
        In R' (poll_rounds ck' ws s) ->
        map inst_enabled (sm_modules (pr_sysmon R')) = map inst_enabled (sm_modules s)).
Proof.
  intros Ha Hlen R. subst R.
  pose proof (sysmon_poll_unfold ck w s) as Hu. cbv zeta in Hu.
  set (now_ms := fst (sysmon_now_ms ck)) in *.
  set (r := poll_modules w now_ms 0 (sm_modules s) (mk_builder [] 0)) in *.
  pose proof (poll_modules_metrics w now_ms (sm_modules s) Ha 0 (mk_builder [] 0)) as Hm.
  fold r in Hm. cbn [b_metrics app] in Hm.
  pose proof (poll_modules_abort w now_ms (sm_modules s) 0 (mk_builder [] 0)) as Hab.
  fold r in Hab.
  pose proof (poll_modules_indices w now_ms (sm_modules s) 0 (mk_builder [] 0)) as Hidx.
  fold r in Hidx.
  assert (Hcalls : pr_calls (sysmon_poll ck w s) = lr_calls r)
    by (rewrite Hu; now destruct (lr_abort r)).
  assert (Hmods : sm_modules (pr_sysmon (sysmon_poll ck w s)) = lr_modules r)
    by (rewrite Hu; now destruct (lr_abort r)).
  split; [|split; [|split]].
  - intros c Hc Hnok Hnoom. rewrite Hcalls in Hc. rewrite Hmods.
    destruct (poll_modules_call _ _ _ _ _ _ Hc)
      as (k & inst & inst' & b0 & b1 & Hi & Hk & Hk' & (vt & poll & Hen & Hv & Hp & Hcall & Hinst & _)).
    cbv zeta in Hcall, Hinst. cbn in Hi. subst k.
    assert (Hrc : pc_rc c = po_rc (poll w (inst_state inst) now_ms (refresh_due inst now_ms) b0))
      by (rewrite Hcall; reflexivity).
    assert (Hname : pc_name c = vt_name vt) by (rewrite Hcall; reflexivity).
    split.
    + unfold call_metrics, synthetic_metrics.
      apply result_eqb_neq in Hnok, Hnoom. rewrite Hnok, Hnoom. cbn [orb].
      rewrite error_metric_short_name; [reflexivity|].
      rewrite Hname. apply (Hlen inst vt); [now apply nth_error_In with (pc_index c)|exact Hv].
    + exists inst, inst'. split; [exact Hk|]. split; [exact Hk'|].
      rewrite Hinst. cbn. rewrite <- Hrc.
      apply result_eqb_neq in Hnok. rewrite Hnok. cbn. auto.
  - intros Hno. destruct (lr_abort r) as [err|] eqn:Eab.
    + exfalso. destruct Hab as (cs & c & Hcs & Hoom & _).
      apply (Hno c); [|exact Hoom]. rewrite Hcalls, Hcs. apply in_or_app. right. now left.
    + rewrite Hu. cbn. rewrite Hm. repeat split. now apply Hidx.
  - intros c Hc Hoom. rewrite Hcalls in Hc.
    destruct (lr_abort r) as [err|] eqn:Eab.
    + destruct Hab as (cs & c' & Hcs & Hoom' & Herr & Hrest).
      assert (c = c').
      { rewrite Hcs in Hc. apply in_app_or in Hc. destruct Hc as [Hc|[<-|[]]]; [|reflexivity].
        exfalso. now apply (Hrest c Hc). }
      subst c'. rewrite Hu. cbn. rewrite Hm, Herr. repeat split. now exists cs.
    + exfalso. now apply (Hab c Hc).
  - intros ws ck' R'. apply poll_rounds_enabled.
Qed.

Lemma registry_engine_short_names (off : string)
    (s : sysmon_t os_world module_state) :
  registry_engine_without off s ->
  forall inst vt, In inst (sm_modules s) -> inst_vtable inst = Some vt ->
                  (String.length (vt_name vt) <= 178)%nat.
Proof.
  intros Hreg inst vt Hin Hv. unfold registry_engine_without in Hreg.
  rewrite Forall_forall in Hreg. destruct (Hreg inst Hin) as (vt' & Hv' & Hreg' & _).
  assert (vt' = vt) by congruence. subst vt'.
  destruct Hreg' as [<-|[<-|[<-|[<-|[]]]]]; cbn; lia.
Qed.

Lemma poll_failure_isolation_witness :
  exists s0,
    battery_off_engine = Some s0
    /\ Forall instance_append_only (sm_modules s0)
    /\ (forall c, In c (pr_calls (sysmon_poll steady_clock bare_world s0)) ->
          pc_rc c <> SYSMON_OK -> pc_rc c <> SYSMON_ERR_OUT_OF_MEMORY ->
          call_metrics c
          = pc_added c
            ++ [mk_metric (Some ("module." ++ pc_name c ++ ".error")%string) None
                          SYSMON_METRIC_STRING
                          (V_str (Some (or_default (pc_error c) "module error")))])
    /\ (forall R', In R' (poll_rounds steady_clock [bare_world; laptop_world] s0) ->
          map inst_enabled (sm_modules (pr_sysmon R'))
          = map inst_enabled (sm_modules s0)).
Proof.
  destruct battery_off_engine_shape as (s0 & inst & Es & _).
  exists s0. split; [exact Es|].
  pose proof (created_engine_without_battery laptop_world battery_off_ini s0 Es eq_refl)
    as Hreg.
  pose proof (registry_engine_append_only _ _ Hreg) as Ha.
  split; [exact Ha|].
  destruct (poll_failure_isolation steady_clock bare_world s0 Ha
              (registry_engine_short_names _ _ Hreg)) as (H1 & _ & _ & H4).
  split.
  - intros c Hc Hnok Hnoom. exact (proj1 (H1 c Hc Hnok Hnoom)).
  - intros R' HR. exact (H4 [bare_world; laptop_world] steady_clock R' HR).
Defined.

(** ** Engine construction *)

(** *** What [strtoul] leaves unread *)

Lemma scan_digits_rest (s : string) :
  forall acc any ovf,
    all_digits s = false ->
    snd (scan_digits s acc any ovf) <> EmptyString.
Proof.
  induction s as [|c r IH]; intros acc any ovf; cbn [all_digits scan_digits].
  - discriminate.
  - destruct (isdigit c); cbn [andb].
    + intros H. destruct (ovf || _); now apply IH.
    + intros _. cbn. discriminate.
Qed.

Lemma sign_split (v : string) :
  exists neg s1,
    match skip_spaces v with
    | String "-"%char r => (true, r)
    | String "+"%char r => (false, r)
    | _ => (false, skip_spaces v)
    end = (neg, s1)
    /\ decimal_numeral v = unsigned_numeral s1.
Proof.
  unfold decimal_numeral.
  destruct (skip_spaces v) as [|[b0 b1 b2 b3 b4 b5 b6 b7] r];
    [do 2 eexists; split; reflexivity|].
  destruct b0, b1, b2, b3, b4, b5, b6, b7; do 2 eexists; split; reflexivity.
Qed.

(** A value that is not a decimal numeral is rejected by the tests that
    follow [strtoul] in [sysmon_ini_get_u32]. *)
Lemma strtoul10_not_numeral (v : string) :
  decimal_numeral v = false ->
  su_erange (strtoul10 v) || negb (su_converted (strtoul10 v))
  || negb (streq (su_rest (strtoul10 v)) EmptyString) = true.
Proof.
  unfold strtoul10.
  destruct (sign_split v) as (neg & s1 & -> & ->).
  intros Hn.
  destruct (scan_digits s1 0 false false) as [[[acc any] ovf] rest] eqn:E.
  destruct any; cbn [negb]; [|reflexivity].
  destruct ovf; [reflexivity|]. cbn [su_erange su_converted su_rest orb].
  assert (Hr : rest <> EmptyString).
  { destruct s1 as [|c r]; [cbn in E; discriminate|].
    pose proof (scan_digits_rest (String c r) 0 false false Hn) as H.
    now rewrite E in H. }
  destruct rest; [contradiction|reflexivity].
Qed.

Lemma sysmon_ini_get_u32_not_numeral (ini : sysmon_ini) (section key v : string)
    (d : Z) :
  sysmon_ini_get ini section key = Some v ->
  v <> EmptyString ->
  decimal_numeral v = false ->
  sysmon_ini_get_u32 ini section key d = (d, false).
Proof.
  intros Hv Hne Hn. unfold sysmon_ini_get_u32. rewrite Hv.
  destruct v as [|c r]; [contradiction|].
  rewrite (strtoul10_not_numeral _ Hn). reflexivity.
Qed.

(** A key written with an empty value counts as unset. *)
Lemma sysmon_ini_get_u32_empty (ini : sysmon_ini) (section key : string) (d : Z) :
  sysmon_ini_get ini section key = Some EmptyString ->
  sysmon_ini_get_u32 ini section key d = (d, true).
Proof. intros Hv. unfold sysmon_ini_get_u32. now rewrite Hv. Qed.

(** *** [sysmon_create] once the file and the global section are read *)

Lemma sysmon_create_unfold {World St : Type}
    (builtins : list (sysmon_module_vtable World St)) (w : World)
    (ini : sysmon_ini) :
  builtins <> [] ->
  fst (fst (sysmon_config_load_from_ini (Some ini))) = SYSMON_OK ->
  let rc := fst (fst (init_loop w ini builtins)) in
  let ms := snd (fst (init_loop w ini builtins)) in
  (rc = SYSMON_OK ->
   cr_rc (sysmon_create builtins w (SYSMON_OK, Some ini, None)) = SYSMON_OK
   /\ (exists s, cr_sysmon (sysmon_create builtins w (SYSMON_OK, Some ini, None))
                 = Some s
                 /\ sm_modules s = ms)
   /\ cr_released (sysmon_create builtins w (SYSMON_OK, Some ini, None)) = [])
  /\ (rc <> SYSMON_OK ->
      cr_rc (sysmon_create builtins w (SYSMON_OK, Some ini, None)) = rc
      /\ cr_sysmon (sysmon_create builtins w (SYSMON_OK, Some ini, None)) = None
      /\ cr_released (sysmon_create builtins w (SYSMON_OK, Some ini, None))
         = flat_map destroy_instance ms).
Proof.
  intros Hne Hcfg. unfold sysmon_create. cbn [result_eqb negb].
  destruct (sysmon_config_load_from_ini (Some ini)) as [[crc cfg] cerr].
  cbn [fst] in Hcfg. subst crc. cbn [result_eqb negb].
  unfold init_modules. cbn [sm_ini sm_config sm_last_error].
  destruct builtins as [|vt rest]; [contradiction|].
  destruct (init_loop w ini (vt :: rest)) as [[rc ms] e]. cbn [fst snd].
  split.
  - intros ->. cbn. repeat split. eexists. split; reflexivity.
  - intros Hrc. apply result_eqb_neq in Hrc. rewrite Hrc. cbn. auto.
Qed.

(** C5 — failures while the engine is constructed.  The configuration
    file is read and its global section is valid; the modules before [vt]
    in the registry have been set up ([insts]).  Then, for the module [vt]:
    - when [create] is called (the module is enabled and its refresh_ms is
      accepted) and answers not-supported, the element is kept with
      [enabled] false and the loop goes on with the rest of the registry:
      the outcome is that of the remaining modules, and if they succeed an
      engine is returned that holds all elements;
    - when [create] answers any other code than OK, construction returns
      that code, no engine, and has released the state of every earlier
      element and whatever state the failing call left;
    - when the refresh_ms value of the module's section is a non-empty
      string that is not a decimal numeral, construction returns the parse
      error, no engine, and has released the state of every earlier
      element (the module's own [create] is not reached). *)
Theorem create_failure_handling {World St : Type} (w : World) (ini : sysmon_ini)
    (pre post : list (sysmon_module_vtable World St))
    (vt : sysmon_module_vtable World St)
    (insts : list (sysmon_module_instance World St)) :
  fst (fst (sysmon_config_load_from_ini (Some ini))) = SYSMON_OK ->
  init_loop w ini pre = (SYSMON_OK, insts, None) ->
  let section := module_section (vt_name vt) in
  let co := vt_create vt w ini section in
  let refresh_ms := fst (sysmon_ini_get_u32 ini section "refresh_ms" 0) in
  let R := sysmon_create (pre ++ vt :: post) w (SYSMON_OK, Some ini, None) in
  (sysmon_ini_get_bool ini section "enabled" true = true ->
   snd (sysmon_ini_get_u32 ini section "refresh_ms" 0) = true ->
   (co_rc co = SYSMON_ERR_NOT_SUPPORTED ->
    let demoted := mk_instance (Some vt) (co_state co) false refresh_ms 0 in
    init_loop w ini (pre ++ vt :: post)
    = (fst (fst (init_loop w ini post)),
       insts ++ demoted :: snd (fst (init_loop w ini post)),
       snd (init_loop w ini post))
    /\ cr_rc R = fst (fst (init_loop w ini post))
    /\ (fst (fst (init_loop w ini post)) = SYSMON_OK ->
        exists s, cr_sysmon R = Some s
                  /\ sm_modules s
                     = insts ++ demoted :: snd (fst (init_loop w ini post))))
   /\ (co_rc co <> SYSMON_ERR_NOT_SUPPORTED -> co_rc co <> SYSMON_OK ->
       cr_rc R = co_rc co
       /\ cr_sysmon R = None
       /\ cr_released R
          = flat_map destroy_instance insts
            ++ destroy_instance
                 (mk_instance (Some vt) (co_state co) true refresh_ms 0)))
  /\ (forall v,
        sysmon_ini_get ini section "refresh_ms" = Some v ->
        v <> EmptyString -> decimal_numeral v = false ->
        cr_rc R = SYSMON_ERR_PARSE
        /\ cr_sysmon R = None
        /\ cr_released R = flat_map destroy_instance insts).
Proof.
  intros Hcfg Hpre section co refresh_ms R.
  assert (Hne : pre ++ vt :: post <> []) by (destruct pre; discriminate).
  destruct (sysmon_create_unfold (pre ++ vt :: post) w ini Hne Hcfg) as [Hok Hfail].
  fold R in Hok, Hfail.
  pose proof (init_loop_app w ini pre (vt :: post) insts None Hpre) as Happ.
  rewrite Happ in Hok, Hfail. cbn [fst snd] in Hok, Hfail.
  assert (Hloop : init_loop w ini (vt :: post)
            = let '(r, ok) := sysmon_ini_get_u32 ini section "refresh_ms" 0 in
              let enabled := sysmon_ini_get_bool ini section "enabled" true in
              let inst := mk_instance (Some vt) None enabled r 0 in
              let continue_with i :=
                (fst (fst (init_loop w ini post)), i :: snd (fst (init_loop w ini post)),
                 snd (init_loop w ini post)) in
              if negb ok then
                (SYSMON_ERR_PARSE, inst :: map (fun _ => @zero_instance World St) post,
                 Some "invalid refresh_ms (must be uint32)"%string)
              else if negb enabled then continue_with inst
              else if result_eqb (co_rc co) SYSMON_ERR_NOT_SUPPORTED then
                continue_with (mk_instance (Some vt) (co_state co) false r 0)
              else if negb (result_eqb (co_rc co) SYSMON_OK) then
                (co_rc co,
                 mk_instance (Some vt) (co_state co) enabled r 0
                   :: map (fun _ => @zero_instance World St) post,
                 Some (or_default (co_error co) "module create failed"))
              else continue_with (mk_instance (Some vt) (co_state co) enabled r 0)).
  { cbn [init_loop]. fold section. fold co.
    destruct (sysmon_ini_get_u32 ini section "refresh_ms" 0) as [r ok].
    destruct (init_loop w ini post) as [[rc l] e]. reflexivity. }
  split.
  - intros Hen Hrok. subst refresh_ms.
    destruct (sysmon_ini_get_u32 ini section "refresh_ms" 0) as [r ok].
    cbn [fst snd] in *. subst ok. rewrite Hen in Hloop. cbn [negb] in Hloop.
    split.
    + intros Hns. cbv zeta. rewrite Hns in Hloop. cbn [result_eqb] in Hloop.
      rewrite Hloop in Happ, Hok, Hfail. cbn [fst snd] in Happ, Hok, Hfail.
      split; [exact Happ|]. split.
      * destruct (result_eqb (fst (fst (init_loop w ini post))) SYSMON_OK) eqn:E.
        -- apply result_eqb_eq in E. rewrite E. now apply Hok.
        -- apply result_eqb_neq in E. now apply Hfail.
      * intros Hrest. now apply Hok.
    + intros Hns Hnok. apply result_eqb_neq in Hns, Hnok.
      rewrite Hns, Hnok in Hloop. cbn [negb] in Hloop.
      rewrite Hloop in Hfail. cbn [fst snd] in Hfail.
      apply result_eqb_neq in Hnok. destruct (Hfail Hnok) as (H1 & H2 & H3).
      split; [exact H1|]. split; [exact H2|]. rewrite H3.
      rewrite flat_map_app. cbn [flat_map].
      now rewrite destroy_zero_instances, app_nil_r.
  - intros v Hv Hvne Hnum.
    rewrite (sysmon_ini_get_u32_not_numeral ini section "refresh_ms" v 0 Hv Hvne Hnum)
      in Hloop.
    cbn [negb] in Hloop. rewrite Hloop in Hfail. cbn [fst snd] in Hfail.
    destruct Hfail as (H1 & H2 & H3); [discriminate|].
    split; [exact H1|]. split; [exact H2|]. rewrite H3.
    rewrite flat_map_app. cbn [flat_map destroy_instance inst_state].
    now rewrite destroy_zero_instances, app_nil_r.
Qed.

Lemma create_failure_handling_witness :
  let R := sysmon_create sysmon_builtin_modules laptop_world
             (SYSMON_OK, Some bad_refresh_ini, None) in
  cr_rc R = SYSMON_ERR_PARSE
  /\ cr_sysmon R = None
  /\ cr_released R
     = [("cpu"%string, CpuState (mk_cpu_state 0 0 0 4 false));
        ("ram"%string, RamState (mk_ram_state 16384000000 0 0 0 false))].
Proof.
  exact (proj2 (create_failure_handling laptop_world bad_refresh_ini
                  [sysmon_cpu_module; sysmon_ram_module] [sysmon_network_module]
                  sysmon_battery_module
                  [mk_instance (Some sysmon_cpu_module)
                     (Some (CpuState (mk_cpu_state 0 0 0 4 false))) true 0 0;
                   mk_instance (Some sysmon_ram_module)
                     (Some (RamState (mk_ram_state 16384000000 0 0 0 false))) true 0 0]
                  eq_refl eq_refl)
               "fast"%string eq_refl ltac:(discriminate) eq_refl).
Defined.

(** ** The refresh schedule *)

(** With a failed clock read the first round refreshes at time 0, which the
    engine cannot tell from "never refreshed": the next round, 5 ms later,
    refreshes again although the interval is 1000 ms, and reports another
    value. *)
Lemma refresh_cadence_unguarded_fails : ~ refresh_cadence_unguarded.
Proof.
  intros H.
  set (R1 := sysmon_poll late_clock laptop_world slow_cpu_engine).
  set (R2 := sysmon_poll (pr_clock R1) busy_laptop_world (pr_sysmon R1)).
  specialize (H laptop_world (Some slow_cpu_ini) slow_cpu_engine late_clock
                laptop_world busy_laptop_world
                (nth 0 (pr_calls R1) empty_call) (nth 0 (pr_calls R2) empty_call)
                (nth 0 (sm_modules slow_cpu_engine) zero_instance)).
  fold R1 in H. fold R2 in H.
  assert (H1 : pc_refresh_now (nth 0 (pr_calls R2) empty_call) = true)
    by (vm_compute; reflexivity).
  destruct H as [H _]; [reflexivity| | | | | | | | |congruence].
  - vm_compute. left. reflexivity.
  - vm_compute. left. reflexivity.
  - vm_compute. reflexivity.
  - reflexivity.
  - vm_compute. reflexivity.
  - vm_compute. reflexivity.
  - vm_compute. reflexivity.
  - vm_compute. split; [discriminate|reflexivity].
Qed.

Section ScheduleFacts.

Context {World St : Type}.

Implicit Types (inst : sysmon_module_instance World St)
               (ms : list (sysmon_module_instance World St))
               (b : sysmon_snapshot_builder) (w : World) (c : poll_call).

(** In one pass of the loop an element is either called once, or left as
    it is and not called. *)
Lemma poll_modules_element w (now_ms : Z) ms :
  forall i b k inst,
    nth_error ms k = Some inst ->
    (exists c inst' b0 b1,
        In c (lr_calls (poll_modules w now_ms i ms b))
        /\ pc_index c = (i + k)%nat
        /\ nth_error (lr_modules (poll_modules w now_ms i ms b)) k = Some inst'
        /\ engine_step w now_ms (i + k) inst b0 inst' c b1)
    \/ (nth_error (lr_modules (poll_modules w now_ms i ms b)) k = Some inst
        /\ forall c, In c (lr_calls (poll_modules w now_ms i ms b)) ->
                     pc_index c <> (i + k)%nat).
Proof.
  induction ms as [|a rest IH]; intros i b k inst Hk; [destruct k; discriminate|].
  cbn [poll_modules].
  pose proof (poll_instance_spec w now_ms i a b) as Hs.
  assert (Hge : forall j b0 c, In c (lr_calls (poll_modules w now_ms j rest b0)) ->
                               (j <= pc_index c)%nat).
  { intros j b0 c Hc.
    destruct (poll_modules_call _ _ _ _ _ _ Hc) as (k' & _ & _ & _ & _ & -> & _). lia. }
  assert (Hidx : forall inst' b' c, engine_step w now_ms i a b inst' c b' -> pc_index c = i).
  { intros inst' b' c (vt & poll & _ & _ & _ & -> & _). reflexivity. }
  destruct k as [|k].
  - cbn in Hk. injection Hk as ->. rewrite Nat.add_0_r.
    destruct (poll_instance w now_ms i inst b) as [|inst' b' c0|inst' b' c0 err].
    + right. cbn. split; [reflexivity|]. intros c Hc. apply Hge in Hc. lia.
    + left. destruct Hs as [Hs _]. exists c0, inst', b, b'. cbn.
      split; [now left|]. split; [exact (Hidx _ _ _ Hs)|]. split; [reflexivity|exact Hs].
    + left. destruct Hs as [Hs _]. exists c0, inst', b, b'. cbn.
      split; [now left|]. split; [exact (Hidx _ _ _ Hs)|]. split; [reflexivity|exact Hs].
  - cbn in Hk. rewrite Nat.add_succ_r.
    destruct (poll_instance w now_ms i a b) as [|inst' b' c0|inst' b' c0 err];
      cbn [lr_modules lr_calls nth_error].
    + specialize (IH (S i) b k inst Hk). cbn [Nat.add] in IH. exact IH.
    + destruct (IH (S i) b' k inst Hk) as [(c & i' & b0 & b1 & Hc & Hi & Hn & He)|[Hn Hno]];
        cbn [Nat.add] in *.
      * left. exists c, i', b0, b1. split; [now right|]. auto.
      * right. split; [exact Hn|]. intros c [<-|Hc]; [|now apply Hno].
        destruct Hs as [Hs _]. rewrite (Hidx _ _ _ Hs). lia.
    + right. split; [exact Hk|]. intros c [<-|[]].
      destruct Hs as [Hs _]. rewrite (Hidx _ _ _ Hs). lia.
Qed.

End ScheduleFacts.

Section CachedRounds.

Context {World St : Type}.
Variables (vt : sysmon_module_vtable World St) (poll : poll_fn World St).
Variables (i : nat) (t r : Z).
Variables (w1 : World) (st0 : option St) (now1 : Z) (rn1 : bool)
          (b1 : sysmon_snapshot_builder).

Hypothesis Hpoll : vt_poll vt = Some poll.
Hypothesis Hcache : caches_between_refreshes poll.
Hypothesis Hok1 : po_rc (poll w1 st0 now1 rn1 b1) = SYSMON_OK.
Hypothesis Hr : 0 < r.
Hypothesis Ht : 0 < t.

(** A round that starts within the interval leaves the sample alone. *)
Lemma cached_round (ck : sysmon_clock) (w : World) (s : sysmon_t World St) :
  holds_sample vt i t r (po_state (poll w1 st0 now1 rn1 b1)) s ->
  (forall c, In c (pr_calls (sysmon_poll ck w s)) -> pc_index c = i ->
             t <= pc_now c < t + r) ->
  holds_sample vt i t r (po_state (poll w1 st0 now1 rn1 b1))
    (pr_sysmon (sysmon_poll ck w s))
  /\ forall c, In c (pr_calls (sysmon_poll ck w s)) -> pc_index c = i ->
       pc_refresh_now c = false
       /\ pc_rc c = SYSMON_OK
       /\ pc_added c = skipn (b_count b1) (b_metrics (po_builder (poll w1 st0 now1 rn1 b1))).
Proof.
  intros (inst & Hn & Hv & Hst & Hrm & Hl) Hwin.
  destruct (sysmon_poll_modules ck w s) as (Hm & Hc & _).
  unfold holds_sample. rewrite Hm. rewrite Hc in Hwin. rewrite Hc.
  pose proof (sysmon_now_ms_range ck) as Hrange.
  set (now_ms := fst (sysmon_now_ms ck)) in *.
  destruct (poll_modules_element w now_ms (sm_modules s) 0 (mk_builder [] 0) i inst Hn)
    as [(c0 & inst' & b0 & b2 & Hin & Hidx & Hn' & Hstep)|[Hn' Hno]];
    cbn [Nat.add] in *.
  - destruct Hstep as (vt' & poll' & Hen & Hv' & Hp' & Hcall & Hinst & _).
    cbv zeta in Hcall, Hinst.
    assert (vt' = vt) by congruence. subst vt'.
    assert (poll' = poll) by congruence. subst poll'.
    assert (Hnow : pc_now c0 = now_ms) by (rewrite Hcall; reflexivity).
    pose proof (Hwin c0 Hin Hidx) as Hw. rewrite Hnow in Hw.
    assert (Hdue : refresh_due inst now_ms = false).
    { unfold refresh_due. rewrite Hrm, Hl.
      rewrite (sub64_exact now_ms t) by lia.
      destruct (Z.eqb_spec r 0); [lia|]. destruct (Z.eqb_spec t 0); [lia|].
      destruct (Z.leb_spec r (now_ms - t)); [lia|reflexivity]. }
    rewrite Hdue, Hst in Hcall, Hinst.
    destruct (Hcache w1 w st0 now1 now_ms rn1 b1 b0 Hok1) as (Hrc2 & Hst2 & Hadd2).
    split.
    + exists inst'. split; [exact Hn'|]. rewrite Hinst. cbn.
      rewrite andb_false_r. auto.
    + intros c Hin' Hidx'.
      assert (c = c0).
      { apply (poll_modules_call_unique w now_ms (sm_modules s) 0 (mk_builder [] 0));
          [assumption|assumption|congruence]. }
      subst c. rewrite Hcall. cbn. auto.
  - split.
    + exists inst. auto.
    + intros c Hin Hidx. exfalso. now apply (Hno c Hin).
Qed.

Lemma cached_rounds (ws : list World) :
  forall (ck : sysmon_clock) (s : sysmon_t World St),
    holds_sample vt i t r (po_state (poll w1 st0 now1 rn1 b1)) s ->
    (forall R c, In R (poll_rounds ck ws s) -> In c (pr_calls R) -> pc_index c = i ->
                 t <= pc_now c < t + r) ->
    forall R c, In R (poll_rounds ck ws s) -> In c (pr_calls R) -> pc_index c = i ->
      pc_refresh_now c = false
      /\ pc_rc c = SYSMON_OK
      /\ pc_added c = skipn (b_count b1) (b_metrics (po_builder (poll w1 st0 now1 rn1 b1))).
Proof.
  induction ws as [|w ws IH]; intros ck s Hs Hwin R c; cbn [poll_rounds]; [intros []|].
  destruct (cached_round ck w s Hs) as [Hs' Hc'].
  { intros c' Hin Hi. apply (Hwin (sysmon_poll ck w s) c'); [now left|assumption..]. }
  intros [<-|HR] Hin Hi; [now apply Hc'|].
  apply (IH (pr_clock (sysmon_poll ck w s)) (pr_sysmon (sysmon_poll ck w s)) Hs')
    with (R := R); try assumption.
  intros R' c' HR' Hin' Hi'. apply (Hwin R' c'); [now right|assumption..].
Qed.

End CachedRounds.

(** Every constructed engine is made of registry entries. *)
Lemma created_engine_registry (w0 : os_world) (ini0 : option sysmon_ini)
    (s0 : sysmon_t os_world module_state) :
  cr_sysmon (sysmon_create sysmon_builtin_modules w0 (SYSMON_OK, ini0, None))
    = Some s0 ->
  registry_engine_without EmptyString s0.
Proof.
  intros Hc. destruct (sysmon_create_some _ _ _ _ Hc) as (lini & lerr & [= <- <-] & Hi & _).
  apply init_loop_ok in Hi. destruct Hi as [_ Hf].
  unfold registry_engine_without. revert Hf.
  assert (Hall : forall vt, In vt sysmon_builtin_modules -> In vt sysmon_builtin_modules)
    by auto.
  revert Hall. generalize (sm_modules s0). generalize sysmon_builtin_modules at 1 3.
  intros bs l Hall Hf. induction Hf as [|vt inst bs l (Hv & _ & Hen) _ IH]; [constructor|].
  constructor.
  - exists vt. split; [exact Hv|]. split; [apply Hall; now left|].
    intros Hname. exfalso.
    destruct (Hall vt (or_introl eq_refl)) as [<-|[<-|[<-|[<-|[]]]]]; discriminate.
  - apply IH. intros v Hin. apply Hall. now right.
Qed.

Lemma registry_engine_caches (off : string) (s : sysmon_t os_world module_state) :
  registry_engine_without off s -> Forall instance_caches (sm_modules s).
Proof.
  unfold registry_engine_without. rewrite !Forall_forall. intros H inst Hin.
  destruct (H inst Hin) as (vt & Hv & Hreg & _).
  intros vt' poll Hv' Hp. rewrite Hv in Hv'. injection Hv' as <-.
  destruct (all_collectors_ok vt) as (poll' & Hp' & _ & Hok & _).
  { unfold all_collectors. apply in_or_app. now left. }
  rewrite Hp in Hp'. injection Hp' as <-. exact Hok.
Qed.

(** The refresh schedule away from the clock reading 0.  In a round of an
    engine whose modules answer from their cache between refreshes:
    - the clock is read exactly once and every call of the round receives
      that reading;
    - a call is made on an enabled element, and its [refresh_now] is true
      exactly when the interval is 0, or the stored [last_refresh_ms] is 0,
      or the unsigned 64-bit difference between the reading and
      [last_refresh_ms] is at least the interval; in particular an interval
      of 0 refreshes in every round;
    - after the call [last_refresh_ms] is the reading when the call
      succeeded with [refresh_now] set, and is unchanged otherwise;
    - when a call succeeded with [refresh_now] set at a non-zero reading and
      the interval is positive, then in every later round in which the
      element is called while the reading is still within the interval
      [refresh_now] is false, the call succeeds, and the module reports the
      same records. *)
Theorem refresh_schedule {World St : Type} (ck : sysmon_clock) (w : World)
    (s : sysmon_t World St) :
  Forall instance_caches (sm_modules s) ->
  let now_ms := fst (sysmon_now_ms ck) in
  let R := sysmon_poll ck w s in
  ck_reads (pr_clock R) = S (ck_reads ck)
  /\ (forall c, In c (pr_calls R) ->
        pc_now c = now_ms
        /\ exists inst inst',
             nth_error (sm_modules s) (pc_index c) = Some inst
             /\ nth_error (sm_modules (pr_sysmon R)) (pc_index c) = Some inst'
             /\ inst_enabled inst = true
             /\ pc_refresh_now c
                = (inst_refresh_ms inst =? 0)
                  || (inst_last_refresh_ms inst =? 0)
                  || (inst_refresh_ms inst
                      <=? sub64 now_ms (inst_last_refresh_ms inst))
             /\ (inst_refresh_ms inst = 0 -> pc_refresh_now c = true)
             /\ inst_last_refresh_ms inst'
                = if result_eqb (pc_rc c) SYSMON_OK && pc_refresh_now c
                  then now_ms else inst_last_refresh_ms inst)
  /\ (forall c1 inst (ws : list World) R' c2,
        In c1 (pr_calls R) ->
        nth_error (sm_modules s) (pc_index c1) = Some inst ->
        0 < inst_refresh_ms inst ->
        pc_rc c1 = SYSMON_OK -> pc_refresh_now c1 = true -> 0 < now_ms ->
        (forall R'' c', In R'' (poll_rounds (pr_clock R) ws (pr_sysmon R)) ->
                        In c' (pr_calls R'') -> pc_index c' = pc_index c1 ->
                        now_ms <= pc_now c' < now_ms + inst_refresh_ms inst) ->
        In R' (poll_rounds (pr_clock R) ws (pr_sysmon R)) ->
        In c2 (pr_calls R') -> pc_index c2 = pc_index c1 ->
        pc_refresh_now c2 = false
        /\ pc_rc c2 = SYSMON_OK
        /\ pc_added c2 = pc_added c1).
Proof.
  intros Hcaches now_ms R. subst R.
  destruct (sysmon_poll_modules ck w s) as (Hm & Hc & Hk). fold now_ms in Hm, Hc.
  assert (Hcall : forall c, In c (pr_calls (sysmon_poll ck w s)) ->
            exists inst inst' b0 b1,
              nth_error (sm_modules s) (pc_index c) = Some inst
              /\ nth_error (sm_modules (pr_sysmon (sysmon_poll ck w s))) (pc_index c)
                 = Some inst'
              /\ engine_step w now_ms (pc_index c) inst b0 inst' c b1).
  { intros c Hin. rewrite Hc in Hin. rewrite Hm.
    destruct (poll_modules_call _ _ _ _ _ _ Hin)
      as (k & inst & inst' & b0 & b1 & Hi & Hn & Hn' & Hstep).
    cbn [Nat.add] in Hi. rewrite Hi in *. exists inst, inst', b0, b1. auto. }
  split; [|split].
  - rewrite Hk. apply sysmon_now_ms_reads.
  - intros c Hin.
    destruct (Hcall c Hin) as (inst & inst' & b0 & b1 & Hn & Hn' & Hstep).
    destruct Hstep as (vt & poll & Hen & Hv & Hp & Hcl & Hinst & _).
    cbv zeta in Hcl, Hinst.
    split; [rewrite Hcl; reflexivity|].
    exists inst, inst'. split; [exact Hn|]. split; [exact Hn'|]. split; [exact Hen|].
    split; [rewrite Hcl; reflexivity|].
    split.
    + intros H0. rewrite Hcl. cbn. unfold refresh_due. now rewrite H0.
    + rewrite Hinst, Hcl. reflexivity.
  - intros c1 inst ws R' c2 Hin1 Hn Hpos Hrc1 Hrn1 Hnow Hwin HR' Hin2 Hidx.
    destruct (Hcall c1 Hin1) as (inst0 & inst' & b0 & b1 & Hn0 & Hn' & Hstep).
    assert (inst0 = inst) by congruence. subst inst0.
    destruct Hstep as (vt & poll & Hen & Hv & Hp & Hcl & Hinst & _).
    cbv zeta in Hcl, Hinst.
    set (out := poll w (inst_state inst) now_ms (refresh_due inst now_ms) b0) in *.
    assert (Hok : po_rc out = SYSMON_OK) by (rewrite Hcl in Hrc1; exact Hrc1).
    assert (Hdue : refresh_due inst now_ms = true) by (rewrite Hcl in Hrn1; exact Hrn1).
    assert (Hcache : caches_between_refreshes poll).
    { rewrite Forall_forall in Hcaches.
      apply (Hcaches inst (nth_error_In _ _ Hn) vt poll Hv Hp). }
    assert (Hadd : pc_added c1 = skipn (b_count b0) (b_metrics (po_builder out)))
      by (rewrite Hcl; reflexivity).
    rewrite Hadd.
    apply (cached_rounds vt poll (pc_index c1) now_ms (inst_refresh_ms inst)
             w (inst_state inst) now_ms (refresh_due inst now_ms) b0
             Hp Hcache Hok Hpos Hnow ws
             (pr_clock (sysmon_poll ck w s)) (pr_sysmon (sysmon_poll ck w s)))
      with (R := R'); try assumption.
    exists inst'. split; [exact Hn'|]. rewrite Hinst. cbn.
    rewrite Hok, Hdue. cbn. unfold out. rewrite Hdue. auto.
Qed.

Lemma refresh_schedule_witness :
  let R1 := sysmon_poll fine_clock laptop_world slow_cpu_engine in
  let R2 := sysmon_poll (pr_clock R1) busy_laptop_world (pr_sysmon R1) in
  let c1 := nth 0 (pr_calls R1) empty_call in
  let c2 := nth 0 (pr_calls R2) empty_call in
  Forall instance_caches (sm_modules slow_cpu_engine)
  /\ ck_reads (pr_clock R1) = 1%nat
  /\ (forall c, In c (pr_calls R1) -> pc_now c = 100)
  /\ pc_name c1 = "cpu"%string
  /\ pc_now c2 = 105
  /\ pc_refresh_now c2 = false
  /\ pc_rc c2 = SYSMON_OK
  /\ pc_added c2 = pc_added c1.
Proof.
  intros R1 R2 c1 c2.
  assert (Hc : Forall instance_caches (sm_modules slow_cpu_engine)).
  { apply (registry_engine_caches EmptyString).
    apply (created_engine_registry laptop_world (Some slow_cpu_ini)). reflexivity. }
  split; [exact Hc|].
  destruct (refresh_schedule fine_clock laptop_world slow_cpu_engine Hc)
    as (H1 & H2 & H3).
  split; [exact H1|]. split; [intros c Hin; exact (proj1 (H2 c Hin))|].
  split; [vm_compute; reflexivity|]. split; [vm_compute; reflexivity|].
  apply (H3 c1 (nth 0 (sm_modules slow_cpu_engine) zero_instance)
            [busy_laptop_world] R2 c2).
  - vm_compute. left. reflexivity.
  - reflexivity.
  - vm_compute. reflexivity.
  - vm_compute. reflexivity.
  - vm_compute. reflexivity.
  - vm_compute. reflexivity.
  - intros R c [<-|[]] Hin _. vm_compute in Hin.
    destruct Hin as [<-|[<-|[<-|[<-|[]]]]]; vm_compute; (split; [discriminate|reflexivity]).
  - left. reflexivity.
  - vm_compute. left. reflexivity.
  - vm_compute. reflexivity.
Defined.

(** C1 — the refresh schedule breaks at the clock reading 0.  The engine
    built with [[module.cpu] refresh_ms=1000] is polled three times
    within 20 ms: at the reading 100, at a clock read that fails, for
    which [sysmon_now_ms] returns 0, and at the reading 120.  All three
    calls on the cpu module succeed and all three are asked to refresh:
    the second because the unsigned difference 0 - 100 is at least 1000,
    after which the stored [last_refresh_ms] is 0; the third because a
    stored 0 is read as "never refreshed".  The module re-reads
    /proc/stat each time and reports the usages 0, 100 and 0, where one
    refresh per 1000 ms and equal values in between are expected. *)
Theorem refresh_sentinel_collision :
  let Rs := poll_rounds faulty_clock
              [laptop_world; busy_laptop_world; idle_laptop_world] slow_cpu_engine in
  option_map inst_refresh_ms (nth_error (sm_modules slow_cpu_engine) 0) = Some 1000
  /\ map (fun R => pc_name (cpu_call R)) Rs = ["cpu"; "cpu"; "cpu"]%string
  /\ map (fun R => pc_now (cpu_call R)) Rs = [100; 0; 120]
  /\ map (fun R => pc_rc (cpu_call R)) Rs = [SYSMON_OK; SYSMON_OK; SYSMON_OK]
  /\ map (fun R => pc_refresh_now (cpu_call R)) Rs = [true; true; true]
  /\ map (fun R => first_double (pc_added (cpu_call R))) Rs
     = [Some 0%float; Some 100%float; Some 0%float]
  /\ map (fun R => option_map inst_last_refresh_ms
                     (nth_error (sm_modules (pr_sysmon R)) 0)) Rs
     = [Some 100; Some 0; Some 120].
Proof.
  cbv zeta. repeat split; vm_compute; reflexivity.
Qed.

(* ================================================================= *)
(** * Further properties of the code *)

(** ** Configuration lookups *)

(** X1 — [sysmon_ini_get] returns the value of the first entry, in file
    order, whose section and key are exactly the requested ones; a later
    entry with the same section and key is never seen; the lookup finds
    nothing exactly when no entry has that section and key. *)
Theorem ini_get_first_match :
  (forall ini s k,
     sysmon_ini_get ini s k = None <->
     forall e, In e ini -> e_section e = s -> e_key e <> k)
  /\ (forall ini s k v,
        sysmon_ini_get ini s k = Some v <->
        exists pre e post,
          ini = pre ++ e :: post
          /\ e_section e = s /\ e_key e = k /\ e_value e = v
          /\ forall e', In e' pre -> e_section e' = s -> e_key e' <> k).
Proof.
  assert (Hstep : forall e s k,
            streq (e_section e) s && streq (e_key e) k = true
            <-> e_section e = s /\ e_key e = k).
  { intros e s k. rewrite andb_true_iff, !streq_eq. tauto. }
  split.
  - intros ini s k. induction ini as [|e r IH]; cbn [sysmon_ini_get].
    + split; [intros _ e []|reflexivity].
    + destruct (streq (e_section e) s && streq (e_key e) k) eqn:E.
      * apply Hstep in E. destruct E as [Es Ek].
        split; [discriminate|]. intros H. exfalso. apply (H e); [now left|exact Es|exact Ek].
      * rewrite IH. split.
        -- intros H e' [<-|Hin] Hs Hk; [|now apply (H e')].
           assert (streq (e_section e) s && streq (e_key e) k = true)
             by (apply Hstep; auto). congruence.
        -- intros H e' Hin. apply H. now right.
  - intros ini s k v. induction ini as [|e r IH]; cbn [sysmon_ini_get].
    + split; [discriminate|]. intros (pre & e & post & H & _). destruct pre; discriminate.
    + destruct (streq (e_section e) s && streq (e_key e) k) eqn:E.
      * apply Hstep in E. destruct E as [Es Ek]. split.
        -- intros [= <-]. exists [], e, r. repeat split; auto.
        -- intros (pre & e0 & post & H & Hs & Hk & Hv & Hpre).
           destruct pre as [|p pre]; cbn in H.
           ++ injection H as He _. subst e0. now rewrite Hv.
           ++ injection H as Hp _. subst p. exfalso.
              apply (Hpre e); [now left|exact Es|exact Ek].
      * rewrite IH. split.
        -- intros (pre & e0 & post & -> & Hs & Hk & Hv & Hpre).
           exists (e :: pre), e0, post. repeat split; auto.
           intros e' [<-|Hin] Hs' Hk'; [|now apply (Hpre e')].
           assert (streq (e_section e) s && streq (e_key e) k = true)
             by (apply Hstep; auto). congruence.
        -- intros (pre & e0 & post & H & Hs & Hk & Hv & Hpre).
           destruct pre as [|p pre]; cbn in H.
           ++ injection H as He _. subst e0.
              assert (streq (e_section e) s && streq (e_key e) k = true)
                by (apply Hstep; auto). congruence.
           ++ injection H as Hp Hr. subst p r. exists pre, e0, post. repeat split; auto.
              intros e' Hin. apply Hpre. now right.
Qed.

Lemma tolower_eqb_bit (c : ascii) :
  Ascii.eqb (tolower c) "1" = Ascii.eqb c "1"
  /\ Ascii.eqb (tolower c) "0" = Ascii.eqb c "0".
Proof. destruct c as [[] [] [] [] [] [] [] []]; split; reflexivity. Qed.

Lemma strcaseeq_bit (v : string) :
  strcaseeq v "1" = streq v "1" /\ strcaseeq v "0" = streq v "0".
Proof.
  unfold strcaseeq, streq. destruct v as [|c r]; [split; reflexivity|].
  cbn [string_map String.eqb].
  change (tolower "1") with "1"%char. change (tolower "0") with "0"%char.
  destruct (tolower_eqb_bit c) as [-> ->]. destruct r; split; reflexivity.
Qed.

(** X2 — boolean configuration values.  A lookup through
    [sysmon_ini_get_bool] yields [true] when the value is, ignoring case,
    one of 1, true, yes, on; [false] when it is one of 0, false, no, off;
    and the caller's default when the key is missing or the value is
    anything else.  It never fails. *)
Theorem get_bool_spellings (ini : sysmon_ini) (section key : string) (d : bool) :
  sysmon_ini_get_bool ini section key d
  = match sysmon_ini_get ini section key with
    | None => d
    | Some v =>
        if existsb (strcaseeq v) true_spellings then true
        else if existsb (strcaseeq v) false_spellings then false
        else d
    end.
Proof.
  unfold sysmon_ini_get_bool, parse_bool.
  destruct (sysmon_ini_get ini section key) as [v|]; [|reflexivity].
  unfold true_spellings, false_spellings. cbn [existsb].
  destruct (strcaseeq_bit v) as [H1 H0]. rewrite <- H1, <- H0. clear H1 H0.
  unfold strcaseeq.
  change (string_map tolower "1") with "1". change (string_map tolower "0") with "0".
  change (string_map tolower "true") with "true".
  change (string_map tolower "false") with "false".
  change (string_map tolower "yes") with "yes". change (string_map tolower "no") with "no".
  change (string_map tolower "on") with "on". change (string_map tolower "off") with "off".
  set (l := string_map tolower v).
  destruct (String.eqb_spec l "1") as [->|]; [reflexivity|].
  destruct (String.eqb_spec l "0") as [->|]; [reflexivity|].
  destruct (String.eqb_spec l "true") as [->|]; [reflexivity|].
  destruct (String.eqb_spec l "false") as [->|]; [reflexivity|].
  destruct (String.eqb_spec l "yes") as [->|]; [reflexivity|].
  destruct (String.eqb_spec l "no") as [->|]; [reflexivity|].
  destruct (String.eqb_spec l "on") as [->|]; [reflexivity|].
  destruct (String.eqb_spec l "off") as [->|]; reflexivity.
Qed.

(** *** Numbers *)

Lemma isdigit_value (c : ascii) : isdigit c = true -> 0 <= digit_value c <= 9.
Proof.
  unfold isdigit, digit_value. intros H. apply andb_prop in H. destruct H as [H1 H2].
  apply N.leb_le in H1, H2. lia.
Qed.

Lemma digits_value_ge (s : string) :
  forall acc, all_digits s = true -> 0 <= acc -> acc <= digits_value s acc.
Proof.
  induction s as [|c r IH]; intros acc Hd Ha; cbn [digits_value]; [lia|].
  cbn [all_digits] in Hd. apply andb_prop in Hd. destruct Hd as [Hc Hr].
  pose proof (isdigit_value c Hc). specialize (IH (acc * 10 + digit_value c) Hr). lia.
Qed.

Lemma scan_digits_saturated (s : string) :
  forall any, all_digits s = true ->
    scan_digits s ULONG_MAX any true
    = (ULONG_MAX, any || match s with EmptyString => false | _ => true end, true,
       EmptyString).
Proof.
  induction s as [|c r IH]; intros any Hd; cbn [scan_digits].
  - now rewrite orb_false_r.
  - cbn [all_digits] in Hd. apply andb_prop in Hd. destruct Hd as [Hc Hr].
    rewrite Hc. cbn [orb]. rewrite (IH true Hr). now rewrite orb_true_r.
Qed.

(** Reading a run of digits: the exact value, or saturation at [ULONG_MAX]
    with the range error. *)
Lemma scan_digits_exact (s : string) :
  forall acc any, all_digits s = true -> 0 <= acc <= ULONG_MAX ->
    scan_digits s acc any false
    = if ULONG_MAX <? digits_value s acc
      then (ULONG_MAX, true, true, EmptyString)
      else (digits_value s acc,
            any || match s with EmptyString => false | _ => true end, false,
            EmptyString).
Proof.
  induction s as [|c r IH]; intros acc any Hd Ha; cbn [scan_digits digits_value].
  - destruct (Z.ltb_spec ULONG_MAX acc); [lia|]. now rewrite orb_false_r.
  - cbn [all_digits] in Hd. apply andb_prop in Hd. destruct Hd as [Hc Hr].
    rewrite Hc. cbn [orb]. pose proof (isdigit_value c Hc) as Hv.
    destruct (Z.ltb_spec ULONG_MAX (acc * 10 + digit_value c)) as [Ho|Ho].
    + rewrite (scan_digits_saturated r true Hr). cbn [orb].
      pose proof (digits_value_ge r (acc * 10 + digit_value c) Hr ltac:(lia)).
      destruct (Z.ltb_spec ULONG_MAX (digits_value r (acc * 10 + digit_value c)));
        [reflexivity|lia].
    + rewrite (IH _ true Hr) by lia. cbn [orb]. now rewrite orb_true_r.
Qed.

(** What [sysmon_ini_get_u32] makes of a non-empty value. *)
Lemma sysmon_ini_get_u32_value (ini : sysmon_ini) (section key v : string) (d : Z) :
  sysmon_ini_get ini section key = Some v -> v <> EmptyString ->
  sysmon_ini_get_u32 ini section key d
  = (let n := digits_value (snd (numeral_body v)) 0 in
     let r := if fst (numeral_body v) then wrap64 (- n) else n in
     if unsigned_numeral (snd (numeral_body v)) && (n <=? ULONG_MAX)
        && (r <=? UINT32_MAX)
     then (r, true) else (d, false)).
Proof.
  intros Hv Hne. unfold sysmon_ini_get_u32. rewrite Hv.
  destruct v as [|c0 r0]; [contradiction|]. set (v := String c0 r0) in *.
  unfold numeral_body. destruct (sign_split v) as (neg & s1 & E & Hd).
  destruct (unsigned_numeral s1) eqn:Hu.
  - unfold strtoul10. rewrite E. cbn [fst snd]. rewrite Hu. cbn [andb].
    assert (Hall : all_digits s1 = true /\ s1 <> EmptyString).
    { destruct s1; [discriminate|]. split; [exact Hu|discriminate]. }
    destruct Hall as [Hall Hs1].
    rewrite (scan_digits_exact s1 0 false Hall) by (unfold ULONG_MAX; lia).
    pose proof (digits_value_ge s1 0 Hall ltac:(lia)) as Hn.
    assert (Hany : (false || match s1 with EmptyString => false | _ => true end) = true)
      by (destruct s1; [contradiction|reflexivity]).
    rewrite Hany. clear Hany.
    set (n := digits_value s1 0) in *.
    destruct (Z.ltb_spec ULONG_MAX n) as [Ho|Ho].
    + cbn [negb su_erange orb]. destruct (Z.leb_spec n ULONG_MAX); [lia|reflexivity].
    + cbn [negb su_erange su_converted su_rest su_value streq String.eqb orb].
      destruct (Z.leb_spec n ULONG_MAX); [|lia]. cbn [andb].
      set (r := if neg then wrap64 (- n) else n).
      destruct (Z.ltb_spec UINT32_MAX r), (Z.leb_spec r UINT32_MAX);
        try reflexivity; lia.
  - rewrite (strtoul10_not_numeral v Hd). rewrite E. cbn [fst snd]. rewrite Hu. reflexivity.
Qed.

Lemma sysmon_ini_get_u32_range (ini : sysmon_ini) (section key : string) (d : Z) :
  0 <= d <= UINT32_MAX ->
  0 <= fst (sysmon_ini_get_u32 ini section key d) <= UINT32_MAX.
Proof.
  intros Hd. destruct (sysmon_ini_get ini section key) as [v|] eqn:Hv.
  - destruct v as [|c r].
    + unfold sysmon_ini_get_u32. rewrite Hv. exact Hd.
    + rewrite (sysmon_ini_get_u32_value ini section key _ d Hv) by discriminate.
      cbv zeta.
      destruct (unsigned_numeral _) eqn:Hu; cbn [andb]; [|exact Hd].
      destruct (Z.leb_spec (digits_value (snd (numeral_body (String c r))) 0) ULONG_MAX);
        cbn [andb]; [|exact Hd].
      match goal with |- context [?x <=? UINT32_MAX] =>
        destruct (Z.leb_spec x UINT32_MAX) as [Hr|Hr]; [|exact Hd] end.
      cbn [fst]. split; [|exact Hr].
      assert (Hall : all_digits (snd (numeral_body (String c r))) = true)
        by (destruct (snd (numeral_body (String c r))); [discriminate|exact Hu]).
      pose proof (digits_value_ge _ 0 Hall ltac:(lia)).
      destruct (fst (numeral_body (String c r))); [apply wrap64_range|lia].
  - unfold sysmon_ini_get_u32. rewrite Hv. exact Hd.
Qed.

(** X3 — unsigned configuration values.  For a key with a non-empty value,
    [sysmon_ini_get_u32] accepts exactly the values made of optional
    blanks, an optional sign and one or more decimal digits whose number
    fits [unsigned long] and, after [strtoul]'s negation modulo 2^64 for a
    minus sign, does not exceed 2^32 - 1; it then returns that number.
    Every other value yields the caller's default with the flag cleared.
    So "0250" and " +250" read as 250, "-0" as 0, and "4294967296", "-1",
    "12a" and "1 " are rejected. *)
Theorem ini_get_u32_accepts (ini : sysmon_ini) (section key v : string) (d : Z) :
  sysmon_ini_get ini section key = Some v -> v <> EmptyString ->
  sysmon_ini_get_u32 ini section key d
  = (let n := digits_value (snd (numeral_body v)) 0 in
     let r := if fst (numeral_body v) then wrap64 (- n) else n in
     if unsigned_numeral (snd (numeral_body v)) && (n <=? ULONG_MAX)
        && (r <=? UINT32_MAX)
     then (r, true) else (d, false)).
Proof. apply sysmon_ini_get_u32_value. Qed.

Lemma ini_get_u32_accepts_witness :
  sysmon_ini_get_u32 padded_interval_ini "sysmon" "interval_ms" 1000 = (250, true)
  /\ sysmon_ini_get_u32 [mk_entry "m" "k" "-1"] "m" "k" 7 = (7, false).
Proof.
  split.
  - exact (ini_get_u32_accepts padded_interval_ini "sysmon" "interval_ms" " +0250" 1000
             eq_refl ltac:(discriminate)).
  - exact (ini_get_u32_accepts [mk_entry "m" "k" "-1"] "m" "k" "-1" 7
             eq_refl ltac:(discriminate)).
Defined.

(** ** The polling interval *)

Lemma sysmon_create_config {World St : Type}
    (builtins : list (sysmon_module_vtable World St)) (w : World)
    (load : sysmon_result * option sysmon_ini * option string) (s : sysmon_t World St) :
  cr_sysmon (sysmon_create builtins w load) = Some s ->
  sysmon_config_load_from_ini (snd (fst load)) = (SYSMON_OK, sm_config s, None)
  /\ sm_ini s = snd (fst load).
Proof.
  unfold sysmon_create. destruct load as [[lrc lini] lerr]. cbn [fst snd].
  destruct (result_eqb lrc SYSMON_OK); cbn [negb]; [|discriminate].
  assert (Hcfg : forall rc cfg e, sysmon_config_load_from_ini lini = (rc, cfg, e) ->
                   rc = SYSMON_OK -> e = None).
  { unfold sysmon_config_load_from_ini. destruct lini as [ini|]; [|now intros ? ? ? [= <- <- <-]].
    destruct (sysmon_ini_get_u32 ini "sysmon" "interval_ms" 1000) as [i ok].
    destruct (negb ok || (i =? 0)); intros ? ? ? [= <- <- <-]; [discriminate|reflexivity]. }
  destruct (sysmon_config_load_from_ini lini) as [[crc cfg] cerr] eqn:Ec.
  destruct (result_eqb crc SYSMON_OK) eqn:Er; cbn [negb]; [|discriminate].
  apply result_eqb_eq in Er. subst crc. rewrite (Hcfg _ _ _ eq_refl eq_refl).
  unfold init_modules. cbn [sm_ini sm_config sm_last_error].
  destruct builtins as [|vt rest]; [cbn; discriminate|].
  destruct (init_loop w _ (vt :: rest)) as [[rc ms] e].
  destruct (result_eqb rc SYSMON_OK); cbn [negb]; [|discriminate].
  cbn [cr_sysmon]. intros [= <-]. split; reflexivity.
Qed.


(** ** Engines built from the registry *)

Lemma cpu_poll_outcome (w : os_world) (st : cpu_state) (now_ms : Z) (r : bool)
    (b : sysmon_snapshot_builder) :
  poll_outcome "cpu" SYSMON_ERR_NOT_SUPPORTED (CpuState st) b
    (cpu_poll w (Some (CpuState st)) now_ms r b).
Proof.
  unfold poll_outcome, cpu_poll.
  destruct (r || negb (cpu_has_prev st)); [destruct (cpu_refresh w st) as [st'|msg]|].
  - left. destruct (cpu_emit_metrics st' b) as [cap ->]. cbn.
    repeat split. exists (CpuState st'), (cpu_metrics st').
    repeat split. unfold cpu_metrics. discriminate.
  - right. cbn. repeat split. now exists msg.
  - left. destruct (cpu_emit_metrics st b) as [cap ->]. cbn.
    repeat split. exists (CpuState st), (cpu_metrics st).
    repeat split. unfold cpu_metrics. discriminate.
Qed.

Lemma ram_poll_outcome (w : os_world) (st : ram_state) (now_ms : Z) (r : bool)
    (b : sysmon_snapshot_builder) :
  poll_outcome "ram" SYSMON_ERR_NOT_SUPPORTED (RamState st) b
    (ram_poll w (Some (RamState st)) now_ms r b).
Proof.
  unfold poll_outcome, ram_poll.
  destruct (r || negb (ram_has_data st)); [destruct (ram_refresh w st) as [st'|msg]|].
  - left. destruct (ram_emit_metrics st' b) as [cap ->]. cbn.
    repeat split. exists (RamState st'), (ram_metrics st').
    repeat split. unfold ram_metrics. discriminate.
  - right. cbn. repeat split. now exists msg.
  - left. destruct (ram_emit_metrics st b) as [cap ->]. cbn.
    repeat split. exists (RamState st), (ram_metrics st).
    repeat split. unfold ram_metrics. discriminate.
Qed.

Lemma battery_poll_outcome (w : os_world) (st : battery_state) (now_ms : Z) (r : bool)
    (b : sysmon_snapshot_builder) :
  poll_outcome "battery" SYSMON_ERR_NOT_SUPPORTED (BatteryState st) b
    (battery_poll w (Some (BatteryState st)) now_ms r b).
Proof.
  unfold poll_outcome, battery_poll.
  destruct (r || negb (bat_has_data st)); [destruct (battery_refresh w st) as [st'|msg]|].
  - left. destruct (battery_emit_metrics st' b) as [cap ->]. cbn.
    repeat split. exists (BatteryState st'), (battery_metrics st').
    repeat split. unfold battery_metrics. discriminate.
  - right. cbn. repeat split. now exists msg.
  - left. destruct (battery_emit_metrics st b) as [cap ->]. cbn.
    repeat split. exists (BatteryState st), (battery_metrics st).
    repeat split. unfold battery_metrics. discriminate.
Qed.

Lemma network_poll_outcome (w : os_world) (st : network_state) (now_ms : Z) (r : bool)
    (b : sysmon_snapshot_builder) :
  poll_outcome "network" SYSMON_ERR_IO (NetworkState st) b
    (network_poll w (Some (NetworkState st)) now_ms r b).
Proof.
  unfold poll_outcome, network_poll.
  destruct (r || negb (net_has_data st));
    [destruct (network_refresh w now_ms st) as [st'|msg]|].
  - left. destruct (network_emit_metrics st' b) as [cap ->]. cbn.
    repeat split. exists (NetworkState st'), (network_metrics st').
    repeat split. unfold network_metrics. discriminate.
  - right. cbn. repeat split. now exists msg.
  - left. destruct (network_emit_metrics st b) as [cap ->]. cbn.
    repeat split. exists (NetworkState st), (network_metrics st).
    repeat split. unfold network_metrics. discriminate.
Qed.

Lemma storage_poll_outcome (w : os_world) (st : storage_state) (now_ms : Z) (r : bool)
    (b : sysmon_snapshot_builder) :
  poll_outcome "storage" SYSMON_ERR_IO (StorageState st) b
    (storage_poll w (Some (StorageState st)) now_ms r b).
Proof.
  unfold poll_outcome, storage_poll.
  destruct (r || negb (sto_has_data st)); [destruct (storage_refresh w st) as [st'|msg]|].
  - left. destruct (storage_emit_metrics st' b) as [cap ->]. cbn.
    repeat split. exists (StorageState st'), (storage_metrics st').
    repeat split. unfold storage_metrics. discriminate.
  - right. cbn. repeat split. now exists msg.
  - left. destruct (storage_emit_metrics st b) as [cap ->]. cbn.
    repeat split. exists (StorageState st), (storage_metrics st).
    repeat split. unfold storage_metrics. discriminate.
Qed.

(** Every collector, called on a state of its own kind, either succeeds
    and appends records, or fails with its read-failure code and a message
    and touches neither the state nor the builder. *)
Lemma collector_poll_outcome (vt : sysmon_module_vtable os_world module_state) :
  In vt all_collectors ->
  exists poll fail_rc,
    vt_poll vt = Some poll
    /\ (fail_rc = SYSMON_ERR_NOT_SUPPORTED \/ fail_rc = SYSMON_ERR_IO)
    /\ forall w st now_ms r b,
         state_of_module (vt_name vt) st = true ->
         poll_outcome (vt_name vt) fail_rc st b (poll w (Some st) now_ms r b).
Proof.
  intros [<-|[<-|[<-|[<-|[<-|[]]]]]].
  - exists cpu_poll, SYSMON_ERR_NOT_SUPPORTED. split; [reflexivity|]. split; [now left|].
    intros w [st| | | |] now_ms r b Hk; cbn in Hk; try discriminate Hk.
    apply cpu_poll_outcome.
  - exists ram_poll, SYSMON_ERR_NOT_SUPPORTED. split; [reflexivity|]. split; [now left|].
    intros w [|st| | |] now_ms r b Hk; cbn in Hk; try discriminate Hk.
    apply ram_poll_outcome.
  - exists battery_poll, SYSMON_ERR_NOT_SUPPORTED. split; [reflexivity|].
    split; [now left|].
    intros w [| |st| |] now_ms r b Hk; cbn in Hk; try discriminate Hk.
    apply battery_poll_outcome.
  - exists network_poll, SYSMON_ERR_IO. split; [reflexivity|]. split; [now right|].
    intros w [| | |st|] now_ms r b Hk; cbn in Hk; try discriminate Hk.
    apply network_poll_outcome.
  - exists storage_poll, SYSMON_ERR_IO. split; [reflexivity|]. split; [now right|].
    intros w [| | | |st] now_ms r b Hk; cbn in Hk; try discriminate Hk.
    apply storage_poll_outcome.
Qed.

Lemma collector_create_outcome (vt : sysmon_module_vtable os_world module_state) :
  In vt all_collectors ->
  forall w ini section, create_outcome (vt_name vt) (vt_create vt w ini section).
Proof.
  unfold create_outcome.
  intros [<-|[<-|[<-|[<-|[<-|[]]]]]] w ini section; cbn [vt_create vt_name].
  - left. cbn. split; [reflexivity|]. eexists. split; reflexivity.
  - unfold sysmon_ram_module, ram_create. cbn [vt_create vt_name].
    destruct (read_total_mem w) as [t|msg]; cbn.
    + left. split; [reflexivity|]. eexists. split; reflexivity.
    + right. repeat split. now exists msg.
  - unfold sysmon_battery_module, battery_create. cbn [vt_create vt_name].
    destruct (os_battery_dir w) as [t|msg]; cbn.
    + left. split; [reflexivity|]. eexists. split; reflexivity.
    + right. repeat split. now exists msg.
  - unfold sysmon_network_module, network_create. cbn [vt_create vt_name].
    destruct (read_interface_bytes w _ _) as [[[rx tx] sel]|msg]; cbn.
    + left. split; [reflexivity|]. eexists. split; reflexivity.
    + right. repeat split. now exists msg.
  - unfold sysmon_storage_module, storage_create. cbn [vt_create vt_name].
    destruct (read_storage_stats w _) as [t|msg]; cbn.
    + left. split; [reflexivity|]. eexists. split; reflexivity.
    + right. repeat split. now exists msg.
Qed.

Section RoundFacts.

Context {World St : Type}.

Implicit Types (inst : sysmon_module_instance World St)
               (ms : list (sysmon_module_instance World St))
               (b : sysmon_snapshot_builder) (w : World) (c : poll_call).

(** Each element after a pass of the loop is the element before it, or
    the result of one call on it. *)
Lemma poll_modules_steps w (now_ms : Z) ms :
  forall i b,
    Forall2 (fun a a' => a' = a
                         \/ exists k c b0 b1, engine_step w now_ms k a b0 a' c b1)
            ms (lr_modules (poll_modules w now_ms i ms b)).
Proof.
  assert (Hrefl : forall l : list (sysmon_module_instance World St),
            Forall2 (fun a a' => a' = a
                         \/ exists k c b0 b1, engine_step w now_ms k a b0 a' c b1) l l).
  { induction l; constructor; auto. }
  induction ms as [|a rest IH]; intros i b; cbn [poll_modules]; [constructor|].
  pose proof (poll_instance_spec w now_ms i a b) as Hs.
  destruct (poll_instance w now_ms i a b) as [|inst' b' c0|inst' b' c0 err];
    cbn [lr_modules]; constructor; auto.
  - right. destruct Hs as [Hs _]. now exists i, c0, b, b'.
  - right. destruct Hs as [Hs _]. now exists i, c0, b, b'.
Qed.

(** Without an abort, the calls of a pass are the pollable elements, in
    array order. *)
Lemma poll_modules_names w (now_ms : Z) ms :
  forall i b,
    lr_abort (poll_modules w now_ms i ms b) = None ->
    map pc_name (lr_calls (poll_modules w now_ms i ms b))
    = flat_map (fun inst =>
                  match pollable inst, inst_vtable inst with
                  | true, Some vt => [vt_name vt]
                  | _, _ => []
                  end) ms.
Proof.
  induction ms as [|a rest IH]; intros i b; cbn [poll_modules flat_map]; [reflexivity|].
  pose proof (poll_instance_spec w now_ms i a b) as Hs.
  destruct (poll_instance w now_ms i a b) as [|inst' b' c0|inst' b' c0 err];
    cbn [lr_calls lr_abort map].
  - intros Ha. rewrite Hs. cbn [app]. now apply IH.
  - intros Ha. destruct Hs as [(vt & poll & He & Hv & Hp & Hc & _) _].
    cbv zeta in Hc. unfold pollable. rewrite He, Hv, Hp. cbn [andb app].
    rewrite Hc at 1. cbn [pc_name]. f_equal. now apply IH.
  - discriminate.
Qed.

End RoundFacts.

(** A round on a constructed engine: every call is made on a state of the
    module's kind and ends in one of the two ways of [poll_outcome]. *)
Lemma engine_ready_call (ck : sysmon_clock) (w : os_world)
    (s : sysmon_t os_world module_state) (c : poll_call) :
  engine_ready s ->
  In c (pr_calls (sysmon_poll ck w s)) ->
  exists vt,
    In vt sysmon_builtin_modules /\ pc_name c = vt_name vt
    /\ ((pc_rc c = SYSMON_OK /\ pc_error c = None /\ pc_added c <> [])
        \/ ((pc_rc c = SYSMON_ERR_NOT_SUPPORTED \/ pc_rc c = SYSMON_ERR_IO)
            /\ pc_added c = [] /\ exists msg, pc_error c = Some msg)).
Proof.
  intros Hready Hc. destruct (sysmon_poll_modules ck w s) as (_ & Hcalls & _).
  rewrite Hcalls in Hc.
  destruct (poll_modules_call _ _ _ _ _ _ Hc)
    as (k & inst & inst' & b0 & b1 & _ & Hk & _ & (vt & poll & Hen & Hv & Hp & Hcall & _)).
  cbv zeta in Hcall.
  unfold engine_ready in Hready. rewrite Forall_forall in Hready.
  destruct (Hready inst (nth_error_In _ _ Hk)) as (vt' & Hv' & Hin & Hst).
  rewrite Hv in Hv'. injection Hv' as <-. rewrite Hen in Hst.
  destruct Hst as (st & Hst & Hkind).
  destruct (collector_poll_outcome vt) as (poll' & frc & Hp' & Hfrc & Hout).
  { unfold all_collectors. apply in_or_app. now left. }
  rewrite Hp in Hp'. injection Hp' as <-.
  exists vt. split; [exact Hin|]. split; [rewrite Hcall; reflexivity|].
  rewrite Hst in Hcall.
  specialize (Hout w st (fst (sysmon_now_ms ck)) (refresh_due inst (fst (sysmon_now_ms ck)))
                b0 Hkind).
  destruct Hout as [(Hrc & He & st' & added & _ & _ & Hne & Hm)|(Hrc & _ & Hb & msg & He)].
  - left. rewrite Hcall. cbn [pc_rc pc_error pc_added]. rewrite Hm.
    unfold b_count. rewrite skipn_app_exact. auto.
  - right. rewrite Hcall. cbn [pc_rc pc_error pc_added]. rewrite Hb.
    unfold b_count. rewrite skipn_all. split; [|split; [reflexivity|now exists msg]].
    rewrite Hrc. destruct Hfrc as [-> | ->]; auto.
Qed.

Lemma engine_ready_round (ck : sysmon_clock) (w : os_world)
    (s : sysmon_t os_world module_state) :
  engine_ready s -> engine_ready (pr_sysmon (sysmon_poll ck w s)).
Proof.
  unfold engine_ready. destruct (sysmon_poll_modules ck w s) as (-> & _).
  apply Forall2_transfer with (1 := poll_modules_steps w _ (sm_modules s) 0 _).
  intros a a' [->|(k & c & b0 & b1 & vt & poll & Hen & Hv & Hp & _ & Hinst & _)] Hr;
    [exact Hr|].
  cbv zeta in Hinst. destruct Hr as (vt' & Hv' & Hin & Hst).
  rewrite Hv in Hv'. injection Hv' as <-. rewrite Hen in Hst.
  destruct Hst as (st & Hst & Hkind).
  destruct (collector_poll_outcome vt) as (poll' & frc & Hp' & _ & Hout).
  { unfold all_collectors. apply in_or_app. now left. }
  rewrite Hp in Hp'. injection Hp' as <-.
  exists vt. rewrite Hinst. cbn [inst_vtable inst_enabled inst_state].
  split; [reflexivity|]. split; [exact Hin|]. rewrite Hst.
  destruct (Hout w st (fst (sysmon_now_ms ck))
              (refresh_due a (fst (sysmon_now_ms ck))) b0 Hkind)
    as [(_ & _ & st' & added & Hs' & Hk' & _)|(_ & Hs' & _)].
  - now exists st'.
  - now exists st.
Qed.

Lemma sysmon_ini_get_u32_not_ok (ini : sysmon_ini) (section key : string) (d : Z) :
  snd (sysmon_ini_get_u32 ini section key d) = false ->
  exists v, sysmon_ini_get ini section key = Some v /\ v <> EmptyString.
Proof.
  unfold sysmon_ini_get_u32.
  destruct (sysmon_ini_get ini section key) as [[|c r]|]; [discriminate| |discriminate].
  intros _. eexists. split; [reflexivity|discriminate].
Qed.

(** The loop of [init_modules] over registry entries ends in one of two
    ways: every element is ready, or a refresh_ms value was rejected. *)
Lemma init_loop_ready (w : os_world) (ini : sysmon_ini)
    (bs : list (sysmon_module_vtable os_world module_state)) :
  (forall vt, In vt bs -> In vt sysmon_builtin_modules) ->
  (fst (fst (init_loop w ini bs)) = SYSMON_OK
   /\ Forall instance_ready (snd (fst (init_loop w ini bs))))
  \/ (fst (fst (init_loop w ini bs)) = SYSMON_ERR_PARSE
      /\ snd (init_loop w ini bs) = Some "invalid refresh_ms (must be uint32)"
      /\ exists vt v,
           In vt bs
           /\ sysmon_ini_get ini (module_section (vt_name vt)) "refresh_ms" = Some v
           /\ v <> EmptyString).
Proof.
  induction bs as [|vt rest IH]; intros Hreg; cbn [init_loop].
  - left. split; [reflexivity|constructor].
  - pose proof (sysmon_ini_get_u32_not_ok ini (module_section (vt_name vt)) "refresh_ms" 0)
      as Hbad.
    destruct (sysmon_ini_get_u32 ini _ "refresh_ms" 0) as [r ok]. cbn [snd] in Hbad.
    specialize (IH (fun v Hv => Hreg v (or_intror Hv))).
    assert (Hcont : forall i, instance_ready i ->
              (fst (fst (let '(rc, l, e) := init_loop w ini rest in (rc, i :: l, e)))
               = SYSMON_OK
               /\ Forall instance_ready
                    (snd (fst (let '(rc, l, e) := init_loop w ini rest in (rc, i :: l, e)))))
              \/ (fst (fst (let '(rc, l, e) := init_loop w ini rest in (rc, i :: l, e)))
                  = SYSMON_ERR_PARSE
                  /\ snd (let '(rc, l, e) := init_loop w ini rest in (rc, i :: l, e))
                     = Some "invalid refresh_ms (must be uint32)"
                  /\ exists vt0 v,
                       In vt0 (vt :: rest)
                       /\ sysmon_ini_get ini (module_section (vt_name vt0)) "refresh_ms"
                          = Some v
                       /\ v <> EmptyString)).
    { intros i Hi. destruct (init_loop w ini rest) as [[rc l] e]. cbn [fst snd] in *.
      destruct IH as [[-> Hl]|(-> & -> & vt0 & v & Hin & Hv & Hne)].
      - left. split; [reflexivity|now constructor].
      - right. split; [reflexivity|]. split; [reflexivity|].
        exists vt0, v. split; [now right|auto]. }
    destruct ok; cbn [negb].
    + destruct (sysmon_ini_get_bool ini _ "enabled" true); cbn [negb].
      * destruct (collector_create_outcome vt) with (w := w) (ini := ini)
          (section := module_section (vt_name vt))
          as [(Hrc & st & Hst & Hk)|(Hrc & Hst & _)].
        { unfold all_collectors. apply in_or_app. left. apply Hreg. now left. }
        -- rewrite Hrc. cbn [result_eqb sysmon_result_code Z.eqb negb].
           apply Hcont. exists vt. cbn [inst_vtable inst_enabled inst_state].
           split; [reflexivity|]. split; [apply Hreg; now left|]. now exists st.
        -- rewrite Hrc. cbn [result_eqb sysmon_result_code Z.eqb negb].
           apply Hcont. exists vt. cbn [inst_vtable inst_enabled inst_state].
           split; [reflexivity|]. split; [apply Hreg; now left|exact Hst].
      * apply Hcont. exists vt. cbn [inst_vtable inst_enabled inst_state].
        split; [reflexivity|]. split; [apply Hreg; now left|reflexivity].
    + right. cbn [fst snd]. split; [reflexivity|]. split; [reflexivity|].
      destruct (Hbad eq_refl) as (v & Hv & Hne). exists vt, v. split; [now left|auto].
Qed.

Lemma destroy_ready (ms : list (sysmon_module_instance os_world module_state)) :
  Forall instance_ready ms ->
  map fst (flat_map destroy_instance ms)
  = flat_map (fun inst =>
                match inst_enabled inst, inst_vtable inst with
                | true, Some vt => [vt_name vt]
                | _, _ => []
                end) ms.
Proof.
  induction 1 as [|inst ms (vt & Hv & Hin & Hst) _ IH]; [reflexivity|].
  cbn [flat_map]. rewrite map_app, IH. f_equal.
  unfold destroy_instance. rewrite Hv.
  destruct (inst_enabled inst).
  - destruct Hst as (st & -> & _).
    destruct Hin as [<-|[<-|[<-|[<-|[]]]]]; reflexivity.
  - now rewrite Hst.
Qed.

Lemma enabled_names_round {World St : Type} (ck : sysmon_clock) (w : World)
    (s : sysmon_t World St) :
  enabled_names (pr_sysmon (sysmon_poll ck w s)) = enabled_names s.
Proof.
  unfold enabled_names. destruct (sysmon_poll_modules ck w s) as (-> & _).
  pose proof (poll_modules_static w (fst (sysmon_now_ms ck)) (sm_modules s) 0
                (mk_builder [] 0)) as H.
  induction H as [|a a' l l' (Hv & He & _) _ IH]; [reflexivity|].
  cbn [flat_map]. now rewrite Hv, He, IH.
Qed.

Lemma engine_ready_rounds (s0 : sysmon_t os_world module_state)
    (P : poll_result os_world module_state -> Prop) :
  (forall ck w s, engine_ready s -> enabled_names s = enabled_names s0 ->
                  P (sysmon_poll ck w s)) ->
  forall ws ck s R,
    engine_ready s -> enabled_names s = enabled_names s0 ->
    In R (poll_rounds ck ws s) -> P R.
Proof.
  intros HP. induction ws as [|w ws IH]; intros ck s R Hr Hn; cbn; [intros []|].
  intros [<-|Hin]; [now apply HP|].
  apply (IH _ _ _ (engine_ready_round ck w s Hr)) in Hin; [exact Hin|].
  now rewrite enabled_names_round.
Qed.

(** A round on a ready engine never aborts. *)
Lemma engine_ready_poll (ck : sysmon_clock) (w : os_world)
    (s : sysmon_t os_world module_state) :
  engine_ready s ->
  pr_rc (sysmon_poll ck w s) = SYSMON_OK
  /\ pr_snapshot (sysmon_poll ck w s)
     = Some (mk_snapshot (flat_map call_metrics (pr_calls (sysmon_poll ck w s))))
  /\ map pc_name (pr_calls (sysmon_poll ck w s)) = enabled_names s
  /\ pr_released (sysmon_poll ck w s) = []
  /\ sm_last_error (pr_sysmon (sysmon_poll ck w s)) = sm_last_error s.
Proof.
  intros Hready.
  assert (Happ : Forall instance_append_only (sm_modules s)).
  { unfold engine_ready in Hready. rewrite Forall_forall in *. intros inst Hin.
    destruct (Hready inst Hin) as (vt & Hv & Hreg & _).
    intros vt' poll Hv' Hp. rewrite Hv in Hv'. injection Hv' as <-.
    destruct (all_collectors_ok vt) as (poll' & Hp' & Hok & _).
    { unfold all_collectors. apply in_or_app. now left. }
    rewrite Hp in Hp'. injection Hp' as <-. exact Hok. }
  pose proof (fun c => engine_ready_call ck w s c Hready) as Hcall.
  destruct (sysmon_poll_modules ck w s) as (_ & Hcalls & _).
  pose proof (sysmon_poll_unfold ck w s) as Hu. cbv zeta in Hu.
  set (now_ms := fst (sysmon_now_ms ck)) in *.
  set (r := poll_modules w now_ms 0 (sm_modules s) (mk_builder [] 0)) in *.
  pose proof (poll_modules_abort w now_ms (sm_modules s) 0 (mk_builder [] 0)) as Hab.
  fold r in Hab.
  pose proof (poll_modules_metrics w now_ms (sm_modules s) Happ 0 (mk_builder [] 0)) as Hm.
  fold r in Hm. cbn [b_metrics app] in Hm.
  pose proof (poll_modules_names w now_ms (sm_modules s) 0 (mk_builder [] 0)) as Hn.
  fold r in Hn.
  destruct (lr_abort r) as [err|] eqn:Eab.
  - exfalso. destruct Hab as (cs & c & Hcs & Hoom & _).
    destruct (Hcall c) as (vt & _ & _ & [(Hrc & _)|([Hrc|Hrc] & _)]); try congruence.
    rewrite Hcalls, Hcs. apply in_or_app. right. now left.
  - rewrite Hu. cbn. rewrite Hm. repeat split.
    rewrite (Hn eq_refl). unfold enabled_names, engine_ready in *.
    clear - Hready. induction Hready as [|inst ms (vt & Hv & Hin & Hst) _ IH];
      [reflexivity|].
    cbn [flat_map]. rewrite IH. f_equal. unfold pollable. rewrite Hv.
    destruct (collector_poll_outcome vt) as (poll & _ & -> & _).
    { unfold all_collectors. apply in_or_app. now left. }
    now destruct (inst_enabled inst).
Qed.

Lemma engine_ready_registry (s : sysmon_t os_world module_state) :
  engine_ready s -> registry_engine_without EmptyString s.
Proof.
  unfold engine_ready, registry_engine_without. rewrite !Forall_forall.
  intros H inst Hin. destruct (H inst Hin) as (vt & Hv & Hreg & _).
  exists vt. split; [exact Hv|]. split; [exact Hreg|].
  intros Hname. exfalso. destruct Hreg as [<-|[<-|[<-|[<-|[]]]]]; discriminate.
Qed.

Lemma sysmon_create_last_error {World St : Type}
    (builtins : list (sysmon_module_vtable World St)) (w : World)
    (load : sysmon_result * option sysmon_ini * option string) (s : sysmon_t World St) :
  cr_sysmon (sysmon_create builtins w load) = Some s -> sm_last_error s = None.
Proof.
  unfold sysmon_create. destruct load as [[lrc lini] lerr].
  destruct (result_eqb lrc SYSMON_OK); cbn [negb]; [|discriminate].
  destruct (sysmon_config_load_from_ini lini) as [[crc cfg] cerr].
  destruct (result_eqb crc SYSMON_OK); cbn [negb]; [|discriminate].
  unfold init_modules. cbn [sm_ini sm_config sm_last_error].
  destruct builtins as [|vt rest]; [cbn; discriminate|].
  destruct (init_loop w _ (vt :: rest)) as [[rc ms] e] eqn:Ei.
  destruct (result_eqb rc SYSMON_OK) eqn:Er; cbn [negb]; [|discriminate].
  apply result_eqb_eq in Er. subst rc.
  destruct (init_loop_ok _ _ _ _ _ Ei) as [-> _].
  cbn [cr_sysmon]. now intros [= <-].
Qed.

Lemma registry_create_ready (w : os_world)
    (load : sysmon_result * option sysmon_ini * option string)
    (s : sysmon_t os_world module_state) :
  cr_sysmon (sysmon_create sysmon_builtin_modules w load) = Some s ->
  engine_ready s /\ sm_last_error s = None.
Proof.
  intros Hs. split; [|exact (sysmon_create_last_error _ _ _ _ Hs)].
  destruct (sysmon_create_some _ _ _ _ Hs) as (lini & lerr & _ & Hi & _).
  pose proof (init_loop_ready w (match lini with Some i => i | None => [] end)
                sysmon_builtin_modules (fun vt H => H)) as Hl.
  rewrite Hi in Hl. cbn [fst snd] in Hl.
  destruct Hl as [[_ H]|[H _]]; [exact H|discriminate].
Qed.




Lemma starts_with_app (p r : string) : starts_with p (p ++ r)%string = true.
Proof.
  unfold starts_with. induction p as [|a p IH]; cbn; [now destruct r|].
  destruct (ascii_dec a a) as [_|H]; [exact IH|now elim H].
Qed.

Lemma prefix_metric_name (p : string) (m : sysmon_metric) :
  metric_name_has_prefix p m = true ->
  exists n, m_name m = Some n /\ starts_with p n = true.
Proof.
  unfold metric_name_has_prefix. destruct (m_name m) as [n|]; [|discriminate].
  intros H. now exists n.
Qed.

Lemma namespace_not_module (p n : string) :
  In p ["cpu."; "ram."; "battery."; "network."]%string ->
  starts_with p n = true -> starts_with "module." n = false.
Proof.
  intros Hp H. apply prefix_split in H. destruct H as [r ->].
  destruct Hp as [<-|[<-|[<-|[<-|[]]]]]; reflexivity.
Qed.




(** ** The clock *)

Lemma sysmon_now_ms_exact (ck : sysmon_clock) (sec nsec : Z) :
  ck_source ck (ck_reads ck) = Some (sec, nsec) ->
  0 <= sec -> 0 <= nsec < 1000000000 -> sec * 1000 + 999 < UINT64_MOD ->
  fst (sysmon_now_ms ck) = sec * 1000 + nsec / 1000000.
Proof.
  intros Hsrc Hs Hn Hb. unfold sysmon_now_ms. rewrite Hsrc. cbn [fst].
  unfold wrap64, UINT64_MOD in *.
  assert (0 <= nsec / 1000000 <= 999) by (Z.div_mod_to_equations; lia).
  rewrite (Z.mod_small sec) by lia. rewrite (Z.mod_small nsec) by lia.
  apply Z.mod_small. lia.
Qed.

(** X9 — the millisecond clock.  For a reading [(tv_sec, tv_nsec)] of the
    monotonic clock whose millisecond count fits 64 bits, [sysmon_now_ms]
    is [tv_sec * 1000 + tv_nsec / 1000000]; two successive readings that
    do not go back in time give millisecond values that do not go back
    either; a failed reading gives 0. *)
Theorem clock_readings_monotone (ck : sysmon_clock) (s1 n1 s2 n2 : Z) :
  ck_source ck (ck_reads ck) = Some (s1, n1) ->
  ck_source ck (S (ck_reads ck)) = Some (s2, n2) ->
  0 <= s1 -> 0 <= n1 < 1000000000 -> 0 <= n2 < 1000000000 ->
  s2 * 1000 + 999 < UINT64_MOD ->
  s1 < s2 \/ (s1 = s2 /\ n1 <= n2) ->
  fst (sysmon_now_ms ck) = s1 * 1000 + n1 / 1000000
  /\ fst (sysmon_now_ms (snd (sysmon_now_ms ck))) = s2 * 1000 + n2 / 1000000
  /\ fst (sysmon_now_ms ck) <= fst (sysmon_now_ms (snd (sysmon_now_ms ck)))
  /\ forall ck', ck_source ck' (ck_reads ck') = None -> fst (sysmon_now_ms ck') = 0.
Proof.
  intros H1 H2 Hs1 Hn1 Hn2 Hb Hord.
  rewrite (sysmon_now_ms_exact ck s1 n1 H1 Hs1 Hn1) by lia.
  destruct (sysmon_now_ms_reads ck) as [Hr Hsrc].
  rewrite (sysmon_now_ms_exact (snd (sysmon_now_ms ck)) s2 n2);
    [|rewrite Hr, Hsrc; exact H2|lia|exact Hn2|exact Hb].
  split; [reflexivity|]. split; [reflexivity|]. split.
  - Z.div_mod_to_equations. lia.
  - intros ck' Hnone. unfold sysmon_now_ms. now rewrite Hnone.
Qed.

Lemma clock_readings_monotone_witness :
  fst (sysmon_now_ms steady_clock) = 100000
  /\ fst (sysmon_now_ms (snd (sysmon_now_ms steady_clock))) = 101000.
Proof.
  destruct (clock_readings_monotone steady_clock 100 0 101 0 eq_refl eq_refl
              ltac:(lia) ltac:(lia) ltac:(lia) ltac:(unfold UINT64_MOD; lia)
              ltac:(lia)) as (H1 & H2 & _).
  split; [exact H1|exact H2].
Defined.

(** ** The snapshot builder *)

Lemma run_call_outcome (b : sysmon_snapshot_builder) (c : builder_call) :
  exists cap,
    run_call b c
    = (match call_name c with Some _ => SYSMON_OK | None => SYSMON_ERR_INVALID_ARGUMENT end,
       mk_builder (b_metrics b ++ call_record c) cap)
    /\ (call_name c = None -> cap = b_capacity b).
Proof.
  destruct c as [[n|] u v|[n|] u v|[n|] u v|[n|] u v]; cbn [run_call call_name call_record];
    try (exists (b_capacity b); rewrite app_nil_r; destruct b; split; reflexivity);
    unfold sysmon_snapshot_builder_add_double, sysmon_snapshot_builder_add_i64,
      sysmon_snapshot_builder_add_u64, sysmon_snapshot_builder_add_string;
    match goal with |- context [add_with_value b (Some n) u ?t ?x] =>
      destruct (add_with_value_some b n u t x) as [cap ->] end;
    (exists cap; split; [reflexivity|discriminate]).
Qed.

(** With every allocation granted: a call without a name returns the
    invalid-argument code and leaves no trace, every other call returns OK
    and appends its record. *)
Lemma run_calls_records (b : sysmon_snapshot_builder)
    (cs : list builder_call) :
  fst (run_calls b cs)
  = map (fun c => match call_name c with
                  | Some _ => SYSMON_OK
                  | None => SYSMON_ERR_INVALID_ARGUMENT
                  end) cs
  /\ b_metrics (snd (run_calls b cs)) = b_metrics b ++ flat_map call_record cs
  /\ ((forall c, In c cs -> call_name c = None) -> snd (run_calls b cs) = b).
Proof.
  revert b. induction cs as [|c cs IH]; intros b; cbn [run_calls map flat_map].
  - rewrite app_nil_r. auto.
  - destruct (run_call_outcome b c) as (cap & -> & Hcap).
    specialize (IH (mk_builder (b_metrics b ++ call_record c) cap)).
    destruct (run_calls _ cs) as [rcs b2]. cbn [fst snd b_metrics] in *.
    destruct IH as (H1 & H2 & H3).
    split; [now rewrite H1|]. split; [now rewrite H2, app_assoc|].
    intros Hall. rewrite H3 by (intros c' Hc'; apply Hall; now right).
    specialize (Hall c (or_introl eq_refl)). rewrite (Hcap Hall).
    destruct c as [[n|] u v|[n|] u v|[n|] u v|[n|] u v]; try discriminate;
      cbn [call_record]; rewrite app_nil_r; now destruct b.
Qed.

(** *** The [add] functions when an allocation can fail *)

Lemma request_granted (h : heap_plan) :
  all_granted h -> fst (request h) = true /\ all_granted (snd (request h)).
Proof.
  intros H. destruct H as [|ok r Hok Hr]; cbn; [split; [reflexivity|constructor]|].
  now split.
Qed.

Lemma ensure_capacity_h_cases (h : heap_plan) (b : sysmon_snapshot_builder) :
  exists h',
    (ensure_capacity_h h b = (SYSMON_OK, snd (ensure_capacity b), h')
     /\ (all_granted h -> all_granted h'))
    \/ (ensure_capacity_h h b = (SYSMON_ERR_OUT_OF_MEMORY, b, h')
        /\ ~ all_granted h).
Proof.
  unfold ensure_capacity_h, ensure_capacity.
  destruct (b_count b <? b_capacity b)%nat; [exists h; left; now split|].
  destruct h as [|[|] r]; cbn [request].
  - exists []. left. now split.
  - exists r. left. split; [reflexivity|]. intros H. now inversion H.
  - exists (dropped_error r). right. split; [reflexivity|].
    intros H. inversion H. discriminate.
Qed.

Lemma add_common_h_cases (h : heap_plan) (b : sysmon_snapshot_builder) (n : string)
    (u : option string) (t : sysmon_metric_type) :
  exists h',
    (add_common_h h b (Some n) u t = (SYSMON_OK, snd (add_common b (Some n) u t), h')
     /\ (all_granted h -> all_granted h'))
    \/ (exists b',
          add_common_h h b (Some n) u t = (SYSMON_ERR_OUT_OF_MEMORY, b', h')
          /\ b_metrics b' = b_metrics b
          /\ ~ all_granted h).
Proof.
  unfold add_common_h, add_common.
  destruct (ensure_capacity_h_cases h b) as (h1 & [(-> & Hg1)|(-> & Hn)]).
  2:{ exists h1. right. exists b. cbn. auto. }
  assert (Hm : b_metrics (snd (ensure_capacity b)) = b_metrics b).
  { unfold ensure_capacity. now destruct (b_count b <? b_capacity b)%nat. }
  assert (He : ensure_capacity b = (SYSMON_OK, snd (ensure_capacity b))).
  { unfold ensure_capacity. now destruct (b_count b <? b_capacity b)%nat. }
  rewrite He. cbn [result_eqb sysmon_result_code Z.eqb negb fst snd].
  destruct (request h1) as [g2 h2] eqn:E2.
  assert (Hg2 : all_granted h1 -> g2 = true /\ all_granted h2).
  { intros H. pose proof (request_granted h1 H) as Hr. now rewrite E2 in Hr. }
  destruct u as [u|].
  - destruct (request h2) as [g3 h3] eqn:E3.
    assert (Hg3 : all_granted h2 -> g3 = true /\ all_granted h3).
    { intros H. pose proof (request_granted h2 H) as Hr. now rewrite E3 in Hr. }
    destruct g2, g3; cbn [negb orb].
    + exists h3. left. split; [reflexivity|]. intros H. now apply Hg3, Hg2, Hg1.
    + exists (dropped_error h3). right. eexists. split; [reflexivity|].
      split; [exact Hm|]. intros H. destruct (Hg3 (proj2 (Hg2 (Hg1 H)))). discriminate.
    + exists (dropped_error h3). right. eexists. split; [reflexivity|].
      split; [exact Hm|]. intros H. destruct (Hg2 (Hg1 H)). discriminate.
    + exists (dropped_error h3). right. eexists. split; [reflexivity|].
      split; [exact Hm|]. intros H. destruct (Hg2 (Hg1 H)). discriminate.
  - destruct g2; cbn [negb orb].
    + exists h2. left. split; [reflexivity|]. intros H. now apply Hg2, Hg1.
    + exists (dropped_error h2). right. eexists. split; [reflexivity|].
      split; [exact Hm|]. intros H. destruct (Hg2 (Hg1 H)). discriminate.
Qed.

Lemma add_common_records (b : sysmon_snapshot_builder) (n : string)
    (u : option string) (t : sysmon_metric_type) :
  exists cap,
    add_common b (Some n) u t
    = (SYSMON_OK, mk_builder (b_metrics b ++ [mk_metric (Some n) u t (zero_value t)]) cap).
Proof.
  unfold add_common, ensure_capacity.
  destruct (b_count b <? b_capacity b)%nat; cbn; eexists; reflexivity.
Qed.

(** One call: what it returns and what it leaves in the array. *)
Lemma run_call_h_cases (h : heap_plan) (b : sysmon_snapshot_builder)
    (c : builder_call) :
  call_name c <> None ->
  exists h',
    (run_call_h h b c = (SYSMON_OK, snd (run_call b c), h')
     /\ (all_granted h -> all_granted h'))
    \/ (exists b',
          run_call_h h b c = (SYSMON_ERR_OUT_OF_MEMORY, b', h')
          /\ (b_metrics b' = b_metrics b
              \/ (unfinished_record c <> []
                  /\ b_metrics b' = b_metrics b ++ unfinished_record c))
          /\ ~ all_granted h).
Proof.
  intros Hname.
  assert (Hnum : forall n u t v,
            exists h',
              (add_number_h h b (Some n) u t v
               = (SYSMON_OK, snd (add_with_value b (Some n) u t v), h')
               /\ (all_granted h -> all_granted h'))
              \/ (exists b',
                    add_number_h h b (Some n) u t v = (SYSMON_ERR_OUT_OF_MEMORY, b', h')
                    /\ b_metrics b' = b_metrics b /\ ~ all_granted h)).
  { intros n u t v. unfold add_number_h, add_with_value.
    destruct (add_common_h_cases h b n u t) as (h1 & [(-> & Hg)|(b' & -> & Hm & Hn)]).
    - destruct (add_common_records b n u t) as [cap ->]. cbn. exists h1. left. now split.
    - exists h1. right. exists b'. cbn. auto. }
  destruct c as [[n|] u v|[n|] u v|[n|] u v|[n|] u v]; try (now elim Hname);
    cbn [run_call_h run_call unfinished_record];
    unfold sysmon_snapshot_builder_add_double, sysmon_snapshot_builder_add_i64,
      sysmon_snapshot_builder_add_u64, sysmon_snapshot_builder_add_string.
  - destruct (Hnum n u SYSMON_METRIC_DOUBLE (V_f64 v))
      as (h1 & [H|(b' & H1 & H2 & H3)]);
      [exists h1; now left|exists h1; right; exists b'; auto].
  - destruct (Hnum n u SYSMON_METRIC_INT64 (V_i64 v))
      as (h1 & [H|(b' & H1 & H2 & H3)]);
      [exists h1; now left|exists h1; right; exists b'; auto].
  - destruct (Hnum n u SYSMON_METRIC_UINT64 (V_u64 v))
      as (h1 & [H|(b' & H1 & H2 & H3)]);
      [exists h1; now left|exists h1; right; exists b'; auto].
  - unfold add_string_h, add_with_value.
    destruct (add_common_h_cases h b n u SYSMON_METRIC_STRING)
      as (h1 & [(-> & Hg)|(b' & -> & Hm & Hn)]).
    2:{ exists h1. right. exists b'. cbn. auto. }
    destruct (add_common_records b n u SYSMON_METRIC_STRING) as [cap ->].
    cbn [result_eqb sysmon_result_code Z.eqb negb fst snd b_metrics b_capacity].
    destruct (request h1) as [g2 h2] eqn:E2.
    assert (Hg2 : all_granted h1 -> g2 = true /\ all_granted h2).
    { intros H. pose proof (request_granted h1 H) as Hr. now rewrite E2 in Hr. }
    destruct g2.
    + exists h2. left. split; [reflexivity|]. intros H. now apply Hg2, Hg.
    + exists h2. right. eexists. split; [reflexivity|]. split.
      * right. split; [discriminate|reflexivity].
      * intros H. destruct (Hg2 (Hg H)). discriminate.
Qed.

Lemma run_call_h_unnamed (h : heap_plan) (b : sysmon_snapshot_builder)
    (c : builder_call) :
  call_name c = None ->
  run_call_h h b c = (SYSMON_ERR_INVALID_ARGUMENT, b, h).
Proof.
  destruct c as [[n|] u v|[n|] u v|[n|] u v|[n|] u v]; try discriminate; reflexivity.
Qed.

(** X10 — what a typed [add] call can do, allocation failures included.
    Whatever the allocator grants or refuses:
    - a call without a name returns INVALID_ARGUMENT, leaves the builder
      as it was and requests no memory;
    - a call with a name returns OK or OUT_OF_MEMORY.  When it returns OK
      it has appended exactly one record after the existing ones, with a
      NULL unit kept NULL and a NULL string value stored as the empty
      string.  When it returns OUT_OF_MEMORY a request was refused, and
      the records are those that were there, except that [add_string],
      when only the copy of its value is refused, leaves its record in
      the array with a NULL string;
    - when the first request a named call makes is refused, the call
      returns OUT_OF_MEMORY and the records are unchanged;
    - in any sequence of calls the records already in the builder stay
      where they are, unchanged, and at most one record is added per call;
    - when every request is granted, the results and the builder are
      those of the functions with allocation taken to succeed. *)
Theorem builder_add_outcomes (h : heap_plan) (b : sysmon_snapshot_builder) :
  (forall c,
     match call_name c with
     | None => run_call_h h b c = (SYSMON_ERR_INVALID_ARGUMENT, b, h)
     | Some _ =>
         (fst (fst (run_call_h h b c)) = SYSMON_OK
          /\ b_metrics (snd (fst (run_call_h h b c))) = b_metrics b ++ call_record c)
         \/ (fst (fst (run_call_h h b c)) = SYSMON_ERR_OUT_OF_MEMORY
             /\ ~ all_granted h
             /\ (b_metrics (snd (fst (run_call_h h b c))) = b_metrics b
                 \/ (unfinished_record c <> []
                     /\ b_metrics (snd (fst (run_call_h h b c)))
                        = b_metrics b ++ unfinished_record c)))
     end)
  /\ (forall c h0,
        call_name c <> None -> h = false :: h0 ->
        fst (fst (run_call_h h b c)) = SYSMON_ERR_OUT_OF_MEMORY
        /\ b_metrics (snd (fst (run_call_h h b c))) = b_metrics b)
  /\ (forall cs,
        exists added,
          b_metrics (snd (fst (run_calls_h h b cs))) = b_metrics b ++ added
          /\ (List.length added <= List.length cs)%nat)
  /\ (all_granted h ->
      forall cs,
        fst (run_calls_h h b cs) = run_calls b cs
        /\ all_granted (snd (run_calls_h h b cs))).
Proof.
  assert (Hone : forall h b c n,
            call_name c = Some n ->
            (fst (fst (run_call_h h b c)) = SYSMON_OK
             /\ b_metrics (snd (fst (run_call_h h b c))) = b_metrics b ++ call_record c)
            \/ (fst (fst (run_call_h h b c)) = SYSMON_ERR_OUT_OF_MEMORY
                /\ ~ all_granted h
                /\ (b_metrics (snd (fst (run_call_h h b c))) = b_metrics b
                    \/ (unfinished_record c <> []
                        /\ b_metrics (snd (fst (run_call_h h b c)))
                           = b_metrics b ++ unfinished_record c)))).
  { clear h b. intros h b c n Hn.
    destruct (run_call_h_cases h b c) as (h' & [(-> & _)|(b' & -> & Hm & Hg)]);
      [congruence| |].
    - left. cbn [fst snd]. split; [reflexivity|].
      destruct (run_call_outcome b c) as (cap & -> & _). reflexivity.
    - right. cbn [fst snd]. auto. }
  split; [|split; [|split]].
  - intros c. destruct (call_name c) as [n|] eqn:En.
    + now apply (Hone h b c n).
    + now apply run_call_h_unnamed.
  - intros c h0 Hn ->.
    destruct c as [[n|] u v|[n|] u v|[n|] u v|[n|] u v]; try (now elim Hn);
      cbn [run_call_h]; unfold add_number_h, add_string_h, add_common_h, ensure_capacity_h;
      destruct (b_count b <? b_capacity b)%nat; cbn [request];
      try (destruct u as [u|]); cbn; try destruct (request h0); cbn; auto.
  - intros cs. revert h b. induction cs as [|c cs IH]; intros h b.
    + exists []. cbn. now rewrite app_nil_r.
    + cbn [run_calls_h].
      assert (Hc : exists one,
                 b_metrics (snd (fst (run_call_h h b c))) = b_metrics b ++ one
                 /\ (List.length one <= 1)%nat).
      { destruct (call_name c) as [n|] eqn:En.
        - destruct (Hone h b c n En) as [(_ & ->)|(_ & _ & [->|(_ & ->)])].
          + exists (call_record c). split; [reflexivity|].
            destruct c as [[?|] ? ?|[?|] ? ?|[?|] ? ?|[?|] ? ?]; cbn; lia.
          + exists []. rewrite app_nil_r. split; [reflexivity|cbn; lia].
          + exists (unfinished_record c). split; [reflexivity|].
            destruct c as [[?|] ? ?|[?|] ? ?|[?|] ? ?|[?|] ? ?]; cbn; lia.
        - rewrite (run_call_h_unnamed h b c En). exists []. cbn.
          rewrite app_nil_r. split; [reflexivity|lia]. }
      destruct (run_call_h h b c) as [[rc b1] h1]. cbn [fst snd] in Hc.
      destruct Hc as (one & H1 & Hl1).
      destruct (IH h1 b1) as (added & H2 & Hl2).
      destruct (run_calls_h h1 b1 cs) as [[rcs b2] h2]. cbn [fst snd] in *.
      exists (one ++ added). rewrite H2, H1, app_assoc. split; [reflexivity|].
      rewrite length_app. cbn [List.length]. lia.
  - intros Hg cs. revert h b Hg. induction cs as [|c cs IH]; intros h b Hg.
    + cbn. now split.
    + cbn [run_calls_h run_calls].
      assert (Hc : fst (run_call_h h b c) = run_call b c
                   /\ all_granted (snd (run_call_h h b c))).
      { destruct (call_name c) as [n|] eqn:En.
        - destruct (run_call_h_cases h b c) as (h' & [(-> & Hg')|(b' & _ & _ & Hn)]);
            [congruence| |now elim Hn].
          cbn [fst snd]. split; [|now apply Hg'].
          destruct (run_call_outcome b c) as (cap & E & _). rewrite E, En. reflexivity.
        - rewrite (run_call_h_unnamed h b c En). cbn [fst snd]. split; [|exact Hg].
          destruct (run_call_outcome b c) as (cap & E & Hcap). rewrite E, En.
          rewrite (Hcap En).
          assert (Hr : call_record c = []).
          { destruct c as [[?|] ? ?|[?|] ? ?|[?|] ? ?|[?|] ? ?];
              try discriminate; reflexivity. }
          rewrite Hr, app_nil_r. now destruct b. }
      destruct (run_call_h h b c) as [[rc b1] h1]. cbn [fst snd] in Hc.
      destruct Hc as [Hc Hg1]. rewrite <- Hc.
      destruct (IH h1 b1 Hg1) as [H2 Hg2].
      destruct (run_calls_h h1 b1 cs) as [[rcs b2] h2]. cbn [fst snd] in *.
      rewrite <- H2. now split.
Qed.


Lemma run_call_capacity (b : sysmon_snapshot_builder) (c : builder_call) :
  call_name c <> None ->
  b_capacity (snd (run_call b c))
  = (if (b_count b <? b_capacity b)%nat then b_capacity b
     else if (b_capacity b =? 0)%nat then 32%nat else (b_capacity b * 2)%nat)
  /\ b_count (snd (run_call b c)) = S (b_count b).
Proof.
  intros Hn.
  assert (Hadd : forall n u t x,
            b_capacity (snd (add_with_value b (Some n) u t x))
            = (if (b_count b <? b_capacity b)%nat then b_capacity b
               else if (b_capacity b =? 0)%nat then 32%nat else (b_capacity b * 2)%nat)
            /\ b_count (snd (add_with_value b (Some n) u t x)) = S (b_count b)).
  { intros n u t x. unfold add_with_value, add_common, ensure_capacity.
    destruct (b_count b <? b_capacity b)%nat; cbn; unfold b_count; cbn;
      rewrite set_last_value_app, length_app; cbn; split; try reflexivity; lia. }
  destruct c as [[n|] u v|[n|] u v|[n|] u v|[n|] u v]; try (now elim Hn);
    cbn [run_call]; apply Hadd.
Qed.

Lemma run_call_fits (b : sysmon_snapshot_builder) (c : builder_call) :
  capacity_fits b -> capacity_fits (snd (run_call b c)).
Proof.
  intros Hb. destruct (call_name c) as [n|] eqn:En.
  - destruct (run_call_capacity b c) as [Hcap Hcnt]; [congruence|].
    unfold capacity_fits in *. rewrite Hcap, Hcnt. right.
    destruct Hb as [[Hc0 Hk0]|[Hle (k & Hk & Hmin)]].
    + rewrite Hc0, Hk0. cbn. split; [lia|]. exists 0%nat. cbn. auto.
    + destruct (Nat.ltb_spec (b_count b) (b_capacity b)) as [Hlt|Hge].
      * split; [lia|]. exists k. split; [exact Hk|]. destruct Hmin; [now left|right; lia].
      * destruct (Nat.eqb_spec (b_capacity b) 0) as [H0|H0]; [lia|].
        split; [lia|]. exists (S k). split; [rewrite Nat.pow_succ_r'; lia|right; lia].
  - destruct (run_call_outcome b c) as (cap & -> & Hcap). rewrite (Hcap En). cbn [snd].
    assert (Hr : call_record c = []) by (destruct c as [[?|] ? ?|[?|] ? ?|[?|] ? ?|[?|] ? ?];
                                          try discriminate; reflexivity).
    rewrite Hr, app_nil_r. now destruct b.
Qed.

(** X11 — growth of the record array.  Starting from a fresh builder,
    after any sequence of [add] calls the record count never exceeds the
    capacity (a record is never written outside the array), and the
    capacity is 0 while no record was added and otherwise the smallest of
    32, 64, 128, ... that holds the records: the array doubles exactly when
    it is full.  After [finalize] the builder is again as fresh. *)
Theorem builder_capacity_growth (cs : list builder_call) :
  let b := snd (run_calls (snd sysmon_snapshot_builder_create) cs) in
  capacity_fits b
  /\ (b_count b <= b_capacity b)%nat
  /\ snd (fst (sysmon_snapshot_builder_finalize b)) = snd sysmon_snapshot_builder_create.
Proof.
  cbv zeta. cbn [sysmon_snapshot_builder_create snd].
  assert (Hgen : forall b, capacity_fits b -> capacity_fits (snd (run_calls b cs))).
  { induction cs as [|c cs IH]; intros b Hb; cbn [run_calls]; [exact Hb|].
    pose proof (run_call_fits b c Hb) as H1.
    destruct (run_call b c) as [rc b1]. cbn [snd] in H1.
    specialize (IH b1 H1). destruct (run_calls b1 cs) as [rcs b2]. exact IH. }
  assert (Hfit : capacity_fits (snd (run_calls (mk_builder [] 0) cs))).
  { apply Hgen. left. split; reflexivity. }
  split; [exact Hfit|]. split; [|reflexivity].
  destruct Hfit as [[-> ->]|[Hle _]]; lia.
Qed.

(** ** The collectors *)

(** *** Percentages are never negative *)

Lemma SFmul_nonneg (x : spec_float) (my : positive) (ey : Z) :
  sf_fin_nonneg x -> sf_nonneg (SF64mul x (S754_finite false my ey)).
Proof.
  unfold SF64mul, SFmul.
  destruct x as [sx|sx| |[|] mx ex]; cbn [sf_fin_nonneg]; try contradiction; intros _;
    [exact I|].
  pose proof (binary_round_aux_shape (xorb false false) (Zpos (mx * my)) (ex + ey)
                loc_Exact ltac:(lia)) as Hr.
  destruct (binary_round_aux prec emax (xorb false false) _ _ _) as [s|s| |s m e];
    cbn [sf_nonneg]; try exact I; try contradiction.
  - now destruct Hr as [-> _].
  - now destruct Hr as [-> _].
Qed.

Lemma SFdiv_nonneg_finite (x : spec_float) (my : positive) (ey : Z) :
  sf_nonneg x -> sf_nonneg (SF64div x (S754_finite false my ey)).
Proof.
  unfold SF64div, SFdiv.
  destruct x as [sx|[|]| |[|] mx ex]; cbn [sf_nonneg]; try contradiction; intros _;
    try exact I.
  pose proof (SFdiv_core_nonneg mx ex my ey) as Hq.
  destruct (SFdiv_core_binary prec emax (Zpos mx) ex (Zpos my) ey) as [[mz ez] lz].
  cbn [fst] in Hq.
  pose proof (binary_round_aux_shape (xorb false false) mz ez lz Hq) as Hr.
  destruct (binary_round_aux prec emax (xorb false false) mz ez lz) as [s|s| |s m e];
    cbn [sf_nonneg]; try exact I; try contradiction.
  - now destruct Hr as [-> _].
  - now destruct Hr as [-> _].
Qed.

(** [(double)a * 100.0 / (double)b] is not negative and not NaN when [b]
    is a non-zero 64-bit value. *)
Lemma percent_nonneg (a b : Z) :
  1 <= b < UINT64_MOD ->
  (0 <=? u64_to_double a * 100 / u64_to_double b)%float = true.
Proof.
  intros Hb. apply float_zero_leb.
  rewrite FloatAxioms.div_spec, FloatAxioms.mul_spec.
  pose proof (u64_to_double_shape b) as Hs.
  pose proof (u64_to_double_lower b ltac:(unfold UINT64_MOD in Hb; lia)) as Hl.
  destruct (Prim2SF (u64_to_double b)) as [s|[|]| |[|] m e]; cbn in Hs; try contradiction.
  apply SFdiv_nonneg_finite.
  change (Prim2SF 100) with (S754_finite false 7036874417766400 (-46)).
  apply SFmul_nonneg. apply u64_to_double_shape.
Qed.

(** *** cpu *)

Lemma cpu_refresh_keeps (w : os_world) (st st' : cpu_state) :
  (0 <=? cpu_last_usage_percent st)%float = true ->
  cpu_refresh w st = ReadOk st' ->
  (0 <=? cpu_last_usage_percent st')%float = true
  /\ cpu_core_count st' = cpu_core_count st
  /\ cpu_has_prev st' = true
  /\ (cpu_has_prev st = false -> cpu_last_usage_percent st' = cpu_last_usage_percent st).
Proof.
  intros Hp. unfold cpu_refresh.
  destruct (read_cpu_ticks w) as [[total idle]|msg]; [|discriminate].
  intros [= <-]. cbn [cpu_last_usage_percent cpu_core_count cpu_has_prev].
  repeat split.
  - destruct (cpu_has_prev st); [|exact Hp].
    destruct (Z.gtb_spec (sub64 total (cpu_last_total st)) 0) as [Hgt|]; [|exact Hp].
    cbn [andb].
    destruct (sub64 idle (cpu_last_idle st) <=? sub64 total (cpu_last_total st));
      [|exact Hp].
    apply percent_nonneg.
    pose proof (wrap64_range (total - cpu_last_total st)) as Hr.
    unfold sub64 in *. lia.
  - now intros ->.
Qed.



(** *** ram *)

Lemma ram_refresh_accounts (w : os_world) (st st' : ram_state) :
  0 <= ram_total_bytes st < UINT64_MOD ->
  ram_refresh w st = ReadOk st' ->
  ram_state_ok st' /\ ram_total_bytes st' = ram_total_bytes st /\ ram_has_data st' = true.
Proof.
  intros Ht. unfold ram_refresh, read_mem_used_free.
  destruct (os_proc_meminfo w) as [mi|msg]; [|discriminate].
  set (kb := if wrap64 (mi_available_kb mi) =? 0 then wrap64 (mi_free_kb mi)
             else wrap64 (mi_available_kb mi)).
  set (fr := if wrap64 (kb * 1024) >? ram_total_bytes st then 0 else wrap64 (kb * 1024)).
  assert (Hfr : 0 <= fr <= ram_total_bytes st).
  { unfold fr. pose proof (wrap64_range (kb * 1024)).
    destruct (Z.gtb_spec (wrap64 (kb * 1024)) (ram_total_bytes st)); lia. }
  intros [= <-]. unfold ram_state_ok.
  cbn [ram_total_bytes ram_last_free_bytes ram_last_used_bytes ram_has_data
       ram_last_used_percent].
  rewrite sub64_exact by lia.
  repeat split; try lia.
  destruct (Z.gtb_spec (ram_total_bytes st) 0); [|reflexivity].
  apply percent_nonneg. lia.
Qed.



(** *** battery *)

Lemma substring_length_le (s : string) (n : nat) :
  (String.length (String.substring 0 n s) <= n)%nat.
Proof.
  revert s. induction n as [|n IH]; intros [|c s]; cbn; try lia.
  specialize (IH s). lia.
Qed.

Lemma u64_to_double_leb (z : Z) : (0 <=? u64_to_double z)%float = true.
Proof.
  apply float_zero_leb. pose proof (u64_to_double_shape z) as H.
  destruct (Prim2SF (u64_to_double z)) as [s|[|]| |[|] m e]; cbn in *; tauto.
Qed.

Lemma battery_refresh_keeps (w : os_world) (st st' : battery_state) :
  battery_state_ok st ->
  battery_refresh w st = ReadOk st' ->
  battery_state_ok st'
  /\ bat_base_path st' = bat_base_path st
  /\ bat_has_data st' = true
  /\ (os_read_string_file w (snprintf_s 320 (bat_base_path st ++ "/status")) = None ->
      bat_last_status st' = bat_last_status st).
Proof.
  intros (_ & Hl & _). unfold battery_refresh.
  destruct (os_read_u32_file w _) as [cap|]; [|discriminate].
  intros [= <-]. unfold battery_state_ok.
  cbn [bat_last_is_charging bat_last_status bat_last_percent bat_base_path bat_has_data].
  repeat split.
  - destruct (os_read_string_file w _) as [s|]; [|exact Hl].
    unfold snprintf_s. apply (substring_length_le s 31).
  - apply u64_to_double_leb.
  - now intros ->.
Qed.

(** X14 — in the Linux build, where the battery is read from
    /sys/class/power_supply, the charging flag always agrees with the
    status text.  A state made by [battery_create] has percent 0, flag 0
    and the status "unknown".  A poll on a state in which the flag is 1
    exactly when the status equals "Charging" without regard to letter
    case (and 0 otherwise), the status has at most 31 characters and the
    percent is not negative, leaves a state with the same three
    properties and the same directory, whatever it returns; a refresh
    that cannot read the status file keeps the status text it had; a
    poll that returns OK has appended [battery_metrics] of the state it
    leaves, and a poll that returns NOT_SUPPORTED has changed neither the
    state nor the builder. *)
Theorem battery_flag_follows_status (w : os_world) (st : battery_state) (now_ms : Z)
    (refresh_now : bool) (b : sysmon_snapshot_builder) :
  battery_state_ok st ->
  (forall (w0 : os_world) (ini : sysmon_ini) (section : string) (s0 : module_state),
     co_state (battery_create w0 ini section) = Some s0 ->
     exists st0,
       s0 = BatteryState st0 /\ battery_state_ok st0
       /\ bat_last_status st0 = "unknown" /\ bat_last_is_charging st0 = 0
       /\ bat_has_data st0 = false)
  /\ exists st',
       po_state (battery_poll w (Some (BatteryState st)) now_ms refresh_now b)
       = Some (BatteryState st')
       /\ battery_state_ok st'
       /\ bat_base_path st' = bat_base_path st
       /\ (po_rc (battery_poll w (Some (BatteryState st)) now_ms refresh_now b) = SYSMON_OK ->
           bat_has_data st' = true
           /\ b_metrics (po_builder
                           (battery_poll w (Some (BatteryState st)) now_ms refresh_now b))
              = b_metrics b ++ battery_metrics st')
       /\ (po_rc (battery_poll w (Some (BatteryState st)) now_ms refresh_now b)
           = SYSMON_ERR_NOT_SUPPORTED ->
           st' = st
           /\ po_builder (battery_poll w (Some (BatteryState st)) now_ms refresh_now b) = b)
       /\ (os_read_string_file w (snprintf_s 320 (bat_base_path st ++ "/status")) = None ->
           bat_last_status st' = bat_last_status st).
Proof.
  intros Hok. split.
  - intros w0 ini section s0. unfold battery_create.
    destruct (os_battery_dir w0) as [base|msg]; [|discriminate].
    intros [= <-]. eexists. split; [reflexivity|].
    unfold battery_state_ok. cbn. repeat split. lia.
  - unfold battery_poll.
    destruct (refresh_now || negb (bat_has_data st)) eqn:Er.
    + destruct (battery_refresh w st) as [st'|msg] eqn:Eref.
      * destruct (battery_refresh_keeps w st st' Hok Eref) as (H1 & H2 & H3 & H4).
        destruct (battery_emit_metrics st' b) as [cap ->]. exists st'. cbn.
        repeat (split; try exact H1); try assumption; try congruence.
      * exists st. cbn. repeat (split; try exact Hok); try discriminate.
    + apply orb_false_elim in Er. destruct Er as [_ Er].
      apply negb_false_iff in Er.
      destruct (battery_emit_metrics st b) as [cap ->]. exists st. cbn.
      repeat (split; try exact Hok); try assumption; try congruence.
Qed.

Lemma battery_flag_follows_status_witness :
  let st := mk_battery_state "/sys/class/power_supply/BAT0" 0 1 "CHARGING" true in
  battery_state_ok st
  /\ exists st',
       po_state (battery_poll laptop_world (Some (BatteryState st)) 1000 true
                   (mk_builder [] 0))
       = Some (BatteryState st')
       /\ battery_state_ok st'.
Proof.
  cbv zeta.
  assert (Hok : battery_state_ok
                  (mk_battery_state "/sys/class/power_supply/BAT0" 0 1 "CHARGING" true)).
  { unfold battery_state_ok. cbn. repeat split. lia. }
  split; [exact Hok|].
  destruct (battery_flag_follows_status laptop_world
              (mk_battery_state "/sys/class/power_supply/BAT0" 0 1 "CHARGING" true)
              1000 true (mk_builder [] 0) Hok) as (_ & st' & H1 & H2 & _).
  exists st'. split; assumption.
Defined.

(** *** network *)

Lemma select_interface_requested (requested : string) (lo : bool)
    (lines : list net_dev_line) :
  select_interface true requested lo lines
  = find (fun l => streq (nd_ifname l) requested) lines.
Proof.
  induction lines as [|l r IH]; [reflexivity|].
  cbn [select_interface find].
  destruct (streq (nd_ifname l) requested); cbn [andb negb]; [|exact IH].
  now rewrite andb_false_r.
Qed.

Lemma select_interface_default (requested : string) (lo : bool)
    (lines : list net_dev_line) :
  select_interface false requested lo lines
  = find (fun l => lo || negb (streq (nd_ifname l) "lo")) lines.
Proof.
  induction lines as [|l r IH]; [reflexivity|].
  cbn [select_interface find andb negb].
  destruct lo; cbn [negb andb orb]; [reflexivity|].
  destruct (streq (nd_ifname l) "lo"); cbn [negb]; [exact IH|reflexivity].
Qed.

Lemma substring_idem (s : string) (n : nat) :
  String.substring 0 n (String.substring 0 n s) = String.substring 0 n s.
Proof.
  revert s. induction n as [|n IH]; intros [|c s]; cbn; try reflexivity.
  now rewrite IH.
Qed.

Lemma snprintf_s_nonempty (n : nat) (c : ascii) (r : string) :
  exists r', snprintf_s (S (S n)) (String c r) = String c r'.
Proof.
  unfold snprintf_s. cbn. now eexists.
Qed.

(** [network_create] by cases on the interface table and the configured
    name, with every allocation granted. *)
Lemma network_create_cases (w : os_world) (ini : sysmon_ini)
    (section : string) :
  let lo := sysmon_ini_get_bool ini section "include_loopback" false in
  let fresh := fun name => mk_network_state name lo 0 0 0 0%float 0%float false in
  match os_proc_net_dev w with
  | ReadFailed msg =>
      network_create w ini section
      = mk_create_out SYSMON_ERR_NOT_SUPPORTED None (Some msg)
  | ReadOk lines =>
      match sysmon_ini_get ini section "interface" with
      | Some (String c r) =>
          let name := snprintf_s 64 (String c r) in
          match find (fun l => streq (nd_ifname l) name) lines with
          | Some _ =>
              network_create w ini section
              = mk_create_out SYSMON_OK (Some (NetworkState (fresh name))) None
          | None =>
              network_create w ini section
              = mk_create_out SYSMON_ERR_NOT_SUPPORTED None
                  (Some "requested interface not found")
          end
      | _ =>
          match find (fun l => lo || negb (streq (nd_ifname l) "lo")) lines with
          | Some l =>
              network_create w ini section
              = mk_create_out SYSMON_OK
                  (Some (NetworkState (fresh (snprintf_s 64 (nd_ifname l))))) None
              /\ In l lines
              /\ (lo = false -> nd_ifname l <> "lo")
          | None =>
              network_create w ini section
              = mk_create_out SYSMON_ERR_NOT_SUPPORTED None (Some "no interface found")
          end
      end
  end.
Proof.
  cbv zeta. unfold network_create, read_interface_bytes.
  destruct (os_proc_net_dev w) as [lines|msg].
  - assert (Hdef :
      match find (fun l => sysmon_ini_get_bool ini section "include_loopback" false
                           || negb (streq (nd_ifname l) "lo")) lines with
      | Some l =>
          match select_interface false EmptyString
                  (sysmon_ini_get_bool ini section "include_loopback" false) lines with
          | Some l' => l' = l
          | None => False
          end
          /\ In l lines
          /\ (sysmon_ini_get_bool ini section "include_loopback" false = false ->
              nd_ifname l <> "lo")
      | None =>
          select_interface false EmptyString
            (sysmon_ini_get_bool ini section "include_loopback" false) lines = None
      end).
    { rewrite select_interface_default.
      destruct (find _ lines) as [l|] eqn:Ef; [|reflexivity].
      apply find_some in Ef. destruct Ef as [Hin Hl].
      repeat split; [exact Hin|].
      intros Hlo Hn. rewrite Hlo, Hn in Hl. discriminate. }
    destruct (sysmon_ini_get ini section "interface") as [[|c r]|].
    + cbn [copy_ifname or_default].
      destruct (find _ lines) as [l|].
      * destruct Hdef as (Hs & Hin & Hlo).
        destruct (select_interface false EmptyString _ lines) as [l'|]; [|contradiction].
        subst l'. split; [|split; assumption].
        unfold copy_ifname, snprintf_s, SYSMON_IFNAME_LEN.
        rewrite substring_idem. reflexivity.
      * rewrite Hdef. reflexivity.
    + clear Hdef. destruct (snprintf_s_nonempty 62 c r) as [r' Hr'].
      unfold copy_ifname, SYSMON_IFNAME_LEN. rewrite Hr'.
      cbn [or_default]. rewrite select_interface_requested.
      destruct (find _ lines) as [l|]; reflexivity.
    + cbn [copy_ifname or_default].
      destruct (find _ lines) as [l|].
      * destruct Hdef as (Hs & Hin & Hlo).
        destruct (select_interface false EmptyString _ lines) as [l'|]; [|contradiction].
        subst l'. split; [|split; assumption].
        unfold copy_ifname, snprintf_s, SYSMON_IFNAME_LEN.
        rewrite substring_idem. reflexivity.
      * rewrite Hdef. reflexivity.
  - destruct (sysmon_ini_get ini section "interface") as [[|c r]|]; reflexivity.
Qed.

(** X15 — which interface the network collector binds to, in the Linux
    build, where the interface table is the scanned lines of
    /proc/net/dev.  The interface asked for is the configured, non-empty
    [interface] value cut to 63 characters, if there is one.  The reader
    [read_interface_bytes] then selects the first line that carries
    exactly that name, whatever the loopback setting, so that "lo" can be
    asked for; without a request it selects the first line, passing over
    lines named "lo" unless [include_loopback] is set; it reports the
    counters of the selected line as 64-bit values, and fails when the
    table cannot be read or no line qualifies.  [network_create] returns
    OK only when a line is selected, and then the state is bound to the
    requested name, or to the name of the selected line cut to 63
    characters, with no sample and zero counters; when no line is
    selected it does not return OK and stores no state; and it returns
    NOT_SUPPORTED only when no line is selected. *)
Theorem network_interface_selection (w : os_world) (ini : sysmon_ini)
    (section : string) :
  let lo := sysmon_ini_get_bool ini section "include_loopback" false in
  let requested :=
    match sysmon_ini_get ini section "interface" with
    | Some (String c r) => Some (snprintf_s 64 (String c r))
    | _ => None
    end in
  let selected :=
    match os_proc_net_dev w with
    | ReadFailed _ => None
    | ReadOk lines =>
        match requested with
        | Some name => find (fun l => streq (nd_ifname l) name) lines
        | None => find (fun l => lo || negb (streq (nd_ifname l) "lo")) lines
        end
    end in
  match selected with
  | Some l =>
      read_interface_bytes w requested lo
      = ReadOk (wrap64 (nd_rx l), wrap64 (nd_tx l), snprintf_s 64 (nd_ifname l))
      /\ (requested = None -> lo = false -> nd_ifname l <> "lo")
      /\ (co_rc (network_create w ini section) = SYSMON_OK ->
          co_state (network_create w ini section)
          = Some (NetworkState
                    (mk_network_state
                       (match requested with
                        | Some name => name
                        | None => snprintf_s 64 (nd_ifname l)
                        end)
                       lo 0 0 0 0%float 0%float false)))
      /\ co_rc (network_create w ini section) <> SYSMON_ERR_NOT_SUPPORTED
  | None =>
      (exists msg, read_interface_bytes w requested lo = ReadFailed msg)
      /\ co_rc (network_create w ini section) <> SYSMON_OK
      /\ co_state (network_create w ini section) = None
  end.
Proof.
  cbv zeta. pose proof (network_create_cases w ini section) as Hc. cbv zeta in Hc.
  unfold read_interface_bytes.
  destruct (os_proc_net_dev w) as [lines|msgr].
  2:{ rewrite Hc. cbn. split; [|split; [discriminate|reflexivity]].
      destruct (sysmon_ini_get ini section "interface") as [[|c r]|]; eauto. }
  destruct (sysmon_ini_get ini section "interface") as [[|c r]|].
  - cbn [or_default]. rewrite select_interface_default.
    destruct (find _ lines) as [l|] eqn:Ef.
    + destruct Hc as (-> & Hin & Hlo). cbn.
      split; [reflexivity|]. split; [intros _; exact Hlo|].
      split; [reflexivity|discriminate].
    + rewrite Hc. cbn. split; [eauto|]. split; [discriminate|reflexivity].
  - destruct (snprintf_s_nonempty 62 c r) as [r' Hr']. rewrite Hr' in *.
    cbn [or_default]. rewrite select_interface_requested.
    destruct (find _ lines) as [l|] eqn:Ef.
    + rewrite Hc. cbn. split; [reflexivity|]. split; [discriminate|].
      split; [reflexivity|discriminate].
    + rewrite Hc. cbn. split; [eauto|]. split; [discriminate|reflexivity].
  - cbn [or_default]. rewrite select_interface_default.
    destruct (find _ lines) as [l|] eqn:Ef.
    + destruct Hc as (-> & Hin & Hlo). cbn.
      split; [reflexivity|]. split; [intros _; exact Hlo|].
      split; [reflexivity|discriminate].
    + rewrite Hc. cbn. split; [eauto|]. split; [discriminate|reflexivity].
Qed.

(** X16 — the network collector stays on its interface.  No poll changes
    the interface name or the loopback setting of the state.  A poll that
    refreshes a state bound to a non-empty name reads the first line of
    the table that carries exactly that name and stores its receive and
    transmit counters (as 64-bit values) with the time of the call; when
    no line carries the name, or the table cannot be read, it fails with
    IO and a message and leaves state and builder as they were: it never
    moves to another interface. *)
Theorem network_interface_pinned (w : os_world) (st : network_state) (now_ms : Z)
    (refresh_now : bool) (b : sysmon_snapshot_builder) :
  net_ifname st <> EmptyString ->
  let out := network_poll w (Some (NetworkState st)) now_ms refresh_now b in
  (exists st',
     po_state out = Some (NetworkState st')
     /\ net_ifname st' = net_ifname st
     /\ net_include_loopback st' = net_include_loopback st)
  /\ (refresh_now || negb (net_has_data st) = true ->
      match os_proc_net_dev w with
      | ReadFailed msg =>
          out = mk_poll_out SYSMON_ERR_IO (Some (NetworkState st)) b (Some msg)
      | ReadOk lines =>
          match find (fun l => streq (nd_ifname l) (net_ifname st)) lines with
          | Some l =>
              exists st',
                po_rc out = SYSMON_OK
                /\ po_state out = Some (NetworkState st')
                /\ net_last_rx_bytes st' = wrap64 (nd_rx l)
                /\ net_last_tx_bytes st' = wrap64 (nd_tx l)
                /\ net_last_ts_ms st' = now_ms
                /\ net_has_data st' = true
                /\ b_metrics (po_builder out) = b_metrics b ++ network_metrics st'
          | None =>
              out = mk_poll_out SYSMON_ERR_IO (Some (NetworkState st)) b
                      (Some "requested interface not found")
          end
      end).
Proof.
  intros Hne. cbv zeta. unfold network_poll.
  assert (Href : network_refresh w now_ms st
                 = match os_proc_net_dev w with
                   | ReadFailed msg => ReadFailed msg
                   | ReadOk lines =>
                       match find (fun l => streq (nd_ifname l) (net_ifname st)) lines with
                       | Some l =>
                           ReadOk (mk_network_state (net_ifname st) (net_include_loopback st)
                                     (wrap64 (nd_rx l)) (wrap64 (nd_tx l)) now_ms
                                     (net_last_rx_rate
                                        (match network_refresh w now_ms st with
                                         | ReadOk s => s | ReadFailed _ => st end))
                                     (net_last_tx_rate
                                        (match network_refresh w now_ms st with
                                         | ReadOk s => s | ReadFailed _ => st end))
                                     true)
                       | None => ReadFailed "requested interface not found"
                       end
                   end).
  { unfold network_refresh, read_interface_bytes.
    destruct (net_ifname st) as [|c r] eqn:En; [contradiction|].
    destruct (os_proc_net_dev w) as [lines|msg]; [|reflexivity].
    cbn [or_default]. rewrite select_interface_requested.
    destruct (find _ lines) as [l|]; reflexivity. }
  split.
  - destruct (refresh_now || negb (net_has_data st)).
    + rewrite Href. destruct (os_proc_net_dev w) as [lines|msg].
      * destruct (find _ lines) as [l|].
        -- match goal with |- context [network_emit ?s b] =>
             destruct (network_emit_metrics s b) as [cap ->]; exists s end.
           repeat split.
        -- exists st. repeat split.
      * exists st. repeat split.
    + destruct (network_emit_metrics st b) as [cap ->]. exists st. repeat split.
  - intros ->. rewrite Href. destruct (os_proc_net_dev w) as [lines|msg]; [|reflexivity].
    destruct (find _ lines) as [l|]; [|reflexivity].
    match goal with |- context [network_emit ?s b] =>
      destruct (network_emit_metrics s b) as [cap ->]; exists s end.
    repeat split.
Qed.

Lemma network_interface_pinned_witness :
  let st := mk_network_state "eth0" false 100 100 1000 0%float 0%float true in
  net_ifname st <> EmptyString
  /\ exists st',
       po_state (network_poll grown_network_world (Some (NetworkState st)) 2000 true
                   (mk_builder [] 0))
       = Some (NetworkState st')
       /\ net_ifname st' = "eth0".
Proof.
  cbv zeta. split; [discriminate|].
  destruct (network_interface_pinned grown_network_world
              (mk_network_state "eth0" false 100 100 1000 0%float 0%float true)
              2000 true (mk_builder [] 0) ltac:(discriminate))
    as ((st' & H1 & H2 & _) & _).
  exists st'. split; assumption.
Defined.

(** *** The contract every collector keeps *)



(** *** storage *)

Lemma storage_refresh_consistent (w : os_world) (st st' : storage_state) :
  storage_refresh w st = ReadOk st' ->
  storage_state_ok st' /\ sto_path st' = sto_path st /\ sto_has_data st' = true.
Proof.
  unfold storage_refresh.
  destruct (read_storage_stats w (sto_path st)) as [[[total free_b] avail]|msg] eqn:Er;
    [|discriminate].
  destruct (read_storage_stats_range _ _ _ _ _ Er) as (Ht & Hf & Ha).
  intros [= <-]. unfold storage_state_ok.
  cbn [sto_has_data sto_last_total_bytes sto_last_free_bytes sto_last_avail_bytes
       sto_last_used_bytes sto_last_used_percent sto_path].
  split; [|split; reflexivity].
  split.
  - intros _. destruct (Z.geb_spec total free_b) as [Hge|Hlt].
    + rewrite sub64_exact by lia. repeat split; lia.
    + repeat split; lia.
  - destruct (Z.gtb_spec total 0); [|reflexivity].
    apply percent_nonneg. lia.
Qed.



(** ** The configuration file loader *)

(** One step of the loop, by the kind of buffer. *)
Lemma load_lines_ignorable (line : string) (rest : list string) (n : nat)
    (section : string) (ini : sysmon_ini) :
  ignorable line = true ->
  load_lines (line :: rest) n section ini = load_lines rest (S n) section ini.
Proof.
  unfold ignorable. intros H. cbn [load_lines]. now rewrite H.
Qed.

Lemma malformed_ignorable (line : string) :
  ignorable line = true -> malformed line = None.
Proof.
  unfold ignorable, malformed, starts_with_comment.
  destruct (trim (c_str line)) as [|c body]; [reflexivity|].
  now intros ->.
Qed.

Lemma load_lines_malformed (line : string) (rest : list string) (n : nat)
    (section : string) (ini : sysmon_ini) (what : string) :
  malformed line = Some what ->
  load_lines (line :: rest) n section ini
  = (SYSMON_ERR_PARSE, None, Some (parse_error_message (S n) what)).
Proof.
  unfold malformed. cbn [load_lines]. unfold starts_with_comment.
  destruct (trim (c_str line)) as [|c body]; [discriminate|].
  destruct (Ascii.eqb c ";" || Ascii.eqb c "#"); [discriminate|].
  destruct (Ascii.eqb c "[").
  - destruct (strchr_split "]" body) as [[inner tl]|]; [discriminate|].
    now intros [= <-].
  - destruct (strchr_split "=" (String c body)) as [[k v]|]; [discriminate|].
    now intros [= <-].
Qed.

(** The loop passes over blank buffers and comments: without them the
    result code and the entries are the same. *)
Lemma load_lines_skips_ignorable (lines : list string) :
  forall (n n' : nat) (section : string) (ini : sysmon_ini),
    let r := load_lines lines n section ini in
    let r' := load_lines (filter (fun l => negb (ignorable l)) lines) n' section ini in
    fst r = fst r' /\ (snd r = None <-> snd r' = None).
Proof.
  induction lines as [|line rest IH]; intros n n' section ini; cbv zeta.
  - cbn. tauto.
  - cbn [filter]. destruct (ignorable line) eqn:Ei; cbn [negb].
    + rewrite load_lines_ignorable by exact Ei. apply IH.
    + unfold ignorable in Ei. cbn [load_lines]. rewrite Ei.
      destruct (trim (c_str line)) as [|c body]; [apply IH|].
      destruct (Ascii.eqb c "[").
      * destruct (strchr_split "]" body) as [[inner tl]|]; [apply IH|].
        cbn. split; [reflexivity|]. split; discriminate.
      * destruct (strchr_split "=" (String c body)) as [[k v]|]; [apply IH|].
        cbn. split; [reflexivity|]. split; discriminate.
Qed.

Lemma load_lines_first_malformed (lines : list string) :
  forall (n : nat) (section : string) (ini : sysmon_ini),
    match first_malformed lines n with
    | Some (k, what) =>
        load_lines lines n section ini
        = (SYSMON_ERR_PARSE, None, Some (parse_error_message k what))
        /\ (n < k <= n + List.length lines)%nat
    | None =>
        exists added,
          load_lines lines n section ini = (SYSMON_OK, Some (ini ++ added), None)
    end.
Proof.
  induction lines as [|line rest IH]; intros n section ini.
  - cbn. exists []. now rewrite app_nil_r.
  - cbn [first_malformed]. destruct (malformed line) as [what|] eqn:Em.
    + split; [now apply load_lines_malformed|]. cbn [List.length]. lia.
    + assert (Hstep : exists section' entry,
                 load_lines (line :: rest) n section ini
                 = load_lines rest (S n) section' (ini ++ entry)).
      { unfold malformed in Em. cbn [load_lines]. unfold starts_with_comment.
        destruct (trim (c_str line)) as [|c body].
        - exists section, []. now rewrite app_nil_r.
        - destruct (Ascii.eqb c ";" || Ascii.eqb c "#").
          + exists section, []. now rewrite app_nil_r.
          + destruct (Ascii.eqb c "[").
            * destruct (strchr_split "]" body) as [[inner tl]|]; [|discriminate].
              eexists _, []. now rewrite app_nil_r.
            * destruct (strchr_split "=" (String c body)) as [[k v]|]; [|discriminate].
              eexists _, [_]. reflexivity. }
      destruct Hstep as (section' & entry & ->).
      specialize (IH (S n) section' (ini ++ entry)).
      destruct (first_malformed rest (S n)) as [[k what]|].
      * destruct IH as [-> Hk]. split; [reflexivity|]. cbn [List.length]. lia.
      * destruct IH as [added ->]. exists (entry ++ added). now rewrite app_assoc.
Qed.


(** *** Facts about the string helpers *)

Lemma skip_spaces_first (s : string) : first_is_space (skip_spaces s) = false.
Proof.
  induction s as [|c r IH]; [reflexivity|].
  cbn [skip_spaces]. destruct (isspace c) eqn:Ec; [exact IH|].
  cbn. exact Ec.
Qed.

Lemma rstrip_first (s : string) :
  first_is_space s = false -> first_is_space (rstrip s) = false.
Proof.
  destruct s as [|c r]; [reflexivity|]. cbn [first_is_space rstrip]. intros Hc.
  rewrite Hc. now destruct (rstrip r).
Qed.

Lemma rstrip_last (s : string) : last_is_space (rstrip s) = false.
Proof.
  induction s as [|c r IH]; [reflexivity|]. cbn [rstrip].
  destruct (rstrip r) as [|d r'] eqn:Er.
  - destruct (isspace c) eqn:Ec; [reflexivity|]. cbn. exact Ec.
  - exact IH.
Qed.

Lemma trim_is_trimmed (s : string) : is_trimmed (trim s) = true.
Proof.
  unfold is_trimmed, trim.
  rewrite rstrip_first by apply skip_spaces_first. now rewrite rstrip_last.
Qed.

Lemma skip_spaces_id (s : string) : first_is_space s = false -> skip_spaces s = s.
Proof.
  destruct s as [|c r]; [reflexivity|]. cbn. now intros ->.
Qed.

Lemma rstrip_id (s : string) : last_is_space s = false -> rstrip s = s.
Proof.
  induction s as [|c r IH]; [reflexivity|]. cbn [last_is_space rstrip].
  destruct r as [|d r'].
  - cbn. now intros ->.
  - intros H. rewrite (IH H). reflexivity.
Qed.

Lemma trim_id (s : string) : is_trimmed s = true -> trim s = s.
Proof.
  unfold is_trimmed, trim. intros H. apply andb_true_iff in H. destruct H as [H1 H2].
  apply negb_true_iff in H1, H2. rewrite skip_spaces_id by exact H1.
  now apply rstrip_id.
Qed.

Lemma has_char_app (ch : ascii) (a b : string) :
  has_char ch (a ++ b)%string = has_char ch a || has_char ch b.
Proof.
  induction a as [|c r IH]; [reflexivity|]. cbn. now rewrite IH, orb_assoc.
Qed.

Lemma has_char_skip_spaces (ch : ascii) (s : string) :
  has_char ch s = false -> has_char ch (skip_spaces s) = false.
Proof.
  induction s as [|c r IH]; [reflexivity|]. cbn [skip_spaces has_char]. intros H.
  apply orb_false_elim in H. destruct H as [H1 H2].
  destruct (isspace c); [now apply IH|]. cbn. now rewrite H1, H2.
Qed.

Lemma has_char_rstrip (ch : ascii) (s : string) :
  has_char ch s = false -> has_char ch (rstrip s) = false.
Proof.
  induction s as [|c r IH]; [reflexivity|]. cbn [rstrip has_char]. intros H.
  apply orb_false_elim in H. destruct H as [H1 H2]. specialize (IH H2).
  destruct (rstrip r) as [|d r'].
  - destruct (isspace c); [reflexivity|]. cbn. now rewrite H1.
  - cbn [has_char]. cbn [has_char] in IH. now rewrite H1, IH.
Qed.

Lemma has_char_trim (ch : ascii) (s : string) :
  has_char ch s = false -> has_char ch (trim s) = false.
Proof.
  intros H. unfold trim. now apply has_char_rstrip, has_char_skip_spaces.
Qed.

Lemma has_char_substring (ch : ascii) (s : string) (n : nat) :
  has_char ch s = false -> has_char ch (substring 0 n s) = false.
Proof.
  revert s. induction n as [|n IH]; intros [|c r]; try reflexivity.
  cbn [has_char substring]. intros H. apply orb_false_elim in H.
  destruct H as [H1 H2]. now rewrite H1, IH.
Qed.

Lemma first_is_space_substring (s : string) (n : nat) :
  first_is_space s = false -> first_is_space (substring 0 n s) = false.
Proof.
  destruct n, s; auto.
Qed.

Lemma has_char_c_str (s : string) : has_char NUL (c_str s) = false.
Proof.
  induction s as [|c r IH]; [reflexivity|]. cbn [c_str].
  destruct (Ascii.eqb c NUL) eqn:Ec; [reflexivity|]. cbn. now rewrite Ec.
Qed.

Lemma c_str_id (s : string) : has_char NUL s = false -> c_str s = s.
Proof.
  induction s as [|c r IH]; [reflexivity|]. cbn [has_char c_str]. intros H.
  apply orb_false_elim in H. destruct H as [H1 H2]. now rewrite H1, IH.
Qed.

Lemma strchr_split_some (ch : ascii) (s a b : string) :
  strchr_split ch s = Some (a, b) ->
  s = (a ++ String ch b)%string /\ has_char ch a = false.
Proof.
  revert a. induction s as [|c r IH]; intros a; [discriminate|].
  cbn [strchr_split]. destruct (Ascii.eqb c ch) eqn:Ec.
  - intros [= <- <-]. apply Ascii.eqb_eq in Ec. subst c. now split.
  - destruct (strchr_split ch r) as [[a' b']|]; [|discriminate].
    intros [= <- <-]. destruct (IH a' eq_refl) as [-> Ha].
    split; [reflexivity|]. cbn. now rewrite Ec, Ha.
Qed.

Lemma strchr_split_app (ch : ascii) (a b : string) :
  has_char ch a = false -> strchr_split ch (a ++ String ch b)%string = Some (a, b).
Proof.
  induction a as [|c r IH]; cbn [has_char append strchr_split].
  - now rewrite Ascii.eqb_refl.
  - intros H. apply orb_false_elim in H. destruct H as [H1 H2].
    now rewrite H1, (IH H2).
Qed.

Lemma rstrip_cons (c : ascii) (r : string) :
  isspace c = false -> exists r', rstrip (String c r) = String c r'.
Proof.
  intros Hc. cbn [rstrip]. rewrite Hc. destruct (rstrip r); eauto.
Qed.

Lemma sysmon_ini_get_in (ini : sysmon_ini) (section key v : string) :
  sysmon_ini_get ini section key = Some v ->
  In (mk_entry section key v) ini.
Proof.
  induction ini as [|[s k x] r IH]; [discriminate|].
  cbn [sysmon_ini_get e_section e_key e_value].
  destruct (streq s section) eqn:Es; cbn [andb].
  - destruct (streq k key) eqn:Ek.
    + intros [= <-]. apply String.eqb_eq in Es, Ek. subst. now left.
    + intros H. right. now apply IH.
  - intros H. right. now apply IH.
Qed.

Lemma load_lines_loaded (lines : list string) :
  forall (n : nat) (section : string) (ini ini' : sysmon_ini) (e : option string),
    section_loaded section -> Forall entry_loaded ini ->
    load_lines lines n section ini = (SYSMON_OK, Some ini', e) ->
    e = None /\ Forall entry_loaded ini'.
Proof.
  induction lines as [|line rest IH]; intros n section ini ini' e Hsec Hini.
  - cbn. intros [= <- <-]. now split.
  - cbn [load_lines].
    pose proof (trim_is_trimmed (c_str line)) as Ht.
    pose proof (has_char_trim NUL _ (has_char_c_str line)) as Hn.
    destruct (starts_with_comment (trim (c_str line))) eqn:Ec; [now apply IH|].
    destruct (trim (c_str line)) as [|c body]; [now apply IH|].
    cbn [starts_with_comment] in Ec. cbn [has_char] in Hn.
    apply orb_false_elim in Hn. destruct Hn as [Hn0 Hn].
    unfold is_trimmed in Ht. apply andb_true_iff in Ht. destruct Ht as [Ht _].
    apply negb_true_iff in Ht. cbn [first_is_space] in Ht.
    destruct (Ascii.eqb c "[") eqn:Eb.
    + destruct (strchr_split "]" body) as [[inner tl]|] eqn:Esp; [|discriminate].
      apply strchr_split_some in Esp. destruct Esp as [-> Hin].
      rewrite has_char_app in Hn. apply orb_false_elim in Hn. destruct Hn as [Hn1 _].
      apply IH; [|exact Hini]. unfold section_loaded, snprintf_s. repeat split.
      * apply (substring_length_le _ 127).
      * apply first_is_space_substring.
        pose proof (trim_is_trimmed inner) as Hti. unfold is_trimmed in Hti.
        apply andb_true_iff in Hti. destruct Hti as [Hti _].
        now apply negb_true_iff in Hti.
      * now apply has_char_substring, has_char_trim.
      * now apply has_char_substring, has_char_trim.
    + destruct (strchr_split "=" (String c body)) as [[k v]|] eqn:Esp; [|discriminate].
      apply strchr_split_some in Esp. destruct Esp as [Hs Hk].
      assert (Hnul : has_char NUL (String c body) = false)
        by (cbn [has_char]; now rewrite Hn0, Hn).
      rewrite Hs, has_char_app in Hnul. apply orb_false_elim in Hnul.
      destruct Hnul as [Hnk Hnv]. cbn [has_char] in Hnv.
      apply orb_false_elim in Hnv. destruct Hnv as [_ Hnv].
      apply IH; [exact Hsec|]. unfold push_entry. apply Forall_app. split; [exact Hini|].
      constructor; [|constructor].
      destruct Hsec as (S1 & S2 & S3 & S4).
      unfold entry_loaded. cbn [e_key e_value e_section].
      repeat split; try assumption; try apply trim_is_trimmed;
        try (now apply has_char_trim).
      destruct k as [|c' k']; [reflexivity|].
      injection Hs as <- _. unfold trim.
      rewrite skip_spaces_id by exact Ht.
      destruct (rstrip_cons c k' Ht) as [r' ->]. cbn [entry_start].
      now rewrite Ec, Eb.
Qed.

(** X21 — what a loaded table can hold.  In every table the loader
    returns, each key and each value is free of white space at both ends,
    no key contains '=' or starts with ';', '#' or '[', each section name
    has at most 127 characters, no leading white space and no ']', and
    nothing contains a NUL.  So a lookup in a loaded table can only
    succeed for a trimmed key, and the value it returns is trimmed. *)
Theorem ini_loaded_entries (fs : string -> os_read string) (path : option string)
    (ini : sysmon_ini) (e : option string) :
  sysmon_ini_load_file fs path = (SYSMON_OK, Some ini, e) ->
  e = None
  /\ Forall entry_loaded ini
  /\ forall section key v,
       sysmon_ini_get ini section key = Some v ->
       is_trimmed key = true /\ is_trimmed v = true
       /\ (String.length section <= 127)%nat.
Proof.
  unfold sysmon_ini_load_file. destruct path as [p|]; [|discriminate].
  destruct (fs p) as [bytes|reason]; [|discriminate].
  intros H. apply load_lines_loaded in H.
  - destruct H as [-> Hall]. split; [reflexivity|]. split; [exact Hall|].
    intros section key v Hget. apply sysmon_ini_get_in in Hget.
    rewrite Forall_forall in Hall. specialize (Hall _ Hget).
    unfold entry_loaded in Hall. cbn [e_key e_value e_section] in Hall. tauto.
  - unfold section_loaded. cbn. repeat split. lia.
  - constructor.
Qed.

Lemma ini_loaded_entries_witness :
  sysmon_ini_load_file example_ini_fs (Some "sysmon.ini")
  = (SYSMON_OK, Some [mk_entry "sysmon" "interval_ms" "250"], None)
  /\ Forall entry_loaded [mk_entry "sysmon" "interval_ms" "250"].
Proof.
  assert (H : sysmon_ini_load_file example_ini_fs (Some "sysmon.ini")
              = (SYSMON_OK, Some [mk_entry "sysmon" "interval_ms" "250"], None))
    by (vm_compute; reflexivity).
  split; [exact H|].
  exact (proj1 (proj2 (ini_loaded_entries example_ini_fs (Some "sysmon.ini") _ _ H))).
Defined.

(** *** Writing a table and reading it back *)

Lemma string_app_assoc (a b c : string) :
  ((a ++ b) ++ c)%string = (a ++ (b ++ c))%string.
Proof.
  induction a as [|x a IH]; [reflexivity|]. cbn. now rewrite IH.
Qed.

(** [fgets] returns a line that fits the buffer in one piece. *)
Lemma read_lines_line (n : nat) (l rest : string) :
  forall room : nat,
    has_char LF l = false -> (String.length l + 1 <= room)%nat ->
    read_lines n room (l ++ String LF rest)%string
    = (l ++ String LF EmptyString)%string :: read_lines n (n - 1) rest.
Proof.
  induction l as [|c l IH]; intros room Hlf Hlen; cbn [append read_lines].
  - now rewrite Ascii.eqb_refl.
  - cbn [has_char] in Hlf. apply orb_false_elim in Hlf. destruct Hlf as [Hc Hl].
    cbn [String.length] in Hlen. rewrite Hc.
    destruct (Nat.leb_spec room 1) as [Hle|Hgt]; [lia|]. cbn [orb].
    rewrite (IH (room - 1)%nat Hl) by lia. reflexivity.
Qed.

Lemma last_is_space_app (a : string) (c : ascii) (r : string) :
  last_is_space (a ++ String c r)%string = last_is_space (String c r).
Proof.
  induction a as [|x a IH]; [reflexivity|].
  cbn [append]. change (last_is_space (String x (a ++ String c r)%string))
    with (match (a ++ String c r)%string with
          | EmptyString => isspace x
          | String _ _ => last_is_space (a ++ String c r)%string
          end).
  rewrite IH. now destruct a.
Qed.

Lemma rstrip_app_lf (s : string) :
  last_is_space s = false -> rstrip (s ++ String LF EmptyString)%string = s.
Proof.
  induction s as [|c r IH]; [reflexivity|].
  cbn [append rstrip]. destruct r as [|d r'].
  - cbn. now intros ->.
  - intros H. rewrite (IH H). reflexivity.
Qed.

(** A trimmed line followed by a newline is trimmed back to itself. *)
Lemma trim_line (s : string) :
  first_is_space s = false -> last_is_space s = false -> has_char NUL s = false ->
  trim (c_str (s ++ String LF EmptyString)%string) = s.
Proof.
  intros Hf Hl Hn. rewrite c_str_id.
  - unfold trim. destruct s as [|c r]; [reflexivity|].
    rewrite skip_spaces_id by exact Hf. now apply rstrip_app_lf.
  - rewrite has_char_app, Hn. reflexivity.
Qed.

Lemma entry_loaded_section_trim (e : sysmon_ini_entry) :
  entry_writable e -> trim (e_section e) = e_section e.
Proof.
  intros ((_ & _ & _ & _ & _ & Hf & _) & Hl & _). apply trim_id.
  unfold is_trimmed. now rewrite Hf, Hl.
Qed.

Lemma load_lines_header (e : sysmon_ini_entry) (rest : list string) (n : nat)
    (section : string) (ini : sysmon_ini) :
  entry_writable e ->
  load_lines ((header_text e ++ String LF EmptyString)%string :: rest) n section ini
  = load_lines rest (S n) (e_section e) ini.
Proof.
  intros Hw. pose proof (entry_loaded_section_trim e Hw) as Htrim.
  destruct Hw as ((_ & _ & _ & _ & Hlen & _ & Hb & Hn & _) & _).
  cbn [load_lines]. rewrite trim_line.
  - unfold header_text. cbn [starts_with_comment].
    change (Ascii.eqb "[" ";" || Ascii.eqb "[" "#") with false.
    change (Ascii.eqb "[" "[") with true. cbv iota.
    rewrite (strchr_split_app "]" (e_section e) EmptyString Hb).
    rewrite Htrim. unfold snprintf_s. now rewrite substring_all by (cbn; lia).
  - reflexivity.
  - exact (last_is_space_app (String "[" (e_section e)) "]" EmptyString).
  - unfold header_text. cbn [has_char]. rewrite has_char_app, Hn. reflexivity.
Qed.

Lemma load_lines_entry (e : sysmon_ini_entry) (rest : list string) (n : nat)
    (section : string) (ini : sysmon_ini) :
  entry_writable e ->
  load_lines ((entry_text e ++ String LF EmptyString)%string :: rest) n section ini
  = load_lines rest (S n) section
      (push_entry ini section (e_key e) (e_value e)).
Proof.
  intros ((Hk & Hv & Heq & Hst & _ & _ & _ & _ & Hnk & Hnv) & _).
  assert (Hk' := Hk). assert (Hv' := Hv).
  unfold is_trimmed in Hk, Hv. apply andb_true_iff in Hk, Hv.
  destruct Hk as [Hk1 Hk2], Hv as [Hv1 Hv2].
  apply negb_true_iff in Hk1, Hk2, Hv1, Hv2.
  cbn [load_lines]. rewrite trim_line.
  - assert (Hc : exists c body,
               entry_text e = String c body
               /\ Ascii.eqb c ";" || Ascii.eqb c "#" = false
               /\ Ascii.eqb c "[" = false).
    { unfold entry_text. unfold entry_start in Hst.
      destruct (e_key e) as [|c k']; [now exists "="%char, (e_value e)|].
      exists c, (k' ++ String "=" (e_value e))%string. split; [reflexivity|].
      apply negb_true_iff in Hst. apply orb_false_elim in Hst. tauto. }
    destruct Hc as (c & body & Et & Hc1 & Hc2).
    rewrite Et. cbn [starts_with_comment]. rewrite Hc1, Hc2. rewrite <- Et.
    unfold entry_text. rewrite (strchr_split_app "=" _ _ Heq).
    now rewrite !trim_id.
  - unfold entry_text. now destruct (e_key e).
  - unfold entry_text. rewrite last_is_space_app.
    destruct (e_value e); [reflexivity|exact Hv2].
  - unfold entry_text. rewrite has_char_app, Hnk. cbn [has_char orb].
    now rewrite Hnv.
Qed.

Lemma render_entry_lines (e : sysmon_ini_entry) (rest : string) :
  entry_writable e ->
  read_lines 1024 1023 (render_entry e ++ rest)%string
  = (header_text e ++ String LF EmptyString)%string
    :: (entry_text e ++ String LF EmptyString)%string
    :: read_lines 1024 1023 rest.
Proof.
  intros ((_ & _ & _ & _ & Hlen & _) & _ & Hls & Hlk & Hlv & Hkv).
  assert (E : (render_entry e ++ rest)%string
              = (header_text e ++ String LF (entry_text e ++ String LF rest))%string).
  { unfold render_entry, header_text, entry_text.
    repeat first [rewrite string_app_assoc | progress cbn [append]]. reflexivity. }
  rewrite E. rewrite read_lines_line.
  - change (1024 - 1)%nat with 1023%nat. rewrite read_lines_line.
    + reflexivity.
    + unfold entry_text. rewrite has_char_app, Hlk. cbn [has_char orb].
      rewrite Hlv. reflexivity.
    + unfold entry_text. rewrite string_length_app. cbn [String.length]. lia.
  - unfold header_text. cbn [has_char]. rewrite has_char_app, Hls. reflexivity.
  - unfold header_text. cbn [String.length]. rewrite string_length_app.
    cbn [String.length]. lia.
Qed.

Lemma load_rendered (ini : sysmon_ini) :
  forall (n : nat) (section : string) (acc : sysmon_ini),
    Forall entry_writable ini ->
    load_lines (read_lines 1024 1023 (render_ini ini)) n section acc
    = (SYSMON_OK, Some (acc ++ ini), None).
Proof.
  induction ini as [|e r IH]; intros n section acc Hall.
  - cbn. now rewrite app_nil_r.
  - inversion Hall as [|? ? He Hr]; subst. cbn [render_ini].
    rewrite render_entry_lines by exact He.
    rewrite load_lines_header by exact He.
    rewrite load_lines_entry by exact He.
    rewrite IH by exact Hr. unfold push_entry. rewrite <- app_assoc.
    now destruct e.
Qed.

(** X22 — a table written out is read back unchanged.  Take entries
    whose keys and values are trimmed, contain no newline and no NUL and
    together have at most 1021 characters, whose keys contain no '=' and
    do not start with ';', '#' or '[', and whose section names are
    trimmed, have at most 127 characters and contain no ']', newline or
    NUL.  Writing each as the line [[section]] followed by the line
    [key=value] gives a file from which the loader returns OK, no message
    and exactly these entries in this order; every lookup in the loaded
    table then answers as in the original one. *)
Theorem ini_round_trip (fs : string -> os_read string) (path : string)
    (ini : sysmon_ini) :
  Forall entry_writable ini ->
  fs path = ReadOk (render_ini ini) ->
  sysmon_ini_load_file fs (Some path) = (SYSMON_OK, Some ini, None)
  /\ forall loaded section key,
       snd (fst (sysmon_ini_load_file fs (Some path))) = Some loaded ->
       sysmon_ini_get loaded section key = sysmon_ini_get ini section key.
Proof.
  intros Hall Hfs.
  assert (H : sysmon_ini_load_file fs (Some path) = (SYSMON_OK, Some ini, None)).
  { unfold sysmon_ini_load_file. rewrite Hfs. now rewrite load_rendered. }
  split; [exact H|]. intros loaded section key. rewrite H. cbn. now intros [= <-].
Qed.

Lemma ini_round_trip_witness :
  let fs := fun _ : string => ReadOk (render_ini example_table) in
  Forall entry_writable example_table
  /\ sysmon_ini_load_file fs (Some "sysmon.ini") = (SYSMON_OK, Some example_table, None).
Proof.
  cbv zeta.
  assert (Hall : Forall entry_writable example_table).
  { unfold example_table, entry_writable, entry_loaded.
    repeat constructor; cbn; lia. }
  split; [exact Hall|].
  exact (proj1 (ini_round_trip (fun _ => ReadOk (render_ini example_table))
                  "sysmon.ini" example_table Hall eq_refl)).
Defined.

(** *** Files seen as lines *)

Lemma rstrip_app_newline (s : string) :
  rstrip (s ++ String LF EmptyString)%string = rstrip s.
Proof.
  induction s as [|c r IH]; [reflexivity|].
  cbn [append rstrip]. now rewrite IH.
Qed.

Lemma trim_app_newline (s : string) :
  trim (s ++ String LF EmptyString)%string = trim s.
Proof.
  unfold trim. induction s as [|c r IH]; [reflexivity|].
  cbn [append skip_spaces]. destruct (isspace c); [exact IH|].
  apply (rstrip_app_newline (String c r)).
Qed.

Lemma c_str_app_newline (s : string) :
  c_str (s ++ String LF EmptyString)%string = c_str s
  \/ c_str (s ++ String LF EmptyString)%string = (c_str s ++ String LF EmptyString)%string.
Proof.
  induction s as [|c r IH]; [now right|].
  cbn [append c_str]. destruct (Ascii.eqb c NUL); [now left|].
  destruct IH as [-> | ->]; [now left|now right].
Qed.

(** The newline that ends a line plays no part in what the line says. *)
Lemma trim_line_text (l : string) :
  trim (c_str (l ++ String LF EmptyString)%string) = trim (c_str l).
Proof.
  destruct (c_str_app_newline l) as [-> | ->]; [reflexivity|apply trim_app_newline].
Qed.

Lemma ignorable_newline (l : string) :
  ignorable (l ++ String LF EmptyString)%string = ignorable l.
Proof. unfold ignorable. now rewrite trim_line_text. Qed.

Lemma malformed_newline (l : string) :
  malformed (l ++ String LF EmptyString)%string = malformed l.
Proof. unfold malformed. now rewrite trim_line_text. Qed.

Lemma read_file_of_lines (ls : list string) :
  Forall line_fits ls ->
  read_lines 1024 1023 (file_of_lines ls)
  = map (fun l => (l ++ String LF EmptyString)%string) ls.
Proof.
  induction 1 as [|l r [Hlf Hlen] _ IH]; [reflexivity|].
  cbn [file_of_lines map]. rewrite read_lines_line by (assumption || lia).
  change (1024 - 1)%nat with 1023%nat. now rewrite IH.
Qed.

Lemma first_malformed_newlines (ls : list string) :
  forall n,
    first_malformed (map (fun l => (l ++ String LF EmptyString)%string) ls) n
    = first_malformed ls n.
Proof.
  induction ls as [|l r IH]; intros n; [reflexivity|].
  cbn [map first_malformed]. rewrite malformed_newline, IH. reflexivity.
Qed.

Lemma filter_ignorable_newlines (ls : list string) :
  map (fun l => (l ++ String LF EmptyString)%string)
      (filter (fun l => negb (ignorable l)) ls)
  = filter (fun l => negb (ignorable l))
      (map (fun l => (l ++ String LF EmptyString)%string) ls).
Proof.
  induction ls as [|l r IH]; [reflexivity|].
  cbn [map filter]. rewrite ignorable_newline.
  destruct (ignorable l); cbn [negb map]; now rewrite IH.
Qed.

Lemma first_malformed_line (ls : list string) :
  forall n k what,
    first_malformed ls n = Some (k, what) ->
    (n < k <= n + List.length ls)%nat
    /\ (exists l, nth_error ls (k - n - 1) = Some l /\ malformed l = Some what)
    /\ (forall j l, (j < k - n - 1)%nat -> nth_error ls j = Some l ->
                    malformed l = None)
    /\ (what = "missing ']'"%string \/ what = "expected key=value"%string).
Proof.
  induction ls as [|l r IH]; intros n k what; [discriminate|].
  cbn [first_malformed]. destruct (malformed l) as [w|] eqn:Em.
  - intros [= <- <-]. cbn [List.length].
    replace (S n - n - 1)%nat with 0%nat by lia.
    split; [lia|]. split; [now exists l|]. split; [intros j l' Hj; lia|].
    unfold malformed in Em.
    destruct (trim (c_str l)) as [|c body]; [discriminate|].
    destruct (Ascii.eqb c ";" || Ascii.eqb c "#"); [discriminate|].
    destruct (Ascii.eqb c "[").
    + destruct (strchr_split "]" body); [discriminate|]. injection Em as <-. now left.
    + destruct (strchr_split "=" (String c body)); [discriminate|].
      injection Em as <-. now right.
  - intros H. destruct (IH (S n) k what H) as (Hk & (l' & Hl' & Hm') & Hbefore & Hw).
    cbn [List.length]. split; [lia|].
    replace (k - n - 1)%nat with (S (k - S n - 1)) by lia.
    split; [now exists l'|]. split; [|exact Hw].
    intros [|j] x Hj Hx; cbn in Hx.
    + now injection Hx as <-.
    + apply (Hbefore j x); [lia|exact Hx].
Qed.

(** X19 — blank lines and comments carry no meaning.  Take a file whose
    lines each have at most 1022 characters and end with a newline.
    Deleting every line whose text (up to a NUL, if it has one) is blank
    or has ';' or '#' as its first non-blank character changes neither
    the result code of the loader nor the table it returns; only the
    line number in the message of a parse error can differ. *)
Theorem ini_comments_ignored (fs fs' : string -> os_read string) (path : string)
    (ls : list string) :
  Forall line_fits ls ->
  fs path = ReadOk (file_of_lines ls) ->
  fs' path = ReadOk (file_of_lines (filter (fun l => negb (ignorable l)) ls)) ->
  fst (sysmon_ini_load_file fs (Some path)) = fst (sysmon_ini_load_file fs' (Some path))
  /\ (snd (sysmon_ini_load_file fs (Some path)) = None
      <-> snd (sysmon_ini_load_file fs' (Some path)) = None).
Proof.
  intros Hfit Hfs Hfs'. unfold sysmon_ini_load_file. rewrite Hfs, Hfs'.
  rewrite !read_file_of_lines.
  - rewrite filter_ignorable_newlines. apply load_lines_skips_ignorable.
  - rewrite Forall_forall in *. intros l Hl. apply filter_In in Hl. now apply Hfit.
  - exact Hfit.
Qed.

Lemma ini_comments_ignored_witness :
  let fs := fun _ : string => ReadOk (file_of_lines commented_lines) in
  let fs' := fun _ : string => ReadOk (file_of_lines ["[sysmon]"; "interval_ms = 250"]%string) in
  Forall line_fits commented_lines
  /\ fst (sysmon_ini_load_file fs (Some "sysmon.ini"%string))
     = fst (sysmon_ini_load_file fs' (Some "sysmon.ini"%string)).
Proof.
  cbv zeta.
  assert (Hfit : Forall line_fits commented_lines).
  { unfold commented_lines, line_fits. repeat constructor; cbn; lia. }
  split; [exact Hfit|].
  exact (proj1 (ini_comments_ignored
                  (fun _ => ReadOk (file_of_lines commented_lines))
                  (fun _ => ReadOk (file_of_lines ["[sysmon]"; "interval_ms = 250"]%string))
                  "sysmon.ini" commented_lines Hfit eq_refl eq_refl)).
Defined.


